(** * MRP data page: sheet selection, schema resolution, demand explosion,
      excess netting, lot sizing and purchase-order dating.

    Shallow embedding of [src/pages/mrp/MrpDataPage.tsx].

    Conventions of the embedding:
    - a JavaScript [number] that is finite is a rational [Q] (exact
      arithmetic; rounding of doubles is not modelled); where a parameter can
      be non-finite it has type [number] below;
    - a JavaScript string is a [string] whose characters are the code units
      below 256 (Latin-1); white space and case folding are those of
      ECMAScript on that range;
    - a spreadsheet cell ([unknown] in the source) is a number, a string or a
      nullish value; a boolean cell behaves in every path of this code as its
      string form;
    - a [Map] whose iteration order is observed is an insertion-ordered
      association list ([OMap]); a [Map] that is only read with [get] and
      written with [set] is a [gmap];
    - a [Date] is its local time in days since 1970-01-01T00:00 (a rational),
      or invalid; the offset between local time and UTC is taken constant. *)

From Stdlib Require Import ZArith QArith Qround String Ascii List Lia Bool.
From Stdlib Require Import DecimalString Lqa Permutation.
From stdpp Require Import base gmap strings.
Import ListNotations.

Local Open Scope string_scope.

(** ** JavaScript string primitives used by the page *)

Module JS.

(** White space of [String.prototype.trim] and of the regular expression
    class [\s] among the code units below 256: TAB, LF, VT, FF, CR, SPACE and
    NO-BREAK SPACE. *)
Definition isWhiteSpace (c : ascii) : bool :=
  let n := nat_of_ascii c in
  Nat.eqb n 32 || (Nat.leb 9 n && Nat.leb n 13) || Nat.eqb n 160.

Definition isDigit (c : ascii) : bool :=
  let n := nat_of_ascii c in
  Nat.leb 48 n && Nat.leb n 57.

Fixpoint trimStart (s : string) : string :=
  match s with
  | EmptyString => EmptyString
  | String c s' => if isWhiteSpace c then trimStart s' else s
  end.

Fixpoint trimEnd (s : string) : string :=
  match s with
  | EmptyString => EmptyString
  | String c s' =>
      match trimEnd s' with
      | EmptyString => if isWhiteSpace c then EmptyString else String c EmptyString
      | t => String c t
      end
  end.

Definition trim (s : string) : string := trimEnd (trimStart s).

(** Lower case of a code unit below 256: A-Z, and the Latin-1 capitals
    U+00C0-U+00DE except the multiplication sign U+00D7. *)
Definition toLowerChar (c : ascii) : ascii :=
  let n := nat_of_ascii c in
  if (Nat.leb 65 n && Nat.leb n 90) ||
     (Nat.leb 192 n && Nat.leb n 222 && negb (Nat.eqb n 215))
  then ascii_of_nat (n + 32) else c.

Fixpoint toLowerCase (s : string) : string :=
  match s with
  | EmptyString => EmptyString
  | String c s' => String (toLowerChar c) (toLowerCase s')
  end.

(** [includes s q] is [s.includes(q)]. *)
Fixpoint includes (s q : string) : bool :=
  if String.prefix q s then true
  else match s with
       | EmptyString => false
       | String _ s' => includes s' q
       end.

(** [s.replaceAll(/\s+/g, ' ')]: every maximal run of white space becomes one
    space.  [inRun] tells that the previous character was white space. *)
Fixpoint replaceSpaceRuns (inRun : bool) (s : string) : string :=
  match s with
  | EmptyString => EmptyString
  | String c s' =>
      if isWhiteSpace c then
        if inRun then replaceSpaceRuns true s'
        else String " " (replaceSpaceRuns true s')
      else String c (replaceSpaceRuns false s')
  end.

(** [s.replaceAll(from, to)] for single characters. *)
Fixpoint replaceAllChar (from to : ascii) (s : string) : string :=
  match s with
  | EmptyString => EmptyString
  | String c s' =>
      String (if Ascii.eqb c from then to else c) (replaceAllChar from to s')
  end.

(** [s.split(sep)] for a one-character separator. *)
Fixpoint split (sep : ascii) (s : string) : list string :=
  match s with
  | EmptyString => [EmptyString]
  | String c s' =>
      if Ascii.eqb c sep then EmptyString :: split sep s'
      else match split sep s' with
           | h :: t => String c h :: t
           | [] => [String c EmptyString]
           end
  end.

(** [parts.join(sep)]. *)
Fixpoint join (sep : string) (parts : list string) : string :=
  match parts with
  | [] => EmptyString
  | [p] => p
  | p :: rest => p ++ sep ++ join sep rest
  end.

(** [s.padStart(2, '0')]. *)
Definition padStart2 (s : string) : string :=
  match String.length s with
  | O => "00"
  | S O => "0" ++ s
  | _ => s
  end.

(** [s.slice(-2)]: the last two characters, or [s] when it is shorter. *)
Definition sliceLast2 (s : string) : string :=
  let n := String.length s in
  substring (n - 2) 2 s.

(** [String(z)] for an integer [z]. *)
Definition stringOfZ (z : Z) : string :=
  NilZero.string_of_int (Z.to_int z).

(** Value of a string of decimal digits, most significant first. *)
Fixpoint digitsValue (acc : Z) (s : string) : Z :=
  match s with
  | EmptyString => acc
  | String c s' => digitsValue (10 * acc + Z.of_nat (nat_of_ascii c - 48)) s'
  end.

Fixpoint allDigits (s : string) : bool :=
  match s with
  | EmptyString => true
  | String c s' => isDigit c && allDigits s'
  end.

(** The regular expression [/^\d{2}\.\d{4}$/]: the period key [WW.YYYY]. *)
Definition isPeriod (s : string) : bool :=
  match s with
  | String w1 (String w2 (String d (String y1 (String y2 (String y3
      (String y4 EmptyString)))))) =>
      isDigit w1 && isDigit w2 && Ascii.eqb d "." &&
      isDigit y1 && isDigit y2 && isDigit y3 && isDigit y4
  | _ => false
  end.

(** [xs.findIndex(p)]: the first index whose element satisfies [p], else -1. *)
Fixpoint findIndexFrom {A} (p : A -> bool) (i : Z) (xs : list A) : Z :=
  match xs with
  | [] => (-1)%Z
  | x :: rest => if p x then i else findIndexFrom p (i + 1)%Z rest
  end.

Definition findIndex {A} (p : A -> bool) (xs : list A) : Z :=
  findIndexFrom p 0%Z xs.

(** [xs[i]] for an index that may be -1 or past the end: [None] stands for
    [undefined]. *)
Definition at_ {A} (xs : list A) (i : Z) : option A :=
  if (i <? 0)%Z then None else nth_error xs (Z.to_nat i).

(** [[...new Set(xs)]]: duplicates dropped, first occurrences kept in order. *)
Fixpoint uniqueFrom (seen : list string) (xs : list string) : list string :=
  match xs with
  | [] => []
  | x :: rest =>
      if existsb (String.eqb x) seen then uniqueFrom seen rest
      else x :: uniqueFrom (x :: seen) rest
  end.

Definition unique (xs : list string) : list string := uniqueFrom [] xs.

End JS.

(** ** Numbers, cells and the host environment *)

(** A JavaScript number where the source tests for finiteness. *)
Inductive number := Fin (q : Q) | NaN | PosInfinity | NegInfinity.

(** A cell of a sheet ([unknown] in the source): a finite number, a string,
    or [null]/[undefined] (also what indexing a row out of range gives). *)
Inductive cell := CNum (n : Q) | CStr (s : string) | CNil.

Definition Grid := list (list cell).

(** Built-ins of the JavaScript engine that the page calls and that are not
    part of the repository.  [NumberOther s] is [Number(s)] for a trimmed,
    non-empty string that is not a plain run of decimal digits, [None] when
    the result is [NaN] or infinite; [StringOfNumber] is [String(n)];
    [DateParse s] is the local time in days of [new Date(s)], [None] for an
    invalid date. *)
Class Host := {
  NumberOther : string -> option Q;
  StringOfNumber : Q -> string;
  DateParse : string -> option Q
}.

Definition Qltb (x y : Q) : bool := negb (Qle_bool y x).

(** [x || 0] on a finite number. *)
Definition orZero (x : Q) : Q := if Qeq_bool x 0 then 0%Q else x.

(** [ToIntegerOrInfinity] on a finite number: truncation toward zero. *)
Definition Qtrunc (x : Q) : Z :=
  if Qle_bool 0 x then Qfloor x else Qceiling x.

(** ** Insertion-ordered maps: a JavaScript [Map] (or an object with
    non-numeric keys) whose iteration order the code observes *)

Module OMap.

Definition t (V : Type) : Type := list (string * V).

Fixpoint get {V} (m : t V) (k : string) : option V :=
  match m with
  | [] => None
  | (k', v) :: rest => if String.eqb k' k then Some v else get rest k
  end.

(** [m.set(k, v)]: an existing key keeps its position, a new key goes last. *)
Fixpoint set {V} (m : t V) (k : string) (v : V) : t V :=
  match m with
  | [] => [(k, v)]
  | (k', v') :: rest =>
      if String.eqb k' k then (k', v) :: rest else (k', v') :: set rest k v
  end.

Definition keys {V} (m : t V) : list string := List.map fst m.

Definition values {V} (m : t V) : list V := List.map snd m.

End OMap.

(** ** Dates

    The day arithmetic of ECMAScript ([DayFromYear], [YearFromTime],
    [MonthFromTime], [DateFromTime], [MakeDay], [TimeClip]) on days instead of
    milliseconds.  A valid date is its local time in days since
    1970-01-01T00:00; [None] is an invalid date. *)

Module JSDate.

Local Open Scope Z_scope.

Definition t : Type := option Q.

Definition DayFromYear (y : Z) : Z :=
  365 * (y - 1970) + (y - 1969) / 4 - (y - 1901) / 100 + (y - 1601) / 400.

(** 1 in a leap year, else 0. *)
Definition InLeapYear (y : Z) : Z :=
  if (y mod 4 =? 0) && (negb (y mod 100 =? 0) || (y mod 400 =? 0)) then 1 else 0.

(** The largest [y] with [DayFromYear y <= day]: an estimate from the mean
    length of a year, corrected by at most one. *)
Definition YearFromDay (day : Z) : Z :=
  let y := 1970 + (400 * day) / 146097 in
  if day <? DayFromYear y then y - 1
  else if DayFromYear (y + 1) <=? day then y + 1
  else y.

(** Day within the year on which month [m] (0 = January) starts. *)
Definition monthStart (leap m : Z) : Z :=
  match m with
  | 0 => 0
  | 1 => 31
  | 2 => 59 + leap
  | 3 => 90 + leap
  | 4 => 120 + leap
  | 5 => 151 + leap
  | 6 => 181 + leap
  | 7 => 212 + leap
  | 8 => 243 + leap
  | 9 => 273 + leap
  | 10 => 304 + leap
  | _ => 334 + leap
  end.

Definition MonthFromDay (day : Z) : Z :=
  let y := YearFromDay day in
  let d := day - DayFromYear y in
  let leap := InLeapYear y in
  if d <? 31 then 0
  else if d <? 59 + leap then 1
  else if d <? 90 + leap then 2
  else if d <? 120 + leap then 3
  else if d <? 151 + leap then 4
  else if d <? 181 + leap then 5
  else if d <? 212 + leap then 6
  else if d <? 243 + leap then 7
  else if d <? 273 + leap then 8
  else if d <? 304 + leap then 9
  else if d <? 334 + leap then 10
  else 11.

Definition DateFromDay (day : Z) : Z :=
  let y := YearFromDay day in
  day - DayFromYear y - monthStart (InLeapYear y) (MonthFromDay day) + 1.

(** [MakeDay(year, month, date)] on integers. *)
Definition MakeDay (year month date : Z) : Z :=
  let ym := year + month / 12 in
  let mn := month mod 12 in
  DayFromYear ym + monthStart (InLeapYear ym) mn + date - 1.

(** [TimeClip]: a time more than 8.64e15 ms (10^8 days) from the epoch is
    invalid. *)
Definition TimeClip (x : Q) : t :=
  if Qle_bool (-(100000000))%Q x && Qle_bool x 100000000%Q then Some x else None.

(** [new Date(year, month, date)] with integer [month] and [date]: a year
    whose integer part is between 0 and 99 means 1900 + that. *)
Definition ofYMD (year : option Q) (month date : Z) : t :=
  match year with
  | None => None
  | Some y =>
      let yi := Qtrunc y in
      let yr := if (0 <=? yi) && (yi <=? 99) then 1900 + yi else yi in
      TimeClip (inject_Z (MakeDay yr month date))
  end.

Definition getFullYear (x : Q) : Z := YearFromDay (Qfloor x).
Definition getMonth (x : Q) : Z := MonthFromDay (Qfloor x).
Definition getDate (x : Q) : Z := DateFromDay (Qfloor x).

(** [d.getDate()] as a number, [NaN] ([None]) on an invalid date. *)
Definition getDateNumber (d : t) : option Q :=
  match d with
  | Some x => Some (inject_Z (getDate x))
  | None => None
  end.

(** [d.setDate(v)]: the day of the month is replaced by the integer part of
    [v], the time within the day is kept. *)
Definition setDate (d : t) (v : option Q) : t :=
  match d, v with
  | Some x, Some dt =>
      let day := Qfloor x in
      let timeWithinDay := (x - inject_Z day)%Q in
      TimeClip (inject_Z (MakeDay (YearFromDay day) (MonthFromDay day) (Qtrunc dt))
                + timeWithinDay)%Q
  | _, _ => None
  end.

(** [new Date(d.getTime() + days * 24 * 60 * 60 * 1000)]. *)
Definition plusDays (d : t) (days : Q) : t :=
  match d with
  | Some x => TimeClip (x + days)%Q
  | None => None
  end.

End JSDate.

(** Arithmetic on numbers that may be [NaN] ([None]). *)
Definition numAdd (a b : option Q) : option Q :=
  match a, b with
  | Some x, Some y => Some (x + y)%Q
  | _, _ => None
  end.

Definition numSub (a b : option Q) : option Q :=
  match a, b with
  | Some x, Some y => Some (x - y)%Q
  | _, _ => None
  end.

Definition numMul (a b : option Q) : option Q :=
  match a, b with
  | Some x, Some y => Some (x * y)%Q
  | _, _ => None
  end.

(** ** Records of the page *)

Record ParsedExcel := {
  sheetName : string;
  jsonData : Grid
}.

Module MrpRow.

Record t := {
  material : string;
  uom : string;
  supplierCode : string;
  mpq : Q;
  moq : Q;
  reorder : Q;
  instock : Q;
  pendingPo : Q;
  excessQty : Q;
  leadTime : Q;
  weeklyDemand : OMap.t Q;
  weeklyMrpQty : OMap.t Q;
  weeklyPoDate : OMap.t string;
  totalDemand : Q
}.

End MrpRow.

(** The argument of [calculateMrpDataInternal]. *)
Module Inputs.

Record t := {
  bom : option ParsedExcel;
  materialMaster : option ParsedExcel;
  idp : option ParsedExcel;
  supplierDetails : option ParsedExcel;
  weekPlan : option ParsedExcel
}.

End Inputs.

(** The state of the component that the computation reads and writes. *)
Record PageState := {
  mrpCalculatedData : option (list MrpRow.t);
  weekColumns : list string;
  allWeekColumns : list string;
  selectedYear : string;
  startWeek : Z;
  endWeek : Z
}.

(** The dialog that [Swal.fire] shows.  [DataError] has icon error and title
    Data Error; [ColumnError] carries the sheet name and the header preview
    that the source renders into its HTML body; [CalculationComplete] carries
    the numbers of the success summary. *)
Inductive Alert :=
| DataError (text : string)
| ColumnError (sheet headerPreview : string)
| CalculationComplete (totalMaterials materialsWithDemand : nat)
    (fromWeek toWeek : Z) (weeks : nat).

Section Page.

Context `{Host}.

(** [String(v ?? '')]. *)
Definition String_ (v : cell) : string :=
  match v with
  | CNum n => StringOfNumber n
  | CStr s => s
  | CNil => ""
  end.

(** [Number(s)] on a string: white space is trimmed, the empty string is 0, a
    run of decimal digits is its value; the rest is the host's. *)
Definition Number_ (s : string) : option Q :=
  let t := JS.trim s in
  if String.eqb t "" then Some 0%Q
  else if JS.allDigits t then Some (inject_Z (JS.digitsValue 0 t))
  else NumberOther t.

(** [row[i]], [undefined] when [i] is -1 or past the end. *)
Definition cellAt (row : list cell) (i : Z) : cell :=
  match JS.at_ row i with
  | Some c => c
  | None => CNil
  end.

Definition toNumber (v : cell) : Q :=
  match v with
  | CNum n => n
  | _ => match Number_ (JS.trim (String_ v)) with
         | Some n => n
         | None => 0%Q
         end
  end.

Definition normalizeHeaderValue (v : cell) : string :=
  JS.replaceAllChar "_" " "
    (JS.replaceSpaceRuns false (JS.toLowerCase (JS.trim (String_ v)))).

(** [String(h ?? '').toLowerCase().includes(q)], the header test of the
    lookup builders. *)
Definition lowerIncludes (q : string) (h : cell) : bool :=
  JS.includes (JS.toLowerCase (String_ h)) q.

(** [String(v ?? '').trim()]. *)
Definition trimmed (v : cell) : string := JS.trim (String_ v).

(** ** Sheet selection *)

Inductive SheetType := bom | material_master | idp | supplier_details | week_plan.

(** A workbook as [XLSX.read] returns it, each worksheet already converted to
    an array of arrays by [sheet_to_json]. *)
Record Workbook := {
  SheetNames : list string;
  Sheets : string -> option Grid
}.

Definition weight (b : bool) (w : Z) : Z := if b then w else 0%Z.

Definition scoreSheetByType (type : SheetType) (sheetName : string) (aoa : Grid) : Z :=
  let rows := firstn 15 aoa in
  let has q :=
    existsb (fun r => existsb (fun c => JS.includes (normalizeHeaderValue c) q) r) rows in
  let hasPeriod :=
    existsb (fun r => existsb (fun c => JS.isPeriod (trimmed c)) r) rows in
  let sn := normalizeHeaderValue (CStr sheetName) in
  (match type with
   | bom =>
       weight (JS.includes sn "bom") 5 + weight (has "derived") 2 +
       weight (has "child") 3 + weight (has "quantity" || has "per kit") 1 +
       weight (has "uom") 1
   | material_master =>
       weight (JS.includes sn "material") 3 + weight (JS.includes sn "master") 2 +
       weight (has "mpq") 2 + weight (has "moq") 2 + weight (has "reorder") 2 +
       weight (has "instock" || has "in stock") 1 + weight (has "pending po") 1
   | supplier_details =>
       weight (JS.includes sn "supplier") 4 + weight (JS.includes sn "vendor") 2 +
       weight (has "vendor") 2 + weight (has "lead-time" || has "lead time") 2 +
       weight (has "transport") 1
   | week_plan =>
       weight (JS.includes sn "week") 4 + weight (JS.includes sn "plan") 2 +
       weight (has "week") 2 + weight (has "start date") 2 +
       weight (has "end date") 1
   | idp =>
       weight (JS.includes sn "production") 2 + weight (JS.includes sn "plan") 2 +
       weight (JS.includes sn "idp") 4 + weight (has "derived") 2 +
       weight hasPeriod 4
   end)%Z.

(** The three [let] variables of [parseExcelArrayBuffer]. *)
Record Best := {
  bestSheetName : string;
  bestScore : Z;
  bestJsonData : option Grid
}.

(** The callback of [workbook.SheetNames.forEach]. *)
Definition considerSheet (type : SheetType) (workbook : Workbook)
    (b : Best) (sn : string) : Best :=
  match Sheets workbook sn with
  | None => b
  | Some aoa =>
      let score := scoreSheetByType type sn aoa in
      if (bestScore b <? score)%Z
      then {| bestSheetName := sn; bestScore := score; bestJsonData := Some aoa |}
      else b
  end.

Definition selectBest (type : SheetType) (workbook : Workbook) : Best :=
  fold_left (considerSheet type workbook) (SheetNames workbook)
    {| bestSheetName := hd "Sheet1" (SheetNames workbook);
       bestScore := (-1)%Z;
       bestJsonData := None |}.

Definition parseExcelArrayBuffer (workbook : Workbook) (type : SheetType) : ParsedExcel :=
  let b := selectBest type workbook in
  {| sheetName := bestSheetName b;
     jsonData := match bestJsonData b with Some aoa => aoa | None => [] end |}.

(** ** Header row and column roles *)

Fixpoint findHeaderRowFrom (matchers : list (list cell -> bool)) (i : Z)
    (scan : Grid) : Z :=
  match scan with
  | [] => 0%Z
  | row :: rest =>
      if forallb (fun m => m row) matchers then i
      else findHeaderRowFrom matchers (i + 1)%Z rest
  end.

Definition findHeaderRowIndex (rows : Grid) (matchers : list (list cell -> bool))
    (maxScan : nat) : Z :=
  findHeaderRowFrom matchers 0%Z (firstn (Nat.min maxScan (List.length rows)) rows).

Fixpoint findColumnFrom (predicates : list (string -> bool)) (i : Z)
    (headers : list cell) : Z :=
  match headers with
  | [] => (-1)%Z
  | c :: rest =>
      let h := normalizeHeaderValue c in
      if String.eqb h "" then findColumnFrom predicates (i + 1)%Z rest
      else if existsb (fun p => p h) predicates then i
      else findColumnFrom predicates (i + 1)%Z rest
  end.

Definition findColumnIndex (headers : list cell) (predicates : list (string -> bool)) : Z :=
  findColumnFrom predicates 0%Z headers.

(** The matchers of the child-part role, in the order of the source. *)
Definition childPartPredicates : list (string -> bool) :=
  [ (fun h => JS.includes h "child part");
    (fun h => String.eqb h "child");
    (fun h => String.eqb h "childpart");
    (fun h => JS.includes h "childpart");
    (fun h => JS.includes h "component");
    (fun h => JS.includes h "comp part") ].

Definition uomPredicates : list (string -> bool) :=
  [ (fun h => String.eqb h "uom");
    (fun h => JS.includes h " uom");
    (fun h => JS.includes h "unit") ].


(** ** Purchase-order date *)

Definition months : list string :=
  ["Jan"; "Feb"; "Mar"; "Apr"; "May"; "Jun"; "Jul"; "Aug"; "Sep"; "Oct"; "Nov"; "Dec"].

(** On an invalid date [getDate], [getMonth] and [getFullYear] are [NaN], and
    the three parts read "NaN", "undefined" and "aN". *)
Definition formatPoDate (d : JSDate.t) : string :=
  match d with
  | None => "NaN-undefined-aN"
  | Some x =>
      let day := JS.padStart2 (JS.stringOfZ (JSDate.getDate x)) in
      let month := nth (Z.to_nat (JSDate.getMonth x)) months "undefined" in
      let yearShort := JS.sliceLast2 (JS.stringOfZ (JSDate.getFullYear x)) in
      day ++ "-" ++ month ++ "-" ++ yearShort
  end.

(** [mrpQty <= 0]. *)
Definition leZero (n : number) : bool :=
  match n with
  | Fin q => Qle_bool q 0
  | NegInfinity => true
  | NaN | PosInfinity => false
  end.

(** [Number.isFinite(n) ? n : 0]. *)
Definition finiteOrZero (n : number) : Q :=
  match n with
  | Fin q => q
  | _ => 0%Q
  end.

(** The week-plan branch of [calculatePoDate]: the start date of the row whose
    week cell is the period string, [None] when the variable [requiredDate]
    stays [null] or holds an invalid date. *)
Definition weekPlanDate (weekStr : string) (weekPlan : option ParsedExcel) : JSDate.t :=
  match weekPlan with
  | None => None
  | Some wp =>
      match jsonData wp with
      | [] => None
      | headers :: rows =>
          let weekNoIdx := JS.findIndex (lowerIncludes "week") headers in
          let startDateIdx := JS.findIndex (lowerIncludes "start date") headers in
          let isWeekRow (r : list cell) :=
            match cellAt r weekNoIdx with
            | CStr s => String.eqb s weekStr
            | _ => false
            end in
          match List.find isWeekRow rows with
          | None => None
          | Some weekRow =>
              match cellAt weekRow startDateIdx with
              | CNil => None
              | CNum n =>
                  let excelEpoch := JSDate.ofYMD (Some 1899%Q) 11 30 in
                  JSDate.plusDays excelEpoch n
              | CStr s => if String.eqb s "" then None else DateParse s
              end
          end
      end
  end.

(** The fallback of [calculatePoDate]: January 1 of the year, moved by
    [setDate] to day-of-month 1 + 7 * week. *)
Definition fallbackDate (weekStr : string) : JSDate.t :=
  let parts := JS.split "." weekStr in
  let weekNum := match nth_error parts 0 with Some s => Number_ s | None => None end in
  let year := match nth_error parts 1 with Some s => Number_ s | None => None end in
  let yearStart := JSDate.ofYMD year 0 1 in
  JSDate.setDate yearStart
    (numAdd (JSDate.getDateNumber yearStart) (numMul weekNum (Some 7%Q))).

(** No statement of the body throws on the values of this embedding, so the
    [catch] branch is never taken. *)
Definition calculatePoDate (weekStr : string) (leadTimeDays mrpQty : number)
    (weekPlan : option ParsedExcel) : string :=
  if leZero mrpQty then "-"
  else
    let requiredDate :=
      match weekPlanDate weekStr weekPlan with
      | Some x => Some x
      | None => fallbackDate weekStr
      end in
    let poDate :=
      JSDate.setDate requiredDate
        (numSub (JSDate.getDateNumber requiredDate) (Some (finiteOrZero leadTimeDays))) in
    formatPoDate poDate.

(** ** Lookup builders *)

Record MaterialInfo := {
  mpq : Q;
  moq : Q;
  reorder : Q;
  instock : Q;
  pendingPo : Q
}.

Record SupplierInfo := {
  vendor : string;
  vendorLeadTime : Q;
  transportTime : Q;
  totalLeadTime : Q
}.

Definition buildMaterialMasterMap (headers : list cell) (rows : Grid)
    : gmap string MaterialInfo :=
  let childPartIdx := 0%Z in
  let mpqIdx := JS.findIndex (lowerIncludes "mpq") headers in
  let moqIdx := JS.findIndex (lowerIncludes "moq") headers in
  let reorderIdx := JS.findIndex (lowerIncludes "reorder") headers in
  let instockIdx :=
    JS.findIndex (fun h => lowerIncludes "instock" h || lowerIncludes "in stock" h) headers in
  let pendingPoIdx :=
    JS.findIndex (fun h => lowerIncludes "pending po" h || lowerIncludes "pending_po" h) headers in
  fold_left
    (fun (map : gmap string MaterialInfo) (row : list cell) =>
       let material := trimmed (cellAt row childPartIdx) in
       if String.eqb material "" then map
       else <[ material :=
                 {| mpq := toNumber (cellAt row mpqIdx);
                    moq := toNumber (cellAt row moqIdx);
                    reorder := toNumber (cellAt row reorderIdx);
                    instock := toNumber (cellAt row instockIdx);
                    pendingPo := toNumber (cellAt row pendingPoIdx) |} ]> map)
    rows ∅.

(** The supplier entry read from one data row, with its key. *)
Definition supplierRow (vendorLeadTimeIdx transportTimeIdx : Z) (row : list cell)
    : string * SupplierInfo :=
  let materialIdx := 0%Z in
  let vendorIdx := 1%Z in
  let material := trimmed (cellAt row materialIdx) in
  let vendor := trimmed (cellAt row vendorIdx) in
  let vendorLeadTime := toNumber (cellAt row vendorLeadTimeIdx) in
  let transportTime := toNumber (cellAt row transportTimeIdx) in
  let totalLeadTime := (vendorLeadTime + transportTime)%Q in
  (material,
   {| vendor := vendor; vendorLeadTime := vendorLeadTime;
      transportTime := transportTime; totalLeadTime := totalLeadTime |}).

(** The callback of [rows.forEach] in [buildSupplierDetailsMap]. *)
Definition supplierStep (vendorLeadTimeIdx transportTimeIdx : Z)
    (map : gmap string SupplierInfo) (row : list cell) : gmap string SupplierInfo :=
  let '(material, info) := supplierRow vendorLeadTimeIdx transportTimeIdx row in
  if String.eqb material "" then map
  else
    match map !! material with
    | None => <[ material := info ]> map
    | Some old =>
        if Qltb (totalLeadTime info) (totalLeadTime old)
        then <[ material := info ]> map
        else map
    end.

Definition buildSupplierDetailsMap (headers : list cell) (rows : Grid)
    : gmap string SupplierInfo :=
  let vendorLeadTimeIdx := JS.findIndex (lowerIncludes "vendor lead-time") headers in
  let transportTimeIdx := JS.findIndex (lowerIncludes "transport time") headers in
  fold_left (supplierStep vendorLeadTimeIdx transportTimeIdx) rows ∅.

(** ** Demand explosion *)

Record WeekCol := { index : Z; week : string }.

Record BomItem := { childPart : string; quantity : Q }.

(** [idpHeaders.forEach((header, idx) => ...)]: the period columns of the
    production plan that are selected, left to right. *)
Fixpoint weekColsFrom (selectedWeeks : list string) (idx : Z) (idpHeaders : list cell)
    : list WeekCol :=
  match idpHeaders with
  | [] => []
  | header :: rest =>
      let s := trimmed header in
      if negb (String.eqb s "") && JS.isPeriod s && existsb (String.eqb s) selectedWeeks
      then {| index := idx; week := s |} :: weekColsFrom selectedWeeks (idx + 1)%Z rest
      else weekColsFrom selectedWeeks (idx + 1)%Z rest
  end.

(** The callback of [bomRows.forEach]. *)
Definition bomLookupStep (bomDerivedMaterialIdx bomChildPartIdx bomQtyIdx : Z)
    (bomLookup : gmap string (list BomItem)) (row : list cell)
    : gmap string (list BomItem) :=
  let derivedMaterial := trimmed (cellAt row bomDerivedMaterialIdx) in
  let childPart := trimmed (cellAt row bomChildPartIdx) in
  let qty := toNumber (cellAt row bomQtyIdx) in
  if String.eqb derivedMaterial "" || String.eqb childPart "" || Qle_bool qty 0
  then bomLookup
  else
    let arr := match bomLookup !! derivedMaterial with Some a => a | None => [] end in
    <[ derivedMaterial := (arr ++ [{| childPart := childPart; quantity := qty |}])%list ]>
      bomLookup.

(** The callback of [bomItems.forEach]. *)
Definition addDemand (wk : WeekCol) (productionQty : Q)
    (demandMap : gmap string (OMap.t Q)) (item : BomItem) : gmap string (OMap.t Q) :=
  let demandQty := (productionQty * quantity item)%Q in
  let weekMap := match demandMap !! childPart item with Some m => m | None => [] end in
  let old := match OMap.get weekMap (week wk) with Some q => q | None => 0%Q end in
  <[ childPart item := OMap.set weekMap (week wk) (old + demandQty)%Q ]> demandMap.

(** The callback of [weekCols.forEach]. *)
Definition weekColStep (row : list cell) (bomItems : list BomItem)
    (demandMap : gmap string (OMap.t Q)) (wk : WeekCol) : gmap string (OMap.t Q) :=
  let productionQty := toNumber (cellAt row (index wk)) in
  if Qle_bool productionQty 0 then demandMap
  else fold_left (addDemand wk productionQty) bomItems demandMap.

(** The callback of [idpRows.forEach]. *)
Definition idpRowStep (idpDerivedMaterialIdx : Z) (weekCols : list WeekCol)
    (bomLookup : gmap string (list BomItem))
    (demandMap : gmap string (OMap.t Q)) (row : list cell) : gmap string (OMap.t Q) :=
  let derivedMaterial := trimmed (cellAt row idpDerivedMaterialIdx) in
  if String.eqb derivedMaterial "" then demandMap
  else
    let bomItems := match bomLookup !! derivedMaterial with Some a => a | None => [] end in
    fold_left (weekColStep row bomItems) weekCols demandMap.

Definition bomQtyHeader (h : cell) : bool :=
  lowerIncludes "quantity" h || lowerIncludes "per kit" h.

Definition buildBomLookup (bomHeaders : list cell) (bomRows : Grid)
    : gmap string (list BomItem) :=
  let bomDerivedMaterialIdx := JS.findIndex (lowerIncludes "derived material") bomHeaders in
  let bomChildPartIdx := JS.findIndex (lowerIncludes "child part") bomHeaders in
  let bomQtyIdx := JS.findIndex bomQtyHeader bomHeaders in
  fold_left (bomLookupStep bomDerivedMaterialIdx bomChildPartIdx bomQtyIdx) bomRows ∅.

Definition buildProductionDemandMap (idpHeaders : list cell) (idpRows : Grid)
    (bomHeaders : list cell) (bomRows : Grid) (selectedWeeks : list string)
    : gmap string (OMap.t Q) :=
  let idpDerivedMaterialIdx := JS.findIndex (lowerIncludes "derived material") idpHeaders in
  let weekCols := weekColsFrom selectedWeeks 0%Z idpHeaders in
  let bomLookup := buildBomLookup bomHeaders bomRows in
  fold_left (idpRowStep idpDerivedMaterialIdx weekCols bomLookup) idpRows ∅.

Definition lookupBomUom (material : string) (bomRows : Grid) (childPartIdx uomIdx : Z)
    : string :=
  match List.find (fun r => String.eqb (trimmed (cellAt r childPartIdx)) material) bomRows with
  | Some row => trimmed (cellAt row uomIdx)
  | None => ""
  end.

(** ** The MRP computation *)

(** Lines 638-648: consumption of the running excess by a demand [qty > 0];
    the result is [(adjustedDemand, remainingExcess)]. *)
Definition netExcess (remainingExcess qty : Q) : Q * Q :=
  if Qltb 0 remainingExcess then
    if Qle_bool qty remainingExcess then (0, remainingExcess - qty)%Q
    else (qty - remainingExcess, 0)%Q
  else (qty, remainingExcess).

(** Lines 650-660: the lot-sizing cascade; [requiredQty] stays 0 when
    [adjustedDemand] is not positive. *)
Definition lotSize (mmInfo : MaterialInfo) (adjustedDemand : Q) : Q :=
  if Qltb 0 adjustedDemand then
    if Qltb 0 (reorder mmInfo) then (reorder mmInfo + adjustedDemand)%Q
    else if Qltb adjustedDemand (moq mmInfo) then moq mmInfo
    else if Qltb 0 (mpq mmInfo)
         then (inject_Z (Qceiling (adjustedDemand / mpq mmInfo)) * mpq mmInfo)%Q
    else adjustedDemand
  else 0%Q.

(** [requiredQty] and the new [remainingExcess] of one period. *)
Definition netAndSize (mmInfo : MaterialInfo) (remainingExcess qty : Q) : Q * Q :=
  if Qltb 0 qty then
    let '(adjustedDemand, remainingExcess') := netExcess remainingExcess qty in
    (lotSize mmInfo adjustedDemand, remainingExcess')
  else (0%Q, remainingExcess).

(** The variables that the callback of [demandByWeek.forEach] updates. *)
Record WeekLoop := {
  weeklyDemand : OMap.t Q;
  weeklyMrpQty : OMap.t Q;
  weeklyPoDate : OMap.t string;
  totalDemand : Q;
  remainingExcess : Q
}.

(** The callback of [demandByWeek.forEach]. *)
Definition weekStep (mmInfo : MaterialInfo) (sdInfo : SupplierInfo)
    (selectedWeeks : list string) (weekPlan : option ParsedExcel)
    (st : WeekLoop) (entry : string * Q) : WeekLoop :=
  let w := fst entry in
  let qty := snd entry in
  let '(requiredQty, remainingExcess') := netAndSize mmInfo (remainingExcess st) qty in
  {| weeklyDemand := OMap.set (weeklyDemand st) w qty;
     weeklyMrpQty := OMap.set (weeklyMrpQty st) w requiredQty;
     weeklyPoDate :=
       OMap.set (weeklyPoDate st) w
         (calculatePoDate w (Fin (orZero (totalLeadTime sdInfo))) (Fin requiredQty) weekPlan);
     totalDemand :=
       if existsb (String.eqb w) selectedWeeks then (totalDemand st + qty)%Q
       else totalDemand st;
     remainingExcess := remainingExcess' |}.

Definition excessQtyOf (mmInfo : MaterialInfo) : Q :=
  (orZero (instock mmInfo) + orZero (pendingPo mmInfo))%Q.

Definition weekLoopInit (mmInfo : MaterialInfo) : WeekLoop :=
  {| weeklyDemand := []; weeklyMrpQty := []; weeklyPoDate := [];
     totalDemand := 0%Q; remainingExcess := excessQtyOf mmInfo |}.

Definition weekLoop (mmInfo : MaterialInfo) (sdInfo : SupplierInfo)
    (selectedWeeks : list string) (weekPlan : option ParsedExcel)
    (demandByWeek : OMap.t Q) : WeekLoop :=
  fold_left (weekStep mmInfo sdInfo selectedWeeks weekPlan) demandByWeek
    (weekLoopInit mmInfo).

Definition noMaterialInfo : MaterialInfo :=
  {| mpq := 0; moq := 0; reorder := 0; instock := 0; pendingPo := 0 |}.

Definition noSupplierInfo : SupplierInfo :=
  {| vendor := ""; vendorLeadTime := 0; transportTime := 0; totalLeadTime := 0 |}.

(** The callback of [uniqueMaterials.map]. *)
Definition mrpRowOf (materialMasterMap : gmap string MaterialInfo)
    (supplierDetailsMap : gmap string SupplierInfo)
    (productionDemandMap : gmap string (OMap.t Q))
    (selectedWeeks : list string) (weekPlan : option ParsedExcel)
    (bomRows : Grid) (childPartIdx uomIdx : Z) (material : string) : MrpRow.t :=
  let mmInfo :=
    match materialMasterMap !! material with Some i => i | None => noMaterialInfo end in
  let sdInfo :=
    match supplierDetailsMap !! material with Some i => i | None => noSupplierInfo end in
  let demandByWeek :=
    match productionDemandMap !! material with Some m => m | None => [] end in
  let st := weekLoop mmInfo sdInfo selectedWeeks weekPlan demandByWeek in
  {| MrpRow.material := material;
     MrpRow.uom := lookupBomUom material bomRows childPartIdx uomIdx;
     MrpRow.supplierCode := vendor sdInfo;
     MrpRow.mpq := orZero (mpq mmInfo);
     MrpRow.moq := orZero (moq mmInfo);
     MrpRow.reorder := orZero (reorder mmInfo);
     MrpRow.instock := orZero (instock mmInfo);
     MrpRow.pendingPo := orZero (pendingPo mmInfo);
     MrpRow.excessQty := excessQtyOf mmInfo;
     MrpRow.leadTime := orZero (totalLeadTime sdInfo);
     MrpRow.weeklyDemand := weeklyDemand st;
     MrpRow.weeklyMrpQty := weeklyMrpQty st;
     MrpRow.weeklyPoDate := weeklyPoDate st;
     MrpRow.totalDemand := totalDemand st |}.

(** [allWeeks]: the period columns of the production-plan header. *)
Definition allWeeksOf (idpHeaders : list cell) : list string :=
  List.filter (fun s => negb (String.eqb s "") && JS.isPeriod s)
    (List.map trimmed idpHeaders).

Definition inYear (selectedYear : string) (w : string) : bool :=
  match nth_error (JS.split "." w) 1 with
  | Some y => String.eqb y selectedYear
  | None => false
  end.

Definition inWeekRange (startWeek endWeek : Z) (w : string) : bool :=
  match nth_error (JS.split "." w) 0 with
  | Some n =>
      match Number_ n with
      | Some num => Qle_bool (inject_Z startWeek) num && Qle_bool num (inject_Z endWeek)
      | None => false
      end
  | None => false
  end.

Definition selectedWeeksOf (st : PageState) (allWeeks : list string) : list string :=
  let weeksInYear := List.filter (inYear (selectedYear st)) allWeeks in
  List.filter (inWeekRange (startWeek st) (endWeek st)) weeksInYear.

Definition isEmptyDoc (d : option ParsedExcel) : bool :=
  match d with
  | None => true
  | Some p => match jsonData p with [] => true | _ => false end
  end.

Definition gridOf (d : option ParsedExcel) : Grid :=
  match d with
  | Some p => jsonData p
  | None => []
  end.

Definition bomHeaderMatchers : list (list cell -> bool) :=
  [ (fun row => existsb (fun c => JS.includes (normalizeHeaderValue c) "child") row);
    (fun row => existsb (fun c => JS.includes (normalizeHeaderValue c) "derived") row) ].

Definition headerPreviewOf (bomHeaders : list cell) : string :=
  let preview :=
    JS.join ", "
      (firstn 25 (List.filter (fun s => negb (String.eqb s "")) (List.map trimmed bomHeaders))) in
  if String.eqb preview "" then "(empty)" else preview.

(** [calculateMrpDataInternal]: the new state of the component and the dialog
    shown.  The state is returned unchanged on the paths that [return] before
    the three setters are called. *)
Definition calculateMrpDataInternal (inputs : Inputs.t) (st : PageState)
    : PageState * Alert :=
  if isEmptyDoc (Inputs.bom inputs) then
    (st, DataError "BOM data is missing or empty")
  else if isEmptyDoc (Inputs.idp inputs) then
    (st, DataError "Production Plan (IDP) data is missing or empty")
  else if isEmptyDoc (Inputs.materialMaster inputs)
          || isEmptyDoc (Inputs.supplierDetails inputs) then
    (st, DataError "Material Master / Supplier Details data is missing")
  else
    let bomAllRows := gridOf (Inputs.bom inputs) in
    let bomHeaderRowIndex := findHeaderRowIndex bomAllRows bomHeaderMatchers 10 in
    let bomHeaders := nth (Z.to_nat bomHeaderRowIndex) bomAllRows [] in
    let bomRows := skipn (Z.to_nat (bomHeaderRowIndex + 1)) bomAllRows in
    let childPartIdx := findColumnIndex bomHeaders childPartPredicates in
    let uomIdx := findColumnIndex bomHeaders uomPredicates in
    if (childPartIdx =? -1)%Z then
      (st, ColumnError
             (match Inputs.bom inputs with Some b => sheetName b | None => "" end)
             (headerPreviewOf bomHeaders))
    else
      let uniqueMaterials :=
        JS.unique
          (List.filter (fun s => negb (String.eqb s ""))
             (List.map (fun r => trimmed (cellAt r childPartIdx)) bomRows)) in
      let mmHeaders := hd [] (gridOf (Inputs.materialMaster inputs)) in
      let mmRows := tl (gridOf (Inputs.materialMaster inputs)) in
      let sdHeaders := hd [] (gridOf (Inputs.supplierDetails inputs)) in
      let sdRows := tl (gridOf (Inputs.supplierDetails inputs)) in
      let idpHeaders := hd [] (gridOf (Inputs.idp inputs)) in
      let idpRows := tl (gridOf (Inputs.idp inputs)) in
      let allWeeks := allWeeksOf idpHeaders in
      let selectedWeeks := selectedWeeksOf st allWeeks in
      let materialMasterMap := buildMaterialMasterMap mmHeaders mmRows in
      let supplierDetailsMap := buildSupplierDetailsMap sdHeaders sdRows in
      let productionDemandMap :=
        buildProductionDemandMap idpHeaders idpRows bomHeaders bomRows selectedWeeks in
      let mrpData :=
        List.map
          (mrpRowOf materialMasterMap supplierDetailsMap productionDemandMap
             selectedWeeks (Inputs.weekPlan inputs) bomRows childPartIdx uomIdx)
          uniqueMaterials in
      let materialsWithDemand :=
        List.length (List.filter (fun m => Qltb 0 (MrpRow.totalDemand m)) mrpData) in
      ({| mrpCalculatedData := Some mrpData;
          weekColumns := selectedWeeks;
          allWeekColumns := allWeeks;
          selectedYear := selectedYear st;
          startWeek := startWeek st;
          endWeek := endWeek st |},
       CalculationComplete (List.length mrpData) materialsWithDemand
         (startWeek st) (endWeek st) (List.length selectedWeeks)).

End Page.

(** ** The rest of the page: escaping, parsing of PO dates, week texts,
    loading, filters and export *)

Module JSStr.

(** [s.replaceAll(c, to)] for a one-character pattern [c]. *)
Fixpoint replaceAllWith (from : ascii) (to : string) (s : string) : string :=
  match s with
  | EmptyString => EmptyString
  | String c s' =>
      if Ascii.eqb c from then to ++ replaceAllWith from to s'
      else String c (replaceAllWith from to s')
  end.

(** [s.startsWith(p)]. *)
Definition startsWith (s p : string) : bool := String.prefix p s.

(** [s.slice(n)] for [n >= 0]. *)
Definition sliceFrom (n : nat) (s : string) : string :=
  substring n (String.length s - n) s.

(** [s.slice(0, n)] for [n >= 0]. *)
Definition sliceTo (n : nat) (s : string) : string := substring 0 n s.

(** [s.indexOf(c)] for a one-character [c]: [None] stands for -1. *)
Fixpoint indexOf (c : ascii) (s : string) : option nat :=
  match s with
  | EmptyString => None
  | String b s' =>
      if Ascii.eqb b c then Some O
      else match indexOf c s' with
           | Some n => Some (S n)
           | None => None
           end
  end.

(** The character U+0022. *)
Definition doubleQuote : ascii := ascii_of_nat 34.

(** [Number(x.toFixed(2))]: [toFixed] rounds the magnitude to the nearest
    hundredth, the larger one at a tie, and keeps the sign; from 10^21 on it
    prints the number itself. *)
Definition numberToFixed2 (x : Q) : Q :=
  let r (y : Q) := (inject_Z (Qfloor (y * 100 + (1 # 2))) / 100)%Q in
  if Qle_bool 0 x then
    if Qle_bool 1000000000000000000000 x then x else r x
  else
    if Qle_bool 1000000000000000000000 (- x) then x else (- r (- x))%Q.

End JSStr.

(** A property read from an object literal by a key that is not one of its
    own: what [Object.prototype] gives for it, as a string, or [None] when it
    is [undefined] or falsy. *)
Class ObjectHost := {
  inheritedProperty : string -> option string
}.

(** The three filter inputs of the page. *)
Record Filters := {
  searchMaterial : string;
  poDateFrom : string;
  poDateTo : string
}.

(** What [fetchDataSource] was given for one document type: the workbook
    parsed from the latest upload ([None] when there is no upload or the
    request failed) and the copy kept in local storage. *)
Record Source := {
  remote : option ParsedExcel;
  cached : option ParsedExcel
}.

Module Sources.

Record t := {
  bom : Source;
  materialMaster : Source;
  idp : Source;
  supplierDetails : Source;
  weekPlan : Source
}.

End Sources.

(** The dialog of [fetchAllData]: Data Load Failed, or the dialog of the
    computation. *)
Inductive FetchAlert :=
| DataLoadFailed
| Calculated (a : Alert).

(** The three messages of [weekValidation]: the empty one, "Enter valid start
    and end week (1 to 53)." and "Enter a valid week range (Start Week must
    be [<=] End Week)." (whose comparison sign is U+2264 in the source). *)
Inductive WeekMessage := NoMessage | EnterValidWeeks | EnterValidRange.

(** The dialog of [calculateMrp]: the week-range warning with its message, or
    that of [fetchAllData]. *)
Inductive CalculateAlert :=
| InvalidWeekRange (message : WeekMessage)
| Fetched (a : FetchAlert).

(** What [exportToExcel] does: one of its two warnings, or the array of
    arrays handed to [XLSX.utils.aoa_to_sheet]. *)
Inductive ExportOutcome :=
| NoData
| NoDataToExport
| Exported (aoa : Grid).

Section PageRest.

Context `{Host}.
Context `{ObjectHost}.

Definition escapeHtml (v : cell) : string :=
  JSStr.replaceAllWith "'" "&#039;"
    (JSStr.replaceAllWith JSStr.doubleQuote "&quot;"
       (JSStr.replaceAllWith ">" "&gt;"
          (JSStr.replaceAllWith "<" "&lt;"
             (JSStr.replaceAllWith "&" "&amp;" (String_ v))))).

(** The own properties of [monthMap]. *)
Definition monthMap (k : string) : option string :=
  if String.eqb k "Jan" then Some "01"
  else if String.eqb k "Feb" then Some "02"
  else if String.eqb k "Mar" then Some "03"
  else if String.eqb k "Apr" then Some "04"
  else if String.eqb k "May" then Some "05"
  else if String.eqb k "Jun" then Some "06"
  else if String.eqb k "Jul" then Some "07"
  else if String.eqb k "Aug" then Some "08"
  else if String.eqb k "Sep" then Some "09"
  else if String.eqb k "Oct" then Some "10"
  else if String.eqb k "Nov" then Some "11"
  else if String.eqb k "Dec" then Some "12"
  else inheritedProperty k.

Definition parsePoDateToIso (poDate : string) : option string :=
  if String.eqb poDate "" || String.eqb poDate "-" then None
  else
    match JS.split "-" poDate with
    | [p0; p1; p2] =>
        let day := JS.padStart2 p0 in
        match monthMap p1 with
        | None => None
        | Some month =>
            let year := if Nat.eqb (String.length p2) 2 then "20" ++ p2 else p2 in
            if Nat.eqb (String.length year) 4 then Some (year ++ "-" ++ month ++ "-" ++ day)
            else None
        end
    | _ => None
    end.

(** *** Week texts *)

Definition clampWeek (v : Z) : Z := Z.max 1 (Z.min 53 v).

Definition parseWeekText (raw : string) : option Z :=
  let t := JS.trim raw in
  if String.eqb t "" then None
  else match Number_ t with
       | None => None
       | Some n => Some (clampWeek (Qfloor n))
       end.

(** [weekValidation]: the flag and the message. *)
Definition weekValidation (startWeekText endWeekText : string) : bool * WeekMessage :=
  match parseWeekText startWeekText, parseWeekText endWeekText with
  | Some s, Some e =>
      if (e <? s)%Z then (false, EnterValidRange) else (true, NoMessage)
  | _, _ => (false, EnterValidWeeks)
  end.

Definition setStartWeek (v : Z) (st : PageState) : PageState :=
  {| mrpCalculatedData := mrpCalculatedData st; weekColumns := weekColumns st;
     allWeekColumns := allWeekColumns st; selectedYear := selectedYear st;
     startWeek := v; endWeek := endWeek st |}.

Definition setEndWeek (v : Z) (st : PageState) : PageState :=
  {| mrpCalculatedData := mrpCalculatedData st; weekColumns := weekColumns st;
     allWeekColumns := allWeekColumns st; selectedYear := selectedYear st;
     startWeek := startWeek st; endWeek := v |}.

Definition commitStartWeek (startWeekText : string) (st : PageState) : PageState :=
  match parseWeekText startWeekText with
  | Some v => setStartWeek v st
  | None => st
  end.

Definition commitEndWeek (endWeekText : string) (st : PageState) : PageState :=
  match parseWeekText endWeekText with
  | Some v => setEndWeek v st
  | None => st
  end.

(** *** Loading *)

(** [fetchDataSource] after its two reads: the document on success, [None]
    on failure.  The local copy is read only when nothing was parsed from the
    server. *)
Definition fetchDataSource (src : Source) : option ParsedExcel :=
  let parsed :=
    match remote src with
    | Some p => Some p
    | None => cached src
    end in
  match parsed with
  | Some p => match jsonData p with [] => None | _ => Some p end
  | None => None
  end.

Definition clearRows (st : PageState) : PageState :=
  {| mrpCalculatedData := None; weekColumns := weekColumns st;
     allWeekColumns := allWeekColumns st; selectedYear := selectedYear st;
     startWeek := startWeek st; endWeek := endWeek st |}.

Definition fetchAllData (srcs : Sources.t) (st : PageState) : PageState * FetchAlert :=
  let st0 := clearRows st in
  match fetchDataSource (Sources.bom srcs), fetchDataSource (Sources.materialMaster srcs),
        fetchDataSource (Sources.idp srcs), fetchDataSource (Sources.supplierDetails srcs),
        fetchDataSource (Sources.weekPlan srcs) with
  | Some b, Some mm, Some i, Some sd, Some wp =>
      let '(st', a) :=
        calculateMrpDataInternal
          {| Inputs.bom := Some b; Inputs.materialMaster := Some mm; Inputs.idp := Some i;
             Inputs.supplierDetails := Some sd; Inputs.weekPlan := Some wp |} st0 in
      (st', Calculated a)
  | _, _, _, _, _ => (st0, DataLoadFailed)
  end.

Definition setWeekColumns (ws : list string) (st : PageState) : PageState :=
  {| mrpCalculatedData := mrpCalculatedData st; weekColumns := ws;
     allWeekColumns := allWeekColumns st; selectedYear := selectedYear st;
     startWeek := startWeek st; endWeek := endWeek st |}.

Definition calculateMrp (startWeekText endWeekText : string) (srcs : Sources.t)
    (st : PageState) : PageState * CalculateAlert :=
  let '(isValid, message) := weekValidation startWeekText endWeekText in
  if negb isValid then (st, InvalidWeekRange message)
  else
    let st1 :=
      match allWeekColumns st with
      | [] => st
      | _ => setWeekColumns (selectedWeeksOf st (allWeekColumns st)) st
      end in
    let '(st2, a) := fetchAllData srcs st1 in
    (st2, Fetched a).

(** *** Filters *)

(** [item.material.toLowerCase().includes(searchMaterial.toLowerCase())]. *)
Definition matchesSearch (search : string) (item : MrpRow.t) : bool :=
  JS.includes (JS.toLowerCase (MrpRow.material item)) (JS.toLowerCase search).

(** The PO date of [week] parses to an ISO date between the two bounds. *)
Definition poInRange (f : Filters) (item : MrpRow.t) (week : string) : bool :=
  match OMap.get (MrpRow.weeklyPoDate item) week with
  | None => false
  | Some po =>
      match (if String.eqb po "" then None else parsePoDateToIso po) with
      | None => false
      | Some iso => String.leb (poDateFrom f) iso && String.leb iso (poDateTo f)
      end
  end.

Definition dateFilterOn (f : Filters) : bool :=
  negb (String.eqb (poDateFrom f) "") && negb (String.eqb (poDateTo f) "").

(** The two filters applied one after the other, as in [filteredMrpData] and
    in [exportToExcel]. *)
Definition applyFilters (f : Filters) (weekColumns : list string)
    (data : list MrpRow.t) : list MrpRow.t :=
  let filtered :=
    if String.eqb (searchMaterial f) "" then data
    else List.filter (matchesSearch (searchMaterial f)) data in
  if dateFilterOn f
  then List.filter (fun item => existsb (poInRange f item) weekColumns) filtered
  else filtered.

Definition filteredMrpData (f : Filters) (st : PageState) : option (list MrpRow.t) :=
  match mrpCalculatedData st with
  | None => None
  | Some data => Some (applyFilters f (weekColumns st) data)
  end.

Definition displayWeekColumns (f : Filters) (st : PageState) : list string :=
  match mrpCalculatedData st with
  | None => weekColumns st
  | Some data =>
      if dateFilterOn f
      then List.filter
             (fun week => existsb (fun item => poInRange f item week) data)
             (weekColumns st)
      else weekColumns st
  end.

(** *** Export *)

(** The week that [weekColumns.some] stops at for one item: the first one in
    range, the only one that the item adds to [matchingWeeks]. *)
Definition firstWeekInRange (f : Filters) (weekColumns : list string) (item : MrpRow.t)
    : option string :=
  List.find (poInRange f item) weekColumns.

(** [matchingWeeks] after the filter callback ran over [items]. *)
Definition matchingWeeks (f : Filters) (weekColumns : list string)
    (items : list MrpRow.t) : list string :=
  flat_map
    (fun item => match firstWeekInRange f weekColumns item with
                 | Some w => [w]
                 | None => []
                 end)
    items.

(** [displayWeeks] of the export. *)
Definition exportWeeks (f : Filters) (st : PageState) (data : list MrpRow.t) : list string :=
  if dateFilterOn f then
    let searched :=
      if String.eqb (searchMaterial f) "" then data
      else List.filter (matchesSearch (searchMaterial f)) data in
    let matching := matchingWeeks f (weekColumns st) searched in
    match matching with
    | [] => weekColumns st
    | _ => List.filter (fun w => existsb (String.eqb w) matching) (weekColumns st)
    end
  else weekColumns st.

Definition exportHeaders (displayWeeks : list string) : list cell :=
  List.map CStr
    (["S.No"; "Material"; "UOM"; "Supplier Code"; "MPQ"; "MOQ"; "Reorder"; "Instock";
      "Pending PO"; "Lead Time (days)"; "Total Demand"]
     ++ flat_map
          (fun week => [(week ++ " - MRP Qty")%string; (week ++ " - PO Date")%string])
          displayWeeks)%list.

Definition exportRow (displayWeeks : list string) (idx : nat) (item : MrpRow.t) : list cell :=
  ([ CNum (inject_Z (Z.of_nat idx + 1));
     CStr (MrpRow.material item);
     CStr (MrpRow.uom item);
     CStr (MrpRow.supplierCode item);
     CNum (MrpRow.mpq item);
     CNum (MrpRow.moq item);
     CNum (MrpRow.reorder item);
     CNum (MrpRow.instock item);
     CNum (MrpRow.pendingPo item);
     CNum (MrpRow.leadTime item);
     CNum (JSStr.numberToFixed2 (MrpRow.totalDemand item)) ]
   ++ flat_map
        (fun week =>
           let mrpQty :=
             match OMap.get (MrpRow.weeklyMrpQty item) week with
             | Some q => q
             | None => 0%Q
             end in
           let po :=
             match OMap.get (MrpRow.weeklyPoDate item) week with
             | Some d => d
             | None => "-"
             end in
           [ if Qltb 0 mrpQty then CNum (JSStr.numberToFixed2 mrpQty) else CStr "-";
             CStr po ])
        displayWeeks)%list.

(** [filtered.forEach((item, idx) => ...)]. *)
Fixpoint exportRowsFrom (displayWeeks : list string) (idx : nat) (items : list MrpRow.t)
    : Grid :=
  match items with
  | [] => []
  | item :: rest =>
      exportRow displayWeeks idx item :: exportRowsFrom displayWeeks (S idx) rest
  end.

Definition exportToExcel (f : Filters) (st : PageState) : ExportOutcome :=
  match mrpCalculatedData st with
  | None | Some [] => NoData
  | Some data =>
      let filtered := applyFilters f (weekColumns st) data in
      let displayWeeks := exportWeeks f st data in
      match filtered with
      | [] => NoDataToExport
      | _ => Exported (exportHeaders displayWeeks :: exportRowsFrom displayWeeks 0 filtered)
      end
  end.

End PageRest.

(** ** The file records of [filesApi] *)

Section FilesApi.

(** [parseS3Path]: bucket and key of [s3://bucket/key]. *)
Definition parseS3Path (s3Path : string) : option (string * string) :=
  let trimmed := JS.trim s3Path in
  if negb (JSStr.startsWith trimmed "s3://") then None
  else
    let without := JSStr.sliceFrom 5 trimmed in
    match JSStr.indexOf "/" without with
    | None => None
    | Some firstSlash =>
        Some (JSStr.sliceTo firstSlash without, JSStr.sliceFrom (S firstSlash) without)
    end.

(** [fileNameFromKey]: the last non-empty segment of the key. *)
Definition fileNameFromKey (key : string) : string :=
  List.last (List.filter (fun p => negb (String.eqb p "")) (JS.split "/" key)) "".

End FilesApi.

(** ** Names for the intermediate values of [calculateMrpDataInternal] *)

Section Intermediate.

Context `{Host}.

Definition bomHeaderRowIndexOf (inputs : Inputs.t) : Z :=
  findHeaderRowIndex (gridOf (Inputs.bom inputs)) bomHeaderMatchers 10.

Definition bomHeadersOf (inputs : Inputs.t) : list cell :=
  nth (Z.to_nat (bomHeaderRowIndexOf inputs)) (gridOf (Inputs.bom inputs)) [].

Definition bomRowsOf (inputs : Inputs.t) : Grid :=
  skipn (Z.to_nat (bomHeaderRowIndexOf inputs + 1)) (gridOf (Inputs.bom inputs)).

Definition childPartIdxOf (inputs : Inputs.t) : Z :=
  findColumnIndex (bomHeadersOf inputs) childPartPredicates.

Definition uomIdxOf (inputs : Inputs.t) : Z :=
  findColumnIndex (bomHeadersOf inputs) uomPredicates.

(** The trimmed child-part cells of the BOM data rows, blank ones dropped. *)
Definition childPartsOf (inputs : Inputs.t) : list string :=
  List.filter (fun s => negb (String.eqb s ""))
    (List.map (fun r => trimmed (cellAt r (childPartIdxOf inputs))) (bomRowsOf inputs)).

Definition uniqueMaterialsOf (inputs : Inputs.t) : list string :=
  JS.unique (childPartsOf inputs).

Definition idpHeadersOf (inputs : Inputs.t) : list cell :=
  hd [] (gridOf (Inputs.idp inputs)).

Definition selectedWeeksFor (inputs : Inputs.t) (st : PageState) : list string :=
  selectedWeeksOf st (allWeeksOf (idpHeadersOf inputs)).

Definition materialMasterMapOf (inputs : Inputs.t) : gmap string MaterialInfo :=
  buildMaterialMasterMap (hd [] (gridOf (Inputs.materialMaster inputs)))
    (tl (gridOf (Inputs.materialMaster inputs))).

Definition supplierDetailsMapOf (inputs : Inputs.t) : gmap string SupplierInfo :=
  buildSupplierDetailsMap (hd [] (gridOf (Inputs.supplierDetails inputs)))
    (tl (gridOf (Inputs.supplierDetails inputs))).

Definition demandMapOf (inputs : Inputs.t) (st : PageState) : gmap string (OMap.t Q) :=
  buildProductionDemandMap (idpHeadersOf inputs) (tl (gridOf (Inputs.idp inputs)))
    (bomHeadersOf inputs) (bomRowsOf inputs) (selectedWeeksFor inputs st).

(** The policy, the supplier entry and the demand that a row is computed
    from. *)
Definition mmInfoOf (inputs : Inputs.t) (material : string) : MaterialInfo :=
  match materialMasterMapOf inputs !! material with Some i => i | None => noMaterialInfo end.

Definition sdInfoOf (inputs : Inputs.t) (material : string) : SupplierInfo :=
  match supplierDetailsMapOf inputs !! material with Some i => i | None => noSupplierInfo end.

Definition demandByWeekOf (inputs : Inputs.t) (st : PageState) (material : string)
    : OMap.t Q :=
  match demandMapOf inputs st !! material with Some m => m | None => [] end.

Definition rowOf (inputs : Inputs.t) (st : PageState) (material : string) : MrpRow.t :=
  mrpRowOf (materialMasterMapOf inputs) (supplierDetailsMapOf inputs) (demandMapOf inputs st)
    (selectedWeeksFor inputs st) (Inputs.weekPlan inputs) (bomRowsOf inputs)
    (childPartIdxOf inputs) (uomIdxOf inputs) material.

(** The PO date that the walk stores beside a required quantity. *)
Definition poDateFor (sdInfo : SupplierInfo) (weekPlan : option ParsedExcel)
    (entry : string * Q) : string * string :=
  (fst entry,
   calculatePoDate (fst entry) (Fin (orZero (totalLeadTime sdInfo))) (Fin (snd entry)) weekPlan).

End Intermediate.

(** ** Definitions that follow the words of the specification *)

Definition Qsum (xs : list Q) : Q := fold_right Qplus 0%Q xs.

(** A quantity is a multiple of the packaging quantity. *)
Definition multipleOf (m x : Q) : Prop := exists k : Z, (x == inject_Z k * m)%Q.

(** The lot-sizing cascade of section 4.5, as a relation between the policy,
    the adjusted demand and the required quantity. *)
Definition cascade (mmInfo : MaterialInfo) (adjustedDemand requiredQty : Q) : Prop :=
  ((0 < reorder mmInfo)%Q -> requiredQty = (reorder mmInfo + adjustedDemand)%Q) /\
  ((reorder mmInfo <= 0)%Q -> (adjustedDemand < moq mmInfo)%Q -> requiredQty = moq mmInfo) /\
  ((reorder mmInfo <= 0)%Q -> (moq mmInfo <= adjustedDemand)%Q -> (0 < mpq mmInfo)%Q ->
     requiredQty = (inject_Z (Qceiling (adjustedDemand / mpq mmInfo)) * mpq mmInfo)%Q) /\
  ((reorder mmInfo <= 0)%Q -> (moq mmInfo <= adjustedDemand)%Q -> (mpq mmInfo <= 0)%Q ->
     requiredQty = adjustedDemand).

(** The demand of each period that the excess absorbs, summed over the walk:
    [qty - adjustedDemand] for every period with [qty > 0]. *)
Fixpoint excessConsumed (remainingExcess : Q) (demandByWeek : OMap.t Q) : Q :=
  match demandByWeek with
  | [] => 0%Q
  | (_, qty) :: rest =>
      if Qltb 0 qty then
        (qty - fst (netExcess remainingExcess qty)
         + excessConsumed (snd (netExcess remainingExcess qty)) rest)%Q
      else excessConsumed remainingExcess rest
  end.

(** The position, in the role's list, of the first matcher that a normalized
    header satisfies: the priority that section 4.2 speaks of. *)
Fixpoint firstMatcher (predicates : list (string -> bool)) (h : string) : option nat :=
  match predicates with
  | [] => None
  | p :: rest =>
      if p h then Some O
      else match firstMatcher rest h with
           | Some n => Some (S n)
           | None => None
           end
  end.

Section RoleWords.

Context `{Host}.

(** A column is a candidate for a role: its normalized header is not empty
    and satisfies one of the matchers. *)
Definition columnMatches (predicates : list (string -> bool)) (c : cell) : bool :=
  negb (String.eqb (normalizeHeaderValue c) "") &&
  existsb (fun p => p (normalizeHeaderValue c)) predicates.

(** Section 4.2 as worded: a column that satisfies a matcher of higher
    priority is chosen over any column whose best matcher has a lower
    priority, wherever the two columns stand. *)
Definition prefersHigherPriority (headers : list cell)
    (predicates : list (string -> bool)) : Prop :=
  forall (i j : nat) (ci cj : cell) (ri rj : nat),
    nth_error headers i = Some ci ->
    nth_error headers j = Some cj ->
    firstMatcher predicates (normalizeHeaderValue ci) = Some ri ->
    firstMatcher predicates (normalizeHeaderValue cj) = Some rj ->
    (ri < rj)%nat ->
    findColumnIndex headers predicates <> Z.of_nat j.

End RoleWords.

(** A source document is absent or empty. *)
Definition missing (d : option ParsedExcel) : Prop :=
  d = None \/ exists p, d = Some p /\ jsonData p = [].

Section SupplierWords.

Context `{Host}.

(** The supplier entries of the data rows whose trimmed material code is
    [material], in row order. *)
Definition supplierEntries (vendorLeadTimeIdx transportTimeIdx : Z) (rows : Grid)
    (material : string) : list SupplierInfo :=
  List.map snd
    (List.filter (fun e => String.eqb (fst e) material)
       (List.map (supplierRow vendorLeadTimeIdx transportTimeIdx) rows)).

(** [o] is the entry of least total lead time among [entries], the earliest
    one among equals; no entry when there is none. *)
Definition earliestMinimum (entries : list SupplierInfo) (o : option SupplierInfo) : Prop :=
  (entries = [] /\ o = None) \/
  (exists (i : nat) (e : SupplierInfo),
     o = Some e /\ nth_error entries i = Some e /\
     forall (j : nat) (e' : SupplierInfo),
       nth_error entries j = Some e' ->
       (totalLeadTime e <= totalLeadTime e')%Q /\
       ((j < i)%nat -> (totalLeadTime e < totalLeadTime e')%Q)).

End SupplierWords.

(** The week number and the year that a period key [WW.YYYY] spells. *)
Definition periodWeek (s : string) : Z := JS.digitsValue 0 (substring 0 2 s).

Definition periodYear (s : string) : Z := JS.digitsValue 0 (substring 3 4 s).

(** Section 4.6 as worded, on the fallback path: the required-by date is
    January 1 of the year plus 7 days per week, the lead time is subtracted
    from it, and the date of the resulting instant is formatted. *)
Definition poDateAsWorded (weekStr : string) (leadTimeDays : Q) : string :=
  formatPoDate
    (JSDate.TimeClip
       (inject_Z (JSDate.MakeDay (periodYear weekStr) 0 1 + 7 * periodWeek weekStr)
        - leadTimeDays)%Q).

Section DemandWords.

Context `{Host}.

(** A BOM edge of section 3, read from one BOM data row. *)
Record BomEdge := {
  parentMaterial : string;
  childMaterial : string;
  quantityPerParentUnit : Q
}.

(** The edges of the BOM: rows with a blank parent, a blank child or a
    quantity that is not positive give no edge. *)
Definition bomEdges (bomHeaders : list cell) (bomRows : Grid) : list BomEdge :=
  let parentIdx := JS.findIndex (lowerIncludes "derived material") bomHeaders in
  let childIdx := JS.findIndex (lowerIncludes "child part") bomHeaders in
  let qtyIdx := JS.findIndex bomQtyHeader bomHeaders in
  flat_map
    (fun row =>
       let parent := trimmed (cellAt row parentIdx) in
       let child := trimmed (cellAt row childIdx) in
       let qty := toNumber (cellAt row qtyIdx) in
       if String.eqb parent "" || String.eqb child "" || Qle_bool qty 0 then []
       else [{| parentMaterial := parent; childMaterial := child;
                quantityPerParentUnit := qty |}])
    bomRows.

(** What one plan cell and one edge contribute to the demand of [child] in
    [period]: the product, when the edge links the row's parent to the child,
    the cell stands in a column of that period and holds a positive
    quantity. *)
Definition contribution (child period parent : string) (wk : WeekCol)
    (producedQty : Q) (e : BomEdge) : Q :=
  if String.eqb (parentMaterial e) parent && String.eqb (childMaterial e) child &&
     String.eqb (week wk) period && Qltb 0 producedQty
  then (producedQty * quantityPerParentUnit e)%Q
  else 0%Q.

(** The demand of section 8: the sum over the plan rows, the selected period
    columns and the BOM edges. *)
Definition grossDemand (idpHeaders : list cell) (idpRows : Grid)
    (bomHeaders : list cell) (bomRows : Grid) (selectedWeeks : list string)
    (child period : string) : Q :=
  let parentIdx := JS.findIndex (lowerIncludes "derived material") idpHeaders in
  let weekCols := weekColsFrom selectedWeeks 0%Z idpHeaders in
  let edges := bomEdges bomHeaders bomRows in
  Qsum
    (List.map
       (fun row =>
          Qsum
            (List.map
               (fun wk =>
                  Qsum
                    (List.map
                       (contribution child period (trimmed (cellAt row parentIdx)) wk
                          (toNumber (cellAt row (index wk))))
                       edges))
               weekCols))
       idpRows).

(** The quantity that the demand map holds for a child and a period, 0 when
    it holds none. *)
Definition recordedDemand (demandMap : gmap string (OMap.t Q)) (child period : string) : Q :=
  match demandMap !! child with
  | Some weekMap =>
      match OMap.get weekMap period with
      | Some q => q
      | None => 0%Q
      end
  | None => 0%Q
  end.

(** [idpRows'] is [idpRows] with every production quantity of a selected
    period column multiplied by [k]; the parent cells are the same. *)
Definition scaledPlan (k : Q) (idpHeaders : list cell) (selectedWeeks : list string)
    (idpRows idpRows' : Grid) : Prop :=
  let parentIdx := JS.findIndex (lowerIncludes "derived material") idpHeaders in
  Forall2
    (fun row row' =>
       trimmed (cellAt row' parentIdx) = trimmed (cellAt row parentIdx) /\
       forall wk, In wk (weekColsFrom selectedWeeks 0%Z idpHeaders) ->
         (toNumber (cellAt row' (index wk)) == k * toNumber (cellAt row (index wk)))%Q)
    idpRows idpRows'.

(** A plan row with every quantity under a period header multiplied by [k];
    the other cells are kept. *)
Fixpoint scaleRow (k : Q) (idpHeaders row : list cell) : list cell :=
  match idpHeaders, row with
  | h :: hs, c :: cs =>
      (if JS.isPeriod (trimmed h) then CNum (k * toNumber c)%Q else c) :: scaleRow k hs cs
  | _, _ => row
  end.

Definition scaleQuantities (k : Q) (idpHeaders : list cell) (idpRows : Grid) : Grid :=
  List.map (scaleRow k idpHeaders) idpRows.

(** The items that [bomLookup] holds for a parent. *)
Definition itemsOf (parent : string) (edges : list BomEdge) : list BomItem :=
  List.map
    (fun e => {| childPart := childMaterial e; quantity := quantityPerParentUnit e |})
    (List.filter (fun e => String.eqb (parentMaterial e) parent) edges).

(** What one plan cell and one item of the parent's list add. *)
Definition itemDemand (child period : string) (wk : WeekCol) (producedQty : Q)
    (item : BomItem) : Q :=
  if String.eqb (childPart item) child && String.eqb (week wk) period && Qltb 0 producedQty
  then (producedQty * quantity item)%Q
  else 0%Q.

(** [bomLookup.get(parent) ?? []]. *)
Definition lookupItems (bomLookup : gmap string (list BomItem)) (parent : string)
    : list BomItem :=
  match bomLookup !! parent with Some a => a | None => [] end.

(** Every inner map of the demand map has distinct keys, all of them among
    [allowed]. *)
Definition wellKeyed (allowed : list string) (demandMap : gmap string (OMap.t Q)) : Prop :=
  forall (child : string) (weekMap : OMap.t Q), demandMap !! child = Some weekMap ->
    List.NoDup (OMap.keys weekMap) /\
    forall w, In w (OMap.keys weekMap) -> In w allowed.

End DemandWords.

Section SheetWords.

Context `{Host}.

(** What the three variables of [parseExcelArrayBuffer] hold after the sheets
    [seen] were visited: the sentinel when none of them could be scored, else
    the first sheet of the highest score. *)
Definition bestOf (type : SheetType) (workbook : Workbook) (seen : list string)
    (b : Best) : Prop :=
  (bestJsonData b = None /\ bestScore b = (-1)%Z /\
   bestSheetName b = hd "Sheet1" (SheetNames workbook) /\
   forall sn, In sn seen -> Sheets workbook sn = None) \/
  (exists (i : nat) (sn : string) (aoa : Grid),
     nth_error seen i = Some sn /\
     Sheets workbook sn = Some aoa /\
     b = {| bestSheetName := sn; bestScore := scoreSheetByType type sn aoa;
            bestJsonData := Some aoa |} /\
     forall (j : nat) (sn' : string) (aoa' : Grid),
       nth_error seen j = Some sn' -> Sheets workbook sn' = Some aoa' ->
       (scoreSheetByType type sn' aoa' <= scoreSheetByType type sn aoa)%Z /\
       ((j < i)%nat -> (scoreSheetByType type sn' aoa' < scoreSheetByType type sn aoa)%Z)).

End SheetWords.

Section MaterialWords.

Context `{Host}.

(** The material-master entry read from one data row, with its key. *)
Definition materialRow (headers : list cell) (row : list cell) : string * MaterialInfo :=
  (trimmed (cellAt row 0),
   {| mpq := toNumber (cellAt row (JS.findIndex (lowerIncludes "mpq") headers));
      moq := toNumber (cellAt row (JS.findIndex (lowerIncludes "moq") headers));
      reorder := toNumber (cellAt row (JS.findIndex (lowerIncludes "reorder") headers));
      instock :=
        toNumber
          (cellAt row
             (JS.findIndex
                (fun h => lowerIncludes "instock" h || lowerIncludes "in stock" h) headers));
      pendingPo :=
        toNumber
          (cellAt row
             (JS.findIndex
                (fun h => lowerIncludes "pending po" h || lowerIncludes "pending_po" h)
                headers)) |}).

(** The entries of the data rows whose trimmed first cell is [material], in
    row order. *)
Definition materialEntries (headers : list cell) (rows : Grid) (material : string)
    : list MaterialInfo :=
  List.map snd
    (List.filter (fun e => String.eqb (fst e) material)
       (List.map (materialRow headers) rows)).

(** The callback of [rows.forEach] in [buildMaterialMasterMap]. *)
Definition materialStep (headers : list cell) (map : gmap string MaterialInfo)
    (row : list cell) : gmap string MaterialInfo :=
  if String.eqb (fst (materialRow headers row)) "" then map
  else <[ fst (materialRow headers row) := snd (materialRow headers row) ]> map.

(** Every quantity stored in the demand map is positive. *)
Definition positiveDemand (demandMap : gmap string (OMap.t Q)) : Prop :=
  forall (child : string) (weekMap : OMap.t Q) (w : string) (q : Q),
    demandMap !! child = Some weekMap -> In (w, q) weekMap -> (0 < q)%Q.

End MaterialWords.

(** The text [YYYY-MM-DD] of a calendar date, as [parsePoDateToIso] writes
    it: the year, then month and day padded to two digits. *)
Definition isoDate (year month day : Z) : string :=
  JS.stringOfZ year ++ "-" ++ JS.padStart2 (JS.stringOfZ month) ++ "-"
  ++ JS.padStart2 (JS.stringOfZ day).

(** The five characters that [escapeHtml] replaces. *)
Definition isHtmlSpecial (c : ascii) : bool :=
  Ascii.eqb c "&" || Ascii.eqb c "<" || Ascii.eqb c ">" || Ascii.eqb c JSStr.doubleQuote
  || Ascii.eqb c "'".

(** The checks on the three parts of the text that [formatPoDate] writes
    which [parsePoDateToIso] relies on: no part holds a hyphen, the day is
    two characters long, the month is a key of [monthMap] with the number of
    the month as its value, and 20 before the two-digit year gives four
    characters. *)
Section PoTextChecks.

Context `{ObjectHost}.

Definition dayTextOk (d : Z) : bool :=
  let t := JS.padStart2 (JS.stringOfZ d) in
  match JSStr.indexOf "-" t with None => true | Some _ => false end &&
  String.eqb (JS.padStart2 t) t.

Definition monthTextOk (m : Z) : bool :=
  let t := nth (Z.to_nat m) months "undefined" in
  match JSStr.indexOf "-" t with None => true | Some _ => false end &&
  match monthMap t with
  | Some mm => String.eqb mm (JS.padStart2 (JS.stringOfZ (m + 1)))
  | None => false
  end.

Definition yearTextOk (y : Z) : bool :=
  let t := JS.sliceLast2 (JS.stringOfZ y) in
  match JSStr.indexOf "-" t with None => true | Some _ => false end &&
  Nat.eqb (String.length t) 2 &&
  String.eqb ("20" ++ t) (JS.stringOfZ (2000 + y mod 100)) &&
  Nat.eqb (String.length ("20" ++ t)) 4.

End PoTextChecks.

(** ** Concrete inputs used by the examples below *)

(** A host whose [Number] knows only digit strings and whose [Date] parser
    accepts nothing. *)
Definition plainHost : Host :=
  {| NumberOther := fun _ => None;
     StringOfNumber := fun _ => "";
     DateParse := fun _ => None |}.

Definition policy (p o r s po : Q) : MaterialInfo :=
  {| mpq := p; moq := o; reorder := r; instock := s; pendingPo := po |}.

Definition emptyState : PageState :=
  {| mrpCalculatedData := None; weekColumns := []; allWeekColumns := [];
     selectedYear := "2024"; startWeek := 1; endWeek := 20 |}.

Definition doc (name : string) (g : Grid) : option ParsedExcel :=
  Some {| sheetName := name; jsonData := g |}.

Definition noSupplier : Inputs.t :=
  {| Inputs.bom := doc "BOM" [[CStr "Derived Material"; CStr "Child Part"]];
     Inputs.materialMaster := doc "MM" [[CStr "Material"]];
     Inputs.idp := doc "IDP" [[CStr "Derived Material"; CStr "05.2024"]];
     Inputs.supplierDetails := doc "SD" [];
     Inputs.weekPlan := None |}.

(** A workbook of three sheets: notes, then two sheets that score alike for
    the BOM type. *)
Definition threeSheets : Workbook :=
  {| SheetNames := ["Notes"; "First"; "Second"];
     Sheets := fun sn =>
       if String.eqb sn "Notes" then Some [[CStr "remarks"]]
       else if String.eqb sn "First" then Some [[CStr "Derived Material"; CStr "Child Part"]]
       else if String.eqb sn "Second" then Some [[CStr "Child Part"; CStr "Derived Material"]]
       else None |}.

Definition supplierHeaders : list cell :=
  [CStr "Material"; CStr "Vendor"; CStr "Vendor Lead-Time"; CStr "Transport Time"].

Definition supplierRows : Grid :=
  [ [CStr "M1"; CStr "V-slow"; CNum 20; CNum 5];
    [CStr "M1"; CStr "V-fast"; CNum 10; CNum 2];
    [CStr "M2"; CStr "V-other"; CNum 1; CNum 1];
    [CStr " M1 "; CStr "V-tie"; CNum 6; CNum 6];
    [CStr "C1"; CStr "V-c1"; CNum 10; CNum 2] ].

Definition bomHeaderRow : list cell :=
  [CStr "Derived Material"; CStr "Child Part"; CStr "Quantity per kit"; CStr "UOM"].

Definition bomDataRows : Grid :=
  [ [CStr "P1"; CStr "C1"; CNum 2; CStr "EA"];
    [CStr "P1"; CStr "C2"; CNum (1 # 2); CStr "KG"];
    [CStr "P2"; CStr "C1"; CNum 3; CStr "EA"];
    [CStr "P2"; CStr ""; CNum 3; CStr "EA"];
    [CStr "P2"; CStr "C3"; CNum 0; CStr "EA"] ].

Definition planHeaderRow : list cell :=
  [CStr "Derived Material"; CStr "05.2024"; CStr "06.2024"; CStr "30.2024"].

Definition planRows : Grid :=
  [ [CStr "P1"; CNum 10; CNum 0; CNum 7];
    [CStr "P2"; CNum 4; CNum 5; CNum 7] ].

Definition sampleInputs : Inputs.t :=
  {| Inputs.bom := doc "BOM" (bomHeaderRow :: bomDataRows);
     Inputs.materialMaster :=
       doc "Material Master"
         [ [CStr "Material"; CStr "MPQ"; CStr "MOQ"; CStr "Reorder"; CStr "Instock";
            CStr "Pending PO"];
           [CStr "C1"; CNum 10; CNum 0; CNum 0; CNum 5; CNum 0] ];
     Inputs.idp := doc "IDP" (planHeaderRow :: planRows);
     Inputs.supplierDetails := doc "Supplier" (supplierHeaders :: supplierRows);
     Inputs.weekPlan := None |}.

Definition weekPlanDoc : option ParsedExcel :=
  doc "Week Plan"
    [ [CStr "Week"; CStr "Start Date"; CStr "End Date"];
      [CStr "05.2024"; CNum 45327; CNum 45333];
      [CStr "06.2024"; CStr ""; CStr ""] ].

(** An object host whose [Object.prototype] gives nothing. *)
Definition plainObjectHost : ObjectHost :=
  {| inheritedProperty := fun _ => None |}.

Definition uploaded (d : option ParsedExcel) : Source :=
  {| remote := d; cached := None |}.

(** The five sources of the sample, the week plan from the local copy. *)
Definition sampleSources : Sources.t :=
  {| Sources.bom := uploaded (Inputs.bom sampleInputs);
     Sources.materialMaster := uploaded (Inputs.materialMaster sampleInputs);
     Sources.idp := uploaded (Inputs.idp sampleInputs);
     Sources.supplierDetails := uploaded (Inputs.supplierDetails sampleInputs);
     Sources.weekPlan := {| remote := None; cached := weekPlanDoc |} |}.

(** The page after the computation on the sample, and a state whose year
    has no column in the plan. *)
Definition sampleState : PageState :=
  fst (@calculateMrpDataInternal plainHost sampleInputs emptyState).

Definition otherYearState : PageState :=
  {| mrpCalculatedData := None; weekColumns := []; allWeekColumns := [];
     selectedYear := "2030"; startWeek := 1; endWeek := 20 |}.

(** A BOM whose header names no child part. *)
Definition noChildPartBom : ParsedExcel :=
  {| sheetName := "BOM"; jsonData := [[CStr "Derived Material"; CStr "Qty"]] |}.

Definition noChildPart : Inputs.t :=
  {| Inputs.bom := Some noChildPartBom;
     Inputs.materialMaster := doc "MM" [[CStr "Material"]];
     Inputs.idp := doc "IDP" [[CStr "Derived Material"; CStr "05.2024"]];
     Inputs.supplierDetails := doc "SD" [[CStr "Material"]];
     Inputs.weekPlan := None |}.

(** The sources of the sample without any week plan. *)
Definition noWeekPlan : Sources.t :=
  {| Sources.bom := Sources.bom sampleSources;
     Sources.materialMaster := Sources.materialMaster sampleSources;
     Sources.idp := Sources.idp sampleSources;
     Sources.supplierDetails := Sources.supplierDetails sampleSources;
     Sources.weekPlan := {| remote := None; cached := None |} |}.

(** A search for "c" with PO dates of January 2024 up to the 25th. *)
Definition januaryFilter : Filters :=
  {| searchMaterial := "c"; poDateFrom := "2024-01-01"; poDateTo := "2024-01-25" |}.

(** * Properties *)

Local Open Scope list_scope.

Section Arithmetic.

Local Open Scope Q_scope.

Lemma Qltb_true (x y : Q) : Qltb x y = true <-> x < y.
Proof.
  unfold Qltb. rewrite negb_true_iff, <- not_true_iff_false, Qle_bool_iff.
  split; [apply Qnot_le_lt | apply Qlt_not_le].
Qed.

Lemma Qltb_false (x y : Q) : Qltb x y = false <-> y <= x.
Proof.
  unfold Qltb. rewrite negb_false_iff. apply Qle_bool_iff.
Qed.

Lemma Qle_bool_false (x y : Q) : Qle_bool x y = false <-> y < x.
Proof.
  rewrite <- not_true_iff_false, Qle_bool_iff.
  split; [apply Qnot_le_lt | apply Qlt_not_le].
Qed.

Lemma orZero_eq (x : Q) : orZero x == x.
Proof.
  unfold orZero. destruct (Qeq_bool x 0) eqn:E; [|reflexivity].
  apply Qeq_bool_iff in E. symmetry. exact E.
Qed.

(** Netting never increases the excess, absorbs at most the demand, and keeps
    a non-negative excess non-negative. *)
Lemma netExcess_spec (rem qty : Q) :
  0 < qty ->
  snd (netExcess rem qty) <= rem /\
  (0 <= rem -> 0 <= snd (netExcess rem qty)) /\
  0 <= fst (netExcess rem qty) /\
  qty - fst (netExcess rem qty) == rem - snd (netExcess rem qty) /\
  (rem <= 0 -> fst (netExcess rem qty) = qty /\ snd (netExcess rem qty) = rem).
Proof.
  intros Hq. unfold netExcess.
  destruct (Qltb 0 rem) eqn:E1.
  - apply Qltb_true in E1.
    destruct (Qle_bool qty rem) eqn:E2; simpl.
    + apply Qle_bool_iff in E2. repeat split; intros; try lra.
    + apply Qle_bool_false in E2. repeat split; intros; try lra.
  - apply Qltb_false in E1. simpl. repeat split; intros; try lra.
Qed.

End Arithmetic.

(** ** Insertion-ordered maps *)

Section OMapFacts.

Context {V : Type}.
Implicit Types (m : OMap.t V) (k : string) (v : V).

Lemma get_set_eq m k v : OMap.get (OMap.set m k v) k = Some v.
Proof.
  induction m as [|[k' v'] m IH]; simpl.
  - rewrite String.eqb_refl. reflexivity.
  - destruct (String.eqb k' k) eqn:E; simpl; rewrite E; [reflexivity | exact IH].
Qed.

Lemma get_set_ne m k k' v : k <> k' -> OMap.get (OMap.set m k v) k' = OMap.get m k'.
Proof.
  intros Hne. induction m as [|[k0 v0] m IH]; simpl.
  - apply String.eqb_neq in Hne. rewrite Hne. reflexivity.
  - destruct (String.eqb k0 k) eqn:E; simpl.
    + apply String.eqb_eq in E. subst k0.
      apply String.eqb_neq in Hne. rewrite Hne. reflexivity.
    + rewrite IH. reflexivity.
Qed.

Lemma keys_set m k v k' :
  In k' (OMap.keys (OMap.set m k v)) <-> k' = k \/ In k' (OMap.keys m).
Proof.
  induction m as [|[k0 v0] m IH]; simpl.
  - intuition.
  - destruct (String.eqb k0 k) eqn:E; simpl.
    + apply String.eqb_eq in E. subst k0. intuition.
    + rewrite IH. intuition.
Qed.

Lemma set_fresh m k v : ~ In k (OMap.keys m) -> OMap.set m k v = (m ++ [(k, v)])%list.
Proof.
  induction m as [|[k0 v0] m IH]; simpl; intros Hn; [reflexivity|].
  destruct (String.eqb k0 k) eqn:E.
  - apply String.eqb_eq in E. subst. exfalso. apply Hn. left. reflexivity.
  - rewrite IH; [reflexivity | intuition].
Qed.

Lemma NoDup_keys_set m k v : List.NoDup (OMap.keys m) -> List.NoDup (OMap.keys (OMap.set m k v)).
Proof.
  induction m as [|[k0 v0] m IH]; simpl; intros Hnd.
  - apply List.NoDup_cons; [simpl; tauto | apply List.NoDup_nil].
  - inversion Hnd as [|? ? Hn Hnd']; subst.
    destruct (String.eqb k0 k) eqn:E; simpl.
    + apply List.NoDup_cons; assumption.
    + apply List.NoDup_cons; [|apply IH, Hnd'].
      rewrite keys_set. intros [-> | Hin]; [|exact (Hn Hin)].
      rewrite String.eqb_refl in E. discriminate.
Qed.

Lemma get_In_keys m k v : OMap.get m k = Some v -> In k (OMap.keys m).
Proof.
  induction m as [|[k0 v0] m IH]; simpl; [discriminate|].
  destruct (String.eqb k0 k) eqn:E.
  - apply String.eqb_eq in E. intros _. left. exact E.
  - intros Hg. right. exact (IH Hg).
Qed.

End OMapFacts.

(** ** Netting and lot sizing *)

Section Netting.

Context `{Host}.
Variable mmInfo : MaterialInfo.
Variable sdInfo : SupplierInfo.
Variable selectedWeeks : list string.
Variable weekPlan : option ParsedExcel.

Local Open Scope Q_scope.

Local Abbreviation step := (weekStep mmInfo sdInfo selectedWeeks weekPlan).

Lemma remainingExcess_step st e :
  remainingExcess (step st e) = snd (netAndSize mmInfo (remainingExcess st) (snd e)).
Proof.
  unfold weekStep. destruct (netAndSize mmInfo (remainingExcess st) (snd e)).
  reflexivity.
Qed.

Lemma weeklyMrpQty_step st e :
  weeklyMrpQty (step st e) =
  OMap.set (weeklyMrpQty st) (fst e) (fst (netAndSize mmInfo (remainingExcess st) (snd e))).
Proof.
  unfold weekStep. destruct (netAndSize mmInfo (remainingExcess st) (snd e)).
  reflexivity.
Qed.

Lemma weeklyDemand_step st e :
  weeklyDemand (step st e) = OMap.set (weeklyDemand st) (fst e) (snd e).
Proof.
  unfold weekStep. destruct (netAndSize mmInfo (remainingExcess st) (snd e)).
  reflexivity.
Qed.

Lemma totalDemand_step st e :
  totalDemand (step st e) =
  if existsb (String.eqb (fst e)) selectedWeeks then totalDemand st + snd e
  else totalDemand st.
Proof.
  unfold weekStep. destruct (netAndSize mmInfo (remainingExcess st) (snd e)).
  reflexivity.
Qed.

Lemma netAndSize_pos rem qty :
  0 < qty ->
  netAndSize mmInfo rem qty =
  (lotSize mmInfo (fst (netExcess rem qty)), snd (netExcess rem qty)).
Proof.
  intros Hq. unfold netAndSize. apply Qltb_true in Hq. rewrite Hq.
  destruct (netExcess rem qty). reflexivity.
Qed.

Lemma netAndSize_nonpos rem qty :
  qty <= 0 -> netAndSize mmInfo rem qty = (0, rem).
Proof.
  intros Hq. unfold netAndSize. apply Qltb_false in Hq. rewrite Hq. reflexivity.
Qed.

(** One period never increases the running excess. *)
Lemma remainingExcess_step_le st e : remainingExcess (step st e) <= remainingExcess st.
Proof.
  rewrite remainingExcess_step.
  destruct (Qlt_le_dec 0 (snd e)) as [Hq | Hq].
  - rewrite netAndSize_pos by exact Hq. simpl.
    apply (netExcess_spec (remainingExcess st) (snd e) Hq).
  - rewrite netAndSize_nonpos by exact Hq. simpl. apply Qle_refl.
Qed.

Lemma remainingExcess_step_nonneg st e :
  0 <= remainingExcess st -> 0 <= remainingExcess (step st e).
Proof.
  intros Hr. rewrite remainingExcess_step.
  destruct (Qlt_le_dec 0 (snd e)) as [Hq | Hq].
  - rewrite netAndSize_pos by exact Hq. simpl.
    apply (netExcess_spec (remainingExcess st) (snd e) Hq). exact Hr.
  - rewrite netAndSize_nonpos by exact Hq. exact Hr.
Qed.

Lemma remainingExcess_fold_nonneg l st :
  0 <= remainingExcess st -> 0 <= remainingExcess (fold_left step l st).
Proof.
  revert st. induction l as [|e l IH]; intros st Hr; simpl; [exact Hr|].
  apply IH, remainingExcess_step_nonneg, Hr.
Qed.

(** The demand absorbed over a walk is what the excess lost. *)
Lemma excessConsumed_fold l st :
  excessConsumed (remainingExcess st) l ==
  remainingExcess st - remainingExcess (fold_left step l st).
Proof.
  revert st. induction l as [|[w qty] l IH]; intros st; simpl.
  - lra.
  - specialize (IH (step st (w, qty))).
    rewrite remainingExcess_step in IH. simpl in IH.
    destruct (Qltb 0 qty) eqn:E.
    + apply Qltb_true in E.
      rewrite netAndSize_pos in IH by exact E. simpl in IH.
      rewrite IH.
      pose proof (netExcess_spec (remainingExcess st) qty E) as (_ & _ & _ & Hc & _).
      lra.
    + apply Qltb_false in E.
      rewrite netAndSize_nonpos in IH by exact E. simpl in IH.
      rewrite IH. lra.
Qed.

Lemma weeklyMrpQty_fold_other l st w :
  ~ In w (OMap.keys l) ->
  OMap.get (weeklyMrpQty (fold_left step l st)) w = OMap.get (weeklyMrpQty st) w.
Proof.
  revert st. induction l as [|e l IH]; intros st Hn; simpl; [reflexivity|].
  simpl in Hn. rewrite IH by tauto.
  rewrite weeklyMrpQty_step. apply get_set_ne. tauto.
Qed.

(** The cascade as the code computes it. *)
Lemma lotSize_cascade adjustedDemand :
  0 < adjustedDemand -> cascade mmInfo adjustedDemand (lotSize mmInfo adjustedDemand).
Proof.
  intros Ha. unfold cascade, lotSize.
  apply Qltb_true in Ha. rewrite Ha.
  destruct (Qltb 0 (reorder mmInfo)) eqn:Er.
  { apply Qltb_true in Er. repeat split; intros; try reflexivity; lra. }
  apply Qltb_false in Er.
  destruct (Qltb adjustedDemand (moq mmInfo)) eqn:Eo.
  { apply Qltb_true in Eo. repeat split; intros; try reflexivity; lra. }
  apply Qltb_false in Eo.
  destruct (Qltb 0 (mpq mmInfo)) eqn:Ep.
  { apply Qltb_true in Ep. repeat split; intros; try reflexivity; lra. }
  apply Qltb_false in Ep. repeat split; intros; try reflexivity; lra.
Qed.




End Netting.

Section NettingExamples.

Local Open Scope Q_scope.

Lemma Q_le_dec_true (x y : Q) : Qle_bool x y = true -> x <= y.
Proof. apply Qle_bool_iff. Qed.

Lemma Q_lt_dec_true (x y : Q) : Qltb x y = true -> x < y.
Proof. apply Qltb_true. Qed.

(** Reorder-point precedence, MOQ fallback and MPQ rounding of section 8. *)
Example lotSize_scenarios :
  lotSize (policy 10 100 50 0 0) 20 = 70 /\
  lotSize (policy 0 100 0 0 0) 40 = 100 /\
  lotSize (policy 25 0 0 0 0) 51 = 75.
Proof. vm_compute. repeat split. Qed.

Example reorder_precedence_value :
  OMap.get
    (weeklyMrpQty
       (@weekLoop plainHost (policy 10 100 50 0 0) noSupplierInfo ["05.2024"] None
          [("05.2024", 20)]))
    "05.2024" = Some 70.
Proof. vm_compute. reflexivity. Qed.


(** A material-master row with a negative stock reaches the walk as it is. *)
Example negative_stock_is_read :
  @buildMaterialMasterMap plainHost
    [CStr "Material"; CStr "Instock"; CStr "Pending PO"]
    [[CStr "M1"; CNum (-5); CNum 0]] !! "M1"
  = Some (policy 0 0 0 (-5) 0).
Proof. vm_compute. reflexivity. Qed.





End NettingExamples.

(** ** Column roles *)

Section ColumnRoles.

Context `{Host}.

Lemma existsb_Permutation {A} (f : A -> bool) (l l' : list A) :
  Permutation l l' -> existsb f l = existsb f l'.
Proof.
  induction 1 as [|x l l' _ IH|x y l|l l' l'' _ IH1 _ IH2]; simpl.
  - reflexivity.
  - rewrite IH. reflexivity.
  - destruct (f x), (f y); reflexivity.
  - rewrite IH1. exact IH2.
Qed.

Lemma findColumnFrom_step predicates i c rest :
  findColumnFrom predicates i (c :: rest) =
  if columnMatches predicates c then i else findColumnFrom predicates (i + 1) rest.
Proof.
  unfold columnMatches. simpl.
  destruct (String.eqb (normalizeHeaderValue c) ""); simpl; [reflexivity|].
  destruct (existsb (fun p => p (normalizeHeaderValue c)) predicates); reflexivity.
Qed.

Lemma findColumnFrom_spec predicates headers i :
  (findColumnFrom predicates i headers = (-1)%Z /\
   forall c, In c headers -> columnMatches predicates c = false) \/
  (exists (n : nat) (c : cell),
     findColumnFrom predicates i headers = (i + Z.of_nat n)%Z /\
     nth_error headers n = Some c /\
     columnMatches predicates c = true /\
     forall (j : nat) (c' : cell),
       (j < n)%nat -> nth_error headers j = Some c' -> columnMatches predicates c' = false).
Proof.
  revert i. induction headers as [|c rest IH]; intros i.
  - left. split; [reflexivity | intros c []].
  - rewrite findColumnFrom_step.
    destruct (columnMatches predicates c) eqn:Ec.
    + right. exists O, c. repeat split; [f_equal; lia | exact Ec | intros j c' Hj; lia].
    + destruct (IH (i + 1)%Z) as [[Hm Hall] | (n & c0 & Hi & Hn & Hc & Hbefore)].
      * left. split; [exact Hm|]. intros c' [<- | Hin]; [exact Ec | exact (Hall c' Hin)].
      * right. exists (S n), c0. repeat split; [rewrite Hi; lia | exact Hn | exact Hc |].
        intros [|j] c' Hj Hnth; simpl in Hnth.
        -- injection Hnth as <-. exact Ec.
        -- apply (Hbefore j c'); [lia | exact Hnth].
Qed.

Lemma findColumnFrom_Permutation predicates predicates' headers i :
  Permutation predicates predicates' ->
  findColumnFrom predicates' i headers = findColumnFrom predicates i headers.
Proof.
  intros Hp. revert i. induction headers as [|c rest IH]; intros i; [reflexivity|].
  rewrite !findColumnFrom_step. unfold columnMatches.
  rewrite (existsb_Permutation _ _ _ Hp), IH. reflexivity.
Qed.

(** C5 (amended): the column resolved for a role is the leftmost column whose
    normalized header is not empty and satisfies at least one of the role's
    matchers, or -1 when there is none; reordering the matchers does not
    change it.  For the child-part role the matchers are: contains "child
    part", is "child", is "childpart", contains "childpart", contains
    "component", contains "comp part". *)
Theorem findColumnIndex_leftmost (headers : list cell) (predicates : list (string -> bool)) :
  ((findColumnIndex headers predicates = (-1)%Z /\
    forall c, In c headers -> columnMatches predicates c = false) \/
   (exists (n : nat) (c : cell),
      findColumnIndex headers predicates = Z.of_nat n /\
      nth_error headers n = Some c /\
      columnMatches predicates c = true /\
      forall (j : nat) (c' : cell),
        (j < n)%nat -> nth_error headers j = Some c' ->
        columnMatches predicates c' = false)) /\
  (forall predicates', Permutation predicates predicates' ->
     findColumnIndex headers predicates' = findColumnIndex headers predicates) /\
  (forall h, existsb (fun p => p h) childPartPredicates =
     (JS.includes h "child part" || String.eqb h "child" || String.eqb h "childpart" ||
      JS.includes h "childpart" || JS.includes h "component" || JS.includes h "comp part")).
Proof.
  split; [|split].
  - unfold findColumnIndex.
    destruct (findColumnFrom_spec predicates headers 0) as [Hl | (n & c & Hi & Hr)].
    + left. exact Hl.
    + right. exists n, c. split; [rewrite Hi; lia | exact Hr].
  - intros predicates' Hp. apply findColumnFrom_Permutation, Hp.
  - intros h. simpl. rewrite orb_false_r, !orb_assoc. reflexivity.
Qed.

End ColumnRoles.

Section ColumnRoleExamples.

(** C5 as stated fails: in the header row Component, Child Part the second
    column satisfies the first matcher and the first column only the fifth,
    yet the first column is chosen. *)
Lemma findColumnIndex_leftmost_counterexample :
  @findColumnIndex plainHost [CStr "Component"; CStr "Child Part"] childPartPredicates = 0%Z /\
  ~ @prefersHigherPriority plainHost [CStr "Component"; CStr "Child Part"] childPartPredicates.
Proof.
  split; [reflexivity|].
  intros Hp.
  apply (Hp 1%nat 0%nat (CStr "Child Part") (CStr "Component") 0%nat 4%nat);
    try reflexivity. lia.
Qed.

Lemma findColumnIndex_leftmost_witness :
  Permutation childPartPredicates (rev childPartPredicates) /\
  @findColumnIndex plainHost [CStr "Qty"; CStr "Component"; CStr "Child Part"]
    (rev childPartPredicates) =
  @findColumnIndex plainHost [CStr "Qty"; CStr "Component"; CStr "Child Part"]
    childPartPredicates.
Proof.
  assert (Hp : Permutation childPartPredicates (rev childPartPredicates))
    by apply Permutation_rev.
  split; [exact Hp|].
  exact (proj1 (proj2 (@findColumnIndex_leftmost plainHost
    [CStr "Qty"; CStr "Component"; CStr "Child Part"] childPartPredicates)) _ Hp).
Defined.

End ColumnRoleExamples.

(** ** Missing sources *)

Section MissingSources.

Context `{Host}.

Lemma isEmptyDoc_missing d : isEmptyDoc d = true <-> missing d.
Proof.
  unfold isEmptyDoc, missing. destruct d as [p|].
  - destruct (jsonData p) eqn:E; split; intros Hm.
    + right. exists p. split; [reflexivity | exact E].
    + reflexivity.
    + discriminate.
    + destruct Hm as [Hm | (q & Hq & Hj)]; [discriminate|].
      injection Hq as <-. congruence.
  - split; [intros _; left; reflexivity | reflexivity].
Qed.

(** C7: when the BOM, the production plan, the material master or the
    supplier details is absent or empty, the computation stops with a Data
    Error dialog that names the missing source and leaves the state of the
    page, and so the rows on display, as it was; rows are set only together
    with the success dialog. *)
Theorem missing_source_aborts (inputs : Inputs.t) (st : PageState) :
  (missing (Inputs.bom inputs) \/ missing (Inputs.idp inputs) \/
   missing (Inputs.materialMaster inputs) \/ missing (Inputs.supplierDetails inputs) ->
   calculateMrpDataInternal inputs st =
   (st, DataError
          (if isEmptyDoc (Inputs.bom inputs) then "BOM data is missing or empty"
           else if isEmptyDoc (Inputs.idp inputs)
                then "Production Plan (IDP) data is missing or empty"
           else "Material Master / Supplier Details data is missing"))) /\
  (forall st' a, calculateMrpDataInternal inputs st = (st', a) ->
     match a with
     | CalculationComplete _ _ _ _ _ => exists rows, mrpCalculatedData st' = Some rows
     | DataError _ | ColumnError _ _ => st' = st
     end).
Proof.
  split.
  - rewrite <- !isEmptyDoc_missing. intros Hm. unfold calculateMrpDataInternal.
    destruct (isEmptyDoc (Inputs.bom inputs)); [reflexivity|].
    destruct (isEmptyDoc (Inputs.idp inputs)); [reflexivity|].
    destruct (isEmptyDoc (Inputs.materialMaster inputs)); [reflexivity|].
    destruct (isEmptyDoc (Inputs.supplierDetails inputs)); [reflexivity|].
    destruct Hm as [Hm | [Hm | [Hm | Hm]]]; discriminate.
  - intros st' a. unfold calculateMrpDataInternal.
    destruct (isEmptyDoc (Inputs.bom inputs)).
    { intros [= <- <-]. reflexivity. }
    destruct (isEmptyDoc (Inputs.idp inputs)).
    { intros [= <- <-]. reflexivity. }
    destruct (isEmptyDoc (Inputs.materialMaster inputs) ||
              isEmptyDoc (Inputs.supplierDetails inputs)).
    { intros [= <- <-]. reflexivity. }
    match goal with |- context [if ?b then _ else _] => destruct b end.
    { intros [= <- <-]. reflexivity. }
    intros [= <- <-]. eexists. reflexivity.
Qed.

End MissingSources.

Section MissingSourcesExamples.

Lemma missing_source_aborts_witness :
  @calculateMrpDataInternal plainHost noSupplier emptyState =
  (emptyState, DataError "Material Master / Supplier Details data is missing").
Proof.
  apply (proj1 (@missing_source_aborts plainHost noSupplier emptyState)).
  right. right. right. right. eexists. split; reflexivity.
Defined.

End MissingSourcesExamples.

(** ** Sheet selection *)

Section SheetSelection.

Context `{Host}.
Variable type : SheetType.
Variable workbook : Workbook.

Local Open Scope Z_scope.

Lemma scoreSheetByType_first15 sn aoa :
  scoreSheetByType type sn aoa = scoreSheetByType type sn (firstn 15 aoa).
Proof.
  unfold scoreSheetByType. rewrite firstn_firstn. reflexivity.
Qed.

Lemma scoreSheetByType_nonneg sn aoa : 0 <= scoreSheetByType type sn aoa.
Proof.
  unfold scoreSheetByType, weight. destruct type;
    repeat match goal with |- context [if ?b then _ else _] => destruct b end; lia.
Qed.

Lemma nth_error_snoc {A} (l : list A) (x y : A) (j : nat) :
  nth_error (l ++ [x]) j = Some y ->
  ((j < List.length l)%nat /\ nth_error l j = Some y) \/ (j = List.length l /\ y = x).
Proof.
  intros Hn. destruct (Nat.lt_ge_cases j (List.length l)) as [Hlt | Hge].
  - left. split; [exact Hlt|]. rewrite nth_error_app1 in Hn by exact Hlt. exact Hn.
  - right. rewrite nth_error_app2 in Hn by exact Hge.
    destruct (j - List.length l)%nat as [|k] eqn:Ek; simpl in Hn.
    + split; [lia | congruence].
    + destruct k; discriminate.
Qed.

Lemma bestOf_considerSheet seen b sn :
  bestOf type workbook seen b ->
  bestOf type workbook (seen ++ [sn]) (considerSheet type workbook b sn).
Proof.
  intros Hb. unfold considerSheet.
  destruct (Sheets workbook sn) as [aoa|] eqn:Es.
  - destruct Hb as [(Hj & Hs & Hn & Hnone) | (i & sn0 & aoa0 & Hi & Hs0 & -> & Hmax)].
    + (* the first usable sheet beats the sentinel *)
      rewrite Hs. pose proof (scoreSheetByType_nonneg sn aoa) as Hpos.
      destruct (Z.ltb_spec (-1) (scoreSheetByType type sn aoa)) as [_ | Hbad]; [|lia].
      right. exists (List.length seen), sn, aoa.
      split; [rewrite nth_error_app2, Nat.sub_diag by lia; reflexivity|].
      split; [exact Es|]. split; [reflexivity|].
      intros j sn' aoa' Hnth Hs'.
      apply nth_error_snoc in Hnth as [[Hlt Hnth] | [-> ->]].
      * apply nth_error_In in Hnth. rewrite (Hnone sn' Hnth) in Hs'. discriminate.
      * rewrite Es in Hs'. injection Hs' as <-. split; [lia | intros ?; lia].
    + simpl.
      assert (Hlen : (i < List.length seen)%nat)
        by (apply nth_error_Some; congruence).
      destruct (Z.ltb_spec (scoreSheetByType type sn0 aoa0) (scoreSheetByType type sn aoa))
        as [Hlt | Hge].
      * (* strictly better: the new sheet becomes the best *)
        right. exists (List.length seen), sn, aoa.
        split; [rewrite nth_error_app2, Nat.sub_diag by lia; reflexivity|].
        split; [exact Es|]. split; [reflexivity|].
        intros j sn' aoa' Hnth Hs'.
        apply nth_error_snoc in Hnth as [[Hj Hnth] | [-> ->]].
        -- destruct (Hmax j sn' aoa' Hnth Hs') as [Hle _]. split; [lia | intros _; lia].
        -- rewrite Es in Hs'. injection Hs' as <-. split; [lia | intros ?; lia].
      * (* a tie or worse: the earlier sheet is kept *)
        right. exists i, sn0, aoa0.
        split; [rewrite nth_error_app1 by exact Hlen; exact Hi|].
        split; [exact Hs0|]. split; [reflexivity|].
        intros j sn' aoa' Hnth Hs'.
        apply nth_error_snoc in Hnth as [[Hj Hnth] | [-> ->]].
        -- exact (Hmax j sn' aoa' Hnth Hs').
        -- rewrite Es in Hs'. injection Hs' as <-. split; [lia | intros ?; lia].
  - destruct Hb as [(Hj & Hs & Hn & Hnone) | (i & sn0 & aoa0 & Hi & Hs0 & -> & Hmax)].
    + left. repeat split; try assumption.
      intros sn' [Hin | [<- | []]]%in_app_or; [exact (Hnone sn' Hin) | exact Es].
    + right. exists i, sn0, aoa0.
      assert (Hlen : (i < List.length seen)%nat)
        by (apply nth_error_Some; congruence).
      split; [rewrite nth_error_app1 by exact Hlen; exact Hi|].
      split; [exact Hs0|]. split; [reflexivity|].
      intros j sn' aoa' Hnth Hs'.
      apply nth_error_snoc in Hnth as [[Hj Hnth] | [-> ->]].
      * exact (Hmax j sn' aoa' Hnth Hs').
      * congruence.
Qed.

Lemma bestOf_fold rest seen b :
  bestOf type workbook seen b ->
  bestOf type workbook (seen ++ rest) (fold_left (considerSheet type workbook) rest b).
Proof.
  revert seen b. induction rest as [|sn rest IH]; intros seen b Hb; simpl.
  - rewrite app_nil_r. exact Hb.
  - replace (seen ++ sn :: rest) with ((seen ++ [sn]) ++ rest)
      by (rewrite <- app_assoc; reflexivity).
    apply IH, bestOf_considerSheet, Hb.
Qed.

Lemma bestOf_selectBest :
  bestOf type workbook (SheetNames workbook) (selectBest type workbook).
Proof.
  unfold selectBest.
  apply (bestOf_fold (SheetNames workbook) []).
  left. repeat split. intros sn [].
Qed.

(** C8: the score of a sheet depends only on its name and its first 15 rows
    and is never negative; the sheet returned is the first, in workbook
    order, among those of the highest score (a later sheet replaces the
    current best only with a strictly higher score); and when the workbook
    has no sheet to score, the result is the first sheet name (Sheet1 when
    there is none) with an empty grid. *)
Theorem sheet_selection :
  (forall sn aoa,
     scoreSheetByType type sn aoa = scoreSheetByType type sn (firstn 15 aoa) /\
     -1 < scoreSheetByType type sn aoa) /\
  ((forall sn, In sn (SheetNames workbook) -> Sheets workbook sn = None) ->
   parseExcelArrayBuffer workbook type =
   {| sheetName := hd "Sheet1"%string (SheetNames workbook); jsonData := [] |}) /\
  ((exists sn, In sn (SheetNames workbook) /\ Sheets workbook sn <> None) ->
   exists (i : nat) (sn : string) (aoa : Grid),
     nth_error (SheetNames workbook) i = Some sn /\
     Sheets workbook sn = Some aoa /\
     parseExcelArrayBuffer workbook type = {| sheetName := sn; jsonData := aoa |} /\
     forall (j : nat) (sn' : string) (aoa' : Grid),
       nth_error (SheetNames workbook) j = Some sn' ->
       Sheets workbook sn' = Some aoa' ->
       scoreSheetByType type sn' aoa' <= scoreSheetByType type sn aoa /\
       ((j < i)%nat -> scoreSheetByType type sn' aoa' < scoreSheetByType type sn aoa)).
Proof.
  split; [|split].
  - intros sn aoa. split; [apply scoreSheetByType_first15|].
    pose proof (scoreSheetByType_nonneg sn aoa). lia.
  - intros Hnone. unfold parseExcelArrayBuffer.
    destruct bestOf_selectBest as [(Hj & _ & Hn & _) | (i & sn & aoa & Hi & Hs & _)].
    + rewrite Hj, Hn. reflexivity.
    + apply nth_error_In in Hi. rewrite (Hnone sn Hi) in Hs. discriminate.
  - intros (sn1 & Hin & Hsome). unfold parseExcelArrayBuffer.
    destruct bestOf_selectBest as [(_ & _ & _ & Hnone) | (i & sn & aoa & Hi & Hs & Hb & Hmax)].
    + exfalso. exact (Hsome (Hnone sn1 Hin)).
    + exists i, sn, aoa. rewrite Hb. simpl. repeat split; try assumption.
      * apply (Hmax j sn' aoa'); assumption.
      * apply (Hmax j sn' aoa'); assumption.
Qed.

End SheetSelection.

Section SheetSelectionExamples.

Example tie_keeps_first_sheet :
  @parseExcelArrayBuffer plainHost threeSheets bom =
  {| sheetName := "First"; jsonData := [[CStr "Derived Material"; CStr "Child Part"]] |}.
Proof. vm_compute. reflexivity. Qed.

Lemma sheet_selection_witness :
  exists (i : nat) (sn : string) (aoa : Grid),
    nth_error (SheetNames threeSheets) i = Some sn /\
    Sheets threeSheets sn = Some aoa /\
    @parseExcelArrayBuffer plainHost threeSheets bom = {| sheetName := sn; jsonData := aoa |} /\
    forall (j : nat) (sn' : string) (aoa' : Grid),
      nth_error (SheetNames threeSheets) j = Some sn' ->
      Sheets threeSheets sn' = Some aoa' ->
      (@scoreSheetByType plainHost bom sn' aoa' <= @scoreSheetByType plainHost bom sn aoa)%Z /\
      ((j < i)%nat ->
       (@scoreSheetByType plainHost bom sn' aoa' < @scoreSheetByType plainHost bom sn aoa)%Z).
Proof.
  apply (proj2 (proj2 (@sheet_selection plainHost bom threeSheets))).
  exists "Notes"%string. split; [left; reflexivity | discriminate].
Defined.

End SheetSelectionExamples.

(** ** Supplier details *)

Section SupplierDetails.

Context `{Host}.
Variables vendorLeadTimeIdx transportTimeIdx : Z.
Variable material : string.
Hypothesis material_not_blank : material <> ""%string.

Local Abbreviation entries rows :=
  (supplierEntries vendorLeadTimeIdx transportTimeIdx rows material).
Local Abbreviation sstep := (supplierStep vendorLeadTimeIdx transportTimeIdx).

Lemma supplierEntries_snoc rows row :
  entries (rows ++ [row]) =
  entries rows ++
  (if String.eqb (fst (supplierRow vendorLeadTimeIdx transportTimeIdx row)) material
   then [snd (supplierRow vendorLeadTimeIdx transportTimeIdx row)] else []).
Proof.
  unfold supplierEntries. rewrite List.map_app, List.filter_app, List.map_app.
  f_equal. cbn [List.map List.filter].
  destruct (String.eqb (fst (supplierRow vendorLeadTimeIdx transportTimeIdx row)) material);
    reflexivity.
Qed.

Lemma earliestMinimum_step rows (map : gmap string SupplierInfo) row :
  earliestMinimum (entries rows) (map !! material) ->
  earliestMinimum (entries (rows ++ [row])) (sstep map row !! material).
Proof.
  intros Hm. rewrite supplierEntries_snoc. unfold supplierStep.
  destruct (supplierRow vendorLeadTimeIdx transportTimeIdx row) as [k info]. simpl.
  destruct (String.eqb k material) eqn:Ek.
  - apply String.eqb_eq in Ek. subst k.
    apply String.eqb_neq in material_not_blank. rewrite material_not_blank.
    destruct Hm as [[He Ho] | (i & e & Ho & Hi & Hmin)].
    + (* the first row of this material *)
      rewrite Ho, lookup_insert_eq, He. simpl.
      right. exists O, info. split; [reflexivity|]. split; [reflexivity|].
      intros j e' Hnth. destruct j as [|[|j]]; simpl in Hnth; try discriminate.
      injection Hnth as <-. split; [apply Qle_refl | intros ?; lia].
    + rewrite Ho.
      assert (Hlen : (i < List.length (entries rows))%nat)
        by (apply nth_error_Some; congruence).
      destruct (Qltb (totalLeadTime info) (totalLeadTime e)) eqn:Elt.
      * (* strictly shorter: the new row replaces the entry *)
        apply Qltb_true in Elt. rewrite lookup_insert_eq.
        right. exists (List.length (entries rows)), info.
        split; [reflexivity|].
        split; [rewrite nth_error_app2, Nat.sub_diag by lia; reflexivity|].
        intros j e' Hnth.
        apply nth_error_snoc in Hnth as [[Hj Hnth] | [-> ->]].
        -- destruct (Hmin j e' Hnth) as [Hle _].
           split; [|intros _]; lra.
        -- split; [apply Qle_refl | intros ?; lia].
      * (* equal or longer: the earlier entry stays *)
        apply Qltb_false in Elt. rewrite Ho.
        right. exists i, e.
        split; [reflexivity|].
        split; [rewrite nth_error_app1 by exact Hlen; exact Hi|].
        intros j e' Hnth.
        apply nth_error_snoc in Hnth as [[Hj Hnth] | [-> ->]].
        -- exact (Hmin j e' Hnth).
        -- split; [exact Elt | intros ?; lia].
  - rewrite app_nil_r.
    assert (Hsame : forall v, <[k := v]> map !! material = map !! material).
    { intros v. apply lookup_insert_ne. intros ->. rewrite String.eqb_refl in Ek. discriminate. }
    destruct (String.eqb k ""); [exact Hm|].
    destruct (map !! k) as [old|] eqn:Eold.
    + destruct (Qltb (totalLeadTime info) (totalLeadTime old)); [rewrite Hsame|]; exact Hm.
    + rewrite Hsame. exact Hm.
Qed.

Lemma earliestMinimum_fold rest rows (map : gmap string SupplierInfo) :
  earliestMinimum (entries rows) (map !! material) ->
  earliestMinimum (entries (rows ++ rest)) (fold_left sstep rest map !! material).
Proof.
  revert rows map. induction rest as [|row rest IH]; intros rows map Hm; simpl.
  - rewrite app_nil_r. exact Hm.
  - replace (rows ++ row :: rest) with ((rows ++ [row]) ++ rest)
      by (rewrite <- app_assoc; reflexivity).
    apply IH, earliestMinimum_step, Hm.
Qed.

End SupplierDetails.

Section SupplierDetailsTheorem.

Context `{Host}.


End SupplierDetailsTheorem.

Section SupplierDetailsExamples.

Example supplier_example :
  @buildSupplierDetailsMap plainHost supplierHeaders supplierRows !! "M1"
  = Some {| vendor := "V-fast"; vendorLeadTime := 10; transportTime := 2;
            totalLeadTime := 10 + 2 |}.
Proof. vm_compute. reflexivity. Qed.


End SupplierDetailsExamples.

(** ** Purchase-order dates *)

Section Calendar.

Local Open Scope Z_scope.

(** [YearFromDay] is the year of ECMAScript's [YearFromTime]: the largest
    year that starts on or before the day. *)
Lemma YearFromDay_spec d :
  JSDate.DayFromYear (JSDate.YearFromDay d) <= d
  < JSDate.DayFromYear (JSDate.YearFromDay d + 1).
Proof.
  unfold JSDate.YearFromDay.
  set (y := 1970 + 400 * d / 146097).
  assert (Hy : JSDate.DayFromYear (y - 1) <= d < JSDate.DayFromYear (y + 2)).
  { unfold y, JSDate.DayFromYear. Z.div_mod_to_equations. lia. }
  destruct (Z.ltb_spec d (JSDate.DayFromYear y)).
  - replace (y - 1 + 1) with y by lia. lia.
  - destruct (Z.leb_spec (JSDate.DayFromYear (y + 1)) d).
    + replace (y + 1 + 1) with (y + 2) by lia. lia.
    + lia.
Qed.

Lemma MonthFromDay_range d : 0 <= JSDate.MonthFromDay d <= 11.
Proof.
  unfold JSDate.MonthFromDay.
  repeat match goal with |- context [if ?b then _ else _] => destruct b end; lia.
Qed.

(** Setting the day of the month to the current one plus [k] moves the date
    by [k] days. *)
Lemma MakeDay_shift d k :
  JSDate.MakeDay (JSDate.YearFromDay d) (JSDate.MonthFromDay d) (JSDate.DateFromDay d + k)
  = d + k.
Proof.
  pose proof (MonthFromDay_range d) as Hm.
  unfold JSDate.MakeDay.
  rewrite Z.div_small, Z.mod_small, Z.add_0_r by lia.
  unfold JSDate.DateFromDay. lia.
Qed.

Lemma DayFromYear_bounds y :
  100 <= y <= 9999 -> -700000 <= JSDate.DayFromYear y <= 3000000.
Proof.
  intros Hy. unfold JSDate.DayFromYear. Z.div_mod_to_equations. lia.
Qed.

Lemma MakeDay_january_first y : JSDate.MakeDay y 0 1 = JSDate.DayFromYear y.
Proof.
  unfold JSDate.MakeDay.
  change (0 / 12) with 0. change (0 mod 12) with 0.
  unfold JSDate.monthStart. rewrite !Z.add_0_r. lia.
Qed.

End Calendar.

Section DateValues.

Local Open Scope Q_scope.

Lemma Qtrunc_inject x n : x == inject_Z n -> Qtrunc x = n.
Proof.
  intros Hx. unfold Qtrunc. destruct (Qle_bool 0 x).
  - rewrite (Qfloor_comp _ _ Hx). apply Qfloor_Z.
  - rewrite (Qceiling_comp _ _ Hx). apply Qceiling_Z.
Qed.

Lemma TimeClip_inject x n :
  (-100000000 <= n <= 100000000)%Z -> x == inject_Z n -> JSDate.TimeClip x = Some x.
Proof.
  intros [Hlo Hhi] Hx. unfold JSDate.TimeClip.
  assert (H1 : Qle_bool (- (100000000)) x = true).
  { apply Qle_bool_iff. rewrite Hx. change (- (100000000)) with (inject_Z (-100000000)).
    rewrite <- Zle_Qle. exact Hlo. }
  assert (H2 : Qle_bool x 100000000 = true).
  { apply Qle_bool_iff. rewrite Hx. change 100000000 with (inject_Z 100000000).
    rewrite <- Zle_Qle. exact Hhi. }
  rewrite H1, H2. reflexivity.
Qed.

Lemma TimeClip_Qeq x y :
  x == y ->
  match JSDate.TimeClip x, JSDate.TimeClip y with
  | Some x', Some y' => x' == y'
  | None, None => True
  | _, _ => False
  end.
Proof.
  intros Hxy. unfold JSDate.TimeClip.
  assert (H1 : Qle_bool (- (100000000)) x = Qle_bool (- (100000000)) y).
  { destruct (Qle_bool (- (100000000)) y) eqn:E.
    - apply Qle_bool_iff. apply Qle_bool_iff in E. rewrite Hxy. exact E.
    - apply Qle_bool_false. apply Qle_bool_false in E. rewrite Hxy. exact E. }
  assert (H2 : Qle_bool x 100000000 = Qle_bool y 100000000).
  { destruct (Qle_bool y 100000000) eqn:E.
    - apply Qle_bool_iff. apply Qle_bool_iff in E. rewrite Hxy. exact E.
    - apply Qle_bool_false. apply Qle_bool_false in E. rewrite Hxy. exact E. }
  rewrite H1, H2.
  destruct (Qle_bool (- (100000000)) y && Qle_bool y 100000000); [exact Hxy | exact I].
Qed.

(** Setting the day of the month of a date at midnight to the current one
    plus [k] gives the date [k] days later, when that is in range. *)
Lemma setDate_shift x d v k :
  x == inject_Z d ->
  v == inject_Z (JSDate.DateFromDay d + k) ->
  exists x', JSDate.setDate (Some x) (Some v) = JSDate.TimeClip x' /\ x' == inject_Z (d + k).
Proof.
  intros Hx Hv. unfold JSDate.setDate.
  assert (Hf : Qfloor x = d) by (rewrite (Qfloor_comp _ _ Hx); apply Qfloor_Z).
  rewrite Hf, (Qtrunc_inject _ _ Hv), MakeDay_shift.
  eexists. split; [reflexivity|]. rewrite Hx. ring.
Qed.

Lemma formatPoDate_Qeq x y : x == y -> formatPoDate (Some x) = formatPoDate (Some y).
Proof.
  intros Hxy. unfold formatPoDate, JSDate.getDate, JSDate.getMonth, JSDate.getFullYear.
  rewrite (Qfloor_comp _ _ Hxy). reflexivity.
Qed.

Lemma formatPoDate_TimeClip_Qeq x y :
  x == y -> formatPoDate (JSDate.TimeClip x) = formatPoDate (JSDate.TimeClip y).
Proof.
  intros Hxy. pose proof (TimeClip_Qeq x y Hxy) as Hc.
  destruct (JSDate.TimeClip x), (JSDate.TimeClip y); try contradiction.
  - apply formatPoDate_Qeq, Hc.
  - reflexivity.
Qed.

End DateValues.

Section PeriodKeys.

Context `{Host}.

Lemma digit_facts c :
  JS.isDigit c = true ->
  JS.isWhiteSpace c = false /\ Ascii.eqb c "." = false /\
  (0 <= Z.of_nat (nat_of_ascii c - 48) <= 9)%Z.
Proof.
  destruct c as [[] [] [] [] [] [] [] []]; vm_compute; intros Hd;
    try discriminate; repeat split; intros; discriminate.
Qed.

Lemma trimStart_digits s : JS.allDigits s = true -> JS.trimStart s = s.
Proof.
  destruct s as [|c s]; simpl; [reflexivity|].
  intros [Hc _]%andb_prop. apply digit_facts in Hc as [-> _]. reflexivity.
Qed.

Lemma trimEnd_digits s : JS.allDigits s = true -> JS.trimEnd s = s.
Proof.
  induction s as [|c s IH]; simpl; [reflexivity|].
  intros [Hc Hs]%andb_prop. rewrite (IH Hs).
  apply digit_facts in Hc as [-> _]. destruct s; reflexivity.
Qed.

Lemma Number_digits s :
  JS.allDigits s = true -> s <> ""%string ->
  Number_ s = Some (inject_Z (JS.digitsValue 0 s)).
Proof.
  intros Hd Hne. unfold Number_, JS.trim.
  rewrite trimStart_digits, trimEnd_digits by assumption.
  apply String.eqb_neq in Hne. rewrite Hne, Hd. reflexivity.
Qed.

(** The shape of a string that the period pattern accepts. *)
Lemma isPeriod_inv s :
  JS.isPeriod s = true ->
  exists w y,
    s = (w ++ "." ++ y)%string /\
    JS.allDigits w = true /\ String.length w = 2%nat /\
    JS.allDigits y = true /\ String.length y = 4%nat /\
    JS.split "." s = [w; y] /\
    periodWeek s = JS.digitsValue 0 w /\ periodYear s = JS.digitsValue 0 y.
Proof.
  destruct s as [|w1 [|w2 [|d [|y1 [|y2 [|y3 [|y4 [|? ?]]]]]]]]; try discriminate.
  unfold JS.isPeriod.
  intros [[[[[[H1 H2]%andb_prop Hd]%andb_prop H3]%andb_prop H4]%andb_prop H5]%andb_prop
            H6]%andb_prop.
  apply Ascii.eqb_eq in Hd. subst d.
  exists (String w1 (String w2 "")), (String y1 (String y2 (String y3 (String y4 "")))).
  pose proof (digit_facts _ H1) as (_ & E1 & _).
  pose proof (digit_facts _ H2) as (_ & E2 & _).
  pose proof (digit_facts _ H3) as (_ & E3 & _).
  pose proof (digit_facts _ H4) as (_ & E4 & _).
  pose proof (digit_facts _ H5) as (_ & E5 & _).
  pose proof (digit_facts _ H6) as (_ & E6 & _).
  repeat split; try reflexivity.
  - simpl. rewrite H1, H2. reflexivity.
  - simpl. rewrite H3, H4, H5, H6. reflexivity.
  - simpl. rewrite E1, E2, E3, E4, E5, E6. reflexivity.
Qed.

Lemma digitsValue_two w :
  JS.allDigits w = true -> String.length w = 2%nat ->
  (0 <= JS.digitsValue 0 w <= 99)%Z.
Proof.
  destruct w as [|a [|b [|? ?]]]; try discriminate. simpl.
  intros [Ha [Hb _]%andb_prop]%andb_prop _.
  apply digit_facts in Ha as (_ & _ & Ha). apply digit_facts in Hb as (_ & _ & Hb). lia.
Qed.

Lemma digitsValue_four y :
  JS.allDigits y = true -> String.length y = 4%nat ->
  (0 <= JS.digitsValue 0 y <= 9999)%Z.
Proof.
  destruct y as [|a [|b [|c [|d [|? ?]]]]]; try discriminate. simpl.
  intros [Ha [Hb [Hc [Hd _]%andb_prop]%andb_prop]%andb_prop]%andb_prop _.
  apply digit_facts in Ha as (_ & _ & Ha). apply digit_facts in Hb as (_ & _ & Hb).
  apply digit_facts in Hc as (_ & _ & Hc). apply digit_facts in Hd as (_ & _ & Hd). lia.
Qed.

Lemma nonempty_of_length (s : string) n : String.length s = S n -> s <> ""%string.
Proof. destruct s; [discriminate | discriminate]. Qed.

(** The fallback date of a period key of a year from 100 on: January 1 of
    the year plus seven days per week. *)
Lemma fallbackDate_period weekStr :
  JS.isPeriod weekStr = true ->
  (100 <= periodYear weekStr)%Z ->
  exists x,
    fallbackDate weekStr = Some x /\
    (x == inject_Z (JSDate.MakeDay (periodYear weekStr) 0 1 + 7 * periodWeek weekStr))%Q.
Proof.
  intros Hp Hy.
  destruct (isPeriod_inv _ Hp) as (w & y & _ & Hw & Lw & Hyd & Ly & Hs & -> & Ey).
  rewrite Ey in *.
  pose proof (digitsValue_two _ Hw Lw) as Bw.
  pose proof (digitsValue_four _ Hyd Ly) as By.
  unfold fallbackDate. rewrite Hs. simpl nth_error. cbv beta iota.
  rewrite (Number_digits w Hw (nonempty_of_length _ _ Lw)).
  rewrite (Number_digits y Hyd (nonempty_of_length _ _ Ly)).
  set (W := JS.digitsValue 0 w) in *. set (Y := JS.digitsValue 0 y) in *.
  unfold JSDate.ofYMD. rewrite (Qtrunc_inject (inject_Z Y) Y) by reflexivity.
  destruct (Z.leb_spec 0 Y) as [_|]; [|lia].
  destruct (Z.leb_spec Y 99) as [|_]; [lia|]. simpl andb. cbv iota.
  rewrite MakeDay_january_first in *.
  pose proof (DayFromYear_bounds Y ltac:(lia)) as Bd.
  rewrite (TimeClip_inject _ (JSDate.DayFromYear Y)) by (try reflexivity; lia).
  unfold JSDate.getDateNumber, numMul, numAdd, JSDate.getDate.
  rewrite Qfloor_Z.
  destruct (setDate_shift (inject_Z (JSDate.DayFromYear Y)) (JSDate.DayFromYear Y)
              (inject_Z (JSDate.DateFromDay (JSDate.DayFromYear Y)) + inject_Z W * 7)%Q
              (7 * W)) as (x' & Hset & Ex').
  - reflexivity.
  - rewrite !inject_Z_plus, !inject_Z_mult. ring.
  - exists x'. rewrite Hset. split; [|exact Ex'].
    apply (TimeClip_inject _ (JSDate.DayFromYear Y + 7 * W)); [lia | exact Ex'].
Qed.

(** C6 (amended): for a period key [WW.YYYY] of a year from 0100 on, a
    positive required quantity, no usable week-plan row and a lead time
    (zero when it is not finite) that is a whole number of days, the
    purchase-order date is January 1 of the year plus 7 days per week minus
    the lead time, formatted as DD-Mon-YY (a date out of the range of [Date]
    being invalid). *)
Theorem po_date_fallback (weekStr : string) (leadTimeDays : number) (requiredQty : Q)
    (weekPlan : option ParsedExcel) (leadDays : Z) :
  JS.isPeriod weekStr = true ->
  (100 <= periodYear weekStr)%Z ->
  (0 < requiredQty)%Q ->
  weekPlanDate weekStr weekPlan = None ->
  (finiteOrZero leadTimeDays == inject_Z leadDays)%Q ->
  calculatePoDate weekStr leadTimeDays (Fin requiredQty) weekPlan =
  formatPoDate
    (JSDate.TimeClip
       (inject_Z (JSDate.MakeDay (periodYear weekStr) 0 1 + 7 * periodWeek weekStr
                  - leadDays))).
Proof.
  intros Hp Hy Hq Hwp Hl.
  destruct (fallbackDate_period weekStr Hp Hy) as (x & Hx & Ex).
  unfold calculatePoDate.
  assert (Hz : leZero (Fin requiredQty) = false) by (apply Qle_bool_false; exact Hq).
  rewrite Hz, Hwp, Hx.
  set (d := (JSDate.MakeDay (periodYear weekStr) 0 1 + 7 * periodWeek weekStr)%Z) in *.
  destruct (setDate_shift x d
              (inject_Z (JSDate.getDate x) - finiteOrZero leadTimeDays)%Q (- leadDays) Ex)
    as (x' & Hset & Ex').
  - unfold JSDate.getDate. rewrite (Qfloor_comp _ _ Ex), Qfloor_Z, Hl.
    rewrite inject_Z_plus, inject_Z_opp. ring.
  - unfold JSDate.getDateNumber, numSub. rewrite Hset.
    apply formatPoDate_TimeClip_Qeq. rewrite Ex'. reflexivity.
Qed.

End PeriodKeys.

Section PoDateExamples.

Local Open Scope Q_scope.

Example january_first : formatPoDate (Some (inject_Z (JSDate.MakeDay 2024 0 1))) = "01-Jan-24"%string.
Proof. vm_compute. reflexivity. Qed.

(** Known day numbers and dates: 1 January 2024 is day 19723 of the epoch,
    the spreadsheet epoch 30 December 1899 is day -25569, 2024 has a 29
    February and 2023 has none. *)
Example calendar_examples :
  JSDate.MakeDay 2024 0 1 = 19723%Z /\
  JSDate.MakeDay 1899 11 30 = (-25569)%Z /\
  formatPoDate (Some (inject_Z (JSDate.MakeDay 2024 1 29))) = "29-Feb-24"%string /\
  formatPoDate (Some (inject_Z (JSDate.MakeDay 2023 1 29))) = "01-Mar-23"%string /\
  formatPoDate (Some (inject_Z (JSDate.MakeDay 2023 11 31))) = "31-Dec-23"%string /\
  formatPoDate (Some (inject_Z (JSDate.MakeDay 2025 0 0))) = "31-Dec-24"%string /\
  formatPoDate (Some (45000 - 25569)) = "15-Mar-23"%string.
Proof. vm_compute. repeat split. Qed.

(** With a week plan: the serial date 45327 of week 05.2024 is 5 February
    2024; a row with a blank start date falls back to the rule; no order, no
    date. *)
Example week_plan_examples :
  @calculatePoDate plainHost "05.2024" (Fin 7) (Fin 1) weekPlanDoc = "29-Jan-24"%string /\
  @calculatePoDate plainHost "06.2024" (Fin 7) (Fin 1) weekPlanDoc = "05-Feb-24"%string /\
  @calculatePoDate plainHost "05.2024" (Fin 7) (Fin 0) weekPlanDoc = "-"%string.
Proof. vm_compute. repeat split. Qed.

(** The round trip of section 8. *)
Lemma po_date_fallback_witness :
  @calculatePoDate plainHost "05.2024" (Fin 0) (Fin 1) None = "05-Feb-24"%string.
Proof.
  change "05-Feb-24"%string
    with (formatPoDate
            (JSDate.TimeClip
               (inject_Z (JSDate.MakeDay (periodYear "05.2024") 0 1
                          + 7 * periodWeek "05.2024" - 0)))).
  apply (@po_date_fallback plainHost "05.2024" (Fin 0) 1 None 0).
  - reflexivity.
  - vm_compute. discriminate.
  - apply Q_lt_dec_true. vm_compute. reflexivity.
  - reflexivity.
  - apply Qeq_bool_iff. vm_compute. reflexivity.
Defined.

(** C6 as stated fails.  For the period 05.2024 the required-by date is
    5 February 2024; with a lead time of 5.5 days the instant 5.5 days before
    it falls on 30 January, but [setDate] truncates 5 - 5.5 to 0 and the
    result is 31 January; with 2.5 days it truncates 5 - 2.5 to 2 and goes
    back three days.  A year below 100 is read as 1900 plus the year, and a
    lead time that takes the date out of the range of [Date] gives an
    invalid date. *)
Lemma po_date_fallback_counterexample :
  @calculatePoDate plainHost "05.2024" (Fin (11 # 2)) (Fin 1) None = "31-Jan-24"%string /\
  poDateAsWorded "05.2024" (11 # 2) = "30-Jan-24"%string /\
  @calculatePoDate plainHost "05.2024" (Fin (11 # 2)) (Fin 1) None
    <> poDateAsWorded "05.2024" (11 # 2) /\
  @calculatePoDate plainHost "05.2024" (Fin (5 # 2)) (Fin 1) None = "02-Feb-24"%string /\
  @calculatePoDate plainHost "10.0000" (Fin 0) (Fin 1) None
    <> poDateAsWorded "10.0000" 0 /\
  @calculatePoDate plainHost "05.2024" (Fin 1000000000) (Fin 1) None
    = "NaN-undefined-aN"%string.
Proof.
  repeat split; try (vm_compute; reflexivity); vm_compute; discriminate.
Qed.

End PoDateExamples.

(** ** Demand explosion *)

Section Sums.

Local Open Scope Q_scope.

Lemma Qsum_app l l' : Qsum (l ++ l') == Qsum l + Qsum l'.
Proof.
  induction l as [|x l IH]; simpl; [ring | rewrite IH; ring].
Qed.

Lemma Qsum_map_ext {A} (f g : A -> Q) l :
  (forall x, In x l -> f x == g x) -> Qsum (List.map f l) == Qsum (List.map g l).
Proof.
  induction l as [|x l IH]; intros Hfg; simpl; [reflexivity|].
  rewrite (Hfg x) by (left; reflexivity).
  rewrite IH; [reflexivity|]. intros y Hy. apply Hfg. right. exact Hy.
Qed.

Lemma Qsum_map_scale {A} (k : Q) (f : A -> Q) l :
  Qsum (List.map (fun x => k * f x) l) == k * Qsum (List.map f l).
Proof.
  induction l as [|x l IH]; simpl; [ring | rewrite IH; ring].
Qed.

Lemma Qsum_map_zero {A} (l : list A) : Qsum (List.map (fun _ => 0) l) == 0.
Proof.
  induction l as [|x l IH]; simpl; [reflexivity | rewrite IH; ring].
Qed.

End Sums.

Section Explosion.

Context `{Host}.

Local Open Scope Q_scope.

Lemma bomEdges_parent_nonblank bomHeaders bomRows e :
  In e (bomEdges bomHeaders bomRows) -> parentMaterial e <> ""%string.
Proof.
  unfold bomEdges. rewrite in_flat_map. intros (row & _ & Hin).
  destruct (String.eqb_spec
              (trimmed (cellAt row (JS.findIndex (lowerIncludes "derived material") bomHeaders)))
              "") as [|Hne]; simpl in Hin; [contradiction|].
  match type of Hin with
  | In _ (if ?b then _ else _) => destruct b; simpl in Hin; [contradiction|]
  end.
  destruct Hin as [<- | []]. exact Hne.
Qed.

(** [bomLookup] groups the edges by parent, in row order. *)
Lemma bomLookup_fold bomHeaders rows acc parent :
  lookupItems
    (fold_left
       (bomLookupStep (JS.findIndex (lowerIncludes "derived material") bomHeaders)
          (JS.findIndex (lowerIncludes "child part") bomHeaders)
          (JS.findIndex bomQtyHeader bomHeaders))
       rows acc) parent
  = lookupItems acc parent ++ itemsOf parent (bomEdges bomHeaders rows).
Proof.
  revert acc. induction rows as [|row rows IH]; intros acc; simpl.
  - unfold itemsOf, bomEdges. simpl. rewrite app_nil_r. reflexivity.
  - rewrite IH. clear IH. unfold bomLookupStep, bomEdges. simpl flat_map.
    fold (bomEdges bomHeaders rows).
    match goal with |- context [if ?b then acc else _] => destruct b end.
    + reflexivity.
    + unfold itemsOf. simpl List.filter.
      destruct (String.eqb_spec
        (trimmed (cellAt row (JS.findIndex (lowerIncludes "derived material") bomHeaders)))
        parent) as [-> | Hne].
      * unfold lookupItems at 1. rewrite lookup_insert_eq. simpl.
        rewrite <- app_assoc. reflexivity.
      * unfold lookupItems at 1. rewrite lookup_insert_ne by exact Hne. reflexivity.
Qed.

Lemma lookupItems_build bomHeaders bomRows parent :
  lookupItems (buildBomLookup bomHeaders bomRows) parent
  = itemsOf parent (bomEdges bomHeaders bomRows).
Proof.
  unfold buildBomLookup. rewrite bomLookup_fold. unfold lookupItems.
  rewrite lookup_empty. reflexivity.
Qed.

Lemma recordedDemand_addDemand wk q dm item child period :
  0 < q ->
  recordedDemand (addDemand wk q dm item) child period ==
  recordedDemand dm child period + itemDemand child period wk q item.
Proof.
  intros Hq. apply Qltb_true in Hq.
  unfold recordedDemand, addDemand, itemDemand. rewrite Hq, andb_true_r.
  destruct (String.eqb_spec (childPart item) child) as [<- | Hc]; simpl.
  - rewrite lookup_insert_eq.
    destruct (String.eqb_spec (week wk) period) as [<- | Hw].
    + rewrite get_set_eq. destruct (dm !! childPart item) as [m|]; simpl; [|reflexivity].
      destruct (OMap.get m (week wk)); reflexivity.
    + rewrite get_set_ne by exact Hw.
      destruct (dm !! childPart item) as [m|]; simpl; [|ring].
      destruct (OMap.get m period); ring.
  - rewrite lookup_insert_ne by exact Hc.
    destruct (dm !! child) as [m|]; [|ring].
    destruct (OMap.get m period); ring.
Qed.

Lemma recordedDemand_items wk q items dm child period :
  0 < q ->
  recordedDemand (fold_left (addDemand wk q) items dm) child period ==
  recordedDemand dm child period + Qsum (List.map (itemDemand child period wk q) items).
Proof.
  intros Hq. revert dm. induction items as [|item items IH]; intros dm; simpl.
  - ring.
  - rewrite IH, recordedDemand_addDemand by exact Hq. ring.
Qed.

Lemma itemDemand_nonpos child period wk q item :
  q <= 0 -> itemDemand child period wk q item = 0.
Proof.
  intros Hq. apply Qltb_false in Hq. unfold itemDemand. rewrite Hq, andb_false_r.
  reflexivity.
Qed.

Lemma recordedDemand_weekCol row items dm wk child period :
  recordedDemand (weekColStep row items dm wk) child period ==
  recordedDemand dm child period +
  Qsum (List.map (itemDemand child period wk (toNumber (cellAt row (index wk)))) items).
Proof.
  unfold weekColStep.
  destruct (Qle_bool (toNumber (cellAt row (index wk))) 0) eqn:E.
  - apply Qle_bool_iff in E.
    rewrite (Qsum_map_ext _ (fun _ => 0)), Qsum_map_zero; [ring|].
    intros item _. rewrite itemDemand_nonpos by exact E. reflexivity.
  - apply Qle_bool_false in E. apply recordedDemand_items, E.
Qed.

Lemma recordedDemand_weekCols row items weekCols dm child period :
  recordedDemand (fold_left (weekColStep row items) weekCols dm) child period ==
  recordedDemand dm child period +
  Qsum (List.map
          (fun wk =>
             Qsum (List.map (itemDemand child period wk (toNumber (cellAt row (index wk))))
                     items))
          weekCols).
Proof.
  revert dm. induction weekCols as [|wk weekCols IH]; intros dm; simpl.
  - ring.
  - rewrite IH, recordedDemand_weekCol. ring.
Qed.

(** The items of a parent add what the edges of that parent contribute. *)
Lemma itemDemand_contribution child period parent wk q edges :
  Qsum (List.map (itemDemand child period wk q) (itemsOf parent edges)) ==
  Qsum (List.map (contribution child period parent wk q) edges).
Proof.
  unfold itemsOf. induction edges as [|e edges IH]; simpl; [reflexivity|].
  unfold contribution at 1.
  destruct (String.eqb (parentMaterial e) parent); simpl.
  - rewrite IH. unfold itemDemand at 1. simpl. reflexivity.
  - rewrite IH. ring.
Qed.

Lemma contribution_blank_parent child period wk q bomHeaders bomRows :
  Qsum (List.map (contribution child period "" wk q) (bomEdges bomHeaders bomRows)) == 0.
Proof.
  rewrite (Qsum_map_ext _ (fun _ => 0)); [apply Qsum_map_zero|].
  intros e He. apply bomEdges_parent_nonblank in He.
  unfold contribution. apply String.eqb_neq in He. rewrite He. reflexivity.
Qed.

Lemma recordedDemand_rows idpIdx weekCols bomHeaders bomRows rows dm child period :
  recordedDemand
    (fold_left (idpRowStep idpIdx weekCols (buildBomLookup bomHeaders bomRows)) rows dm)
    child period ==
  recordedDemand dm child period +
  Qsum (List.map
          (fun row =>
             Qsum (List.map
                     (fun wk =>
                        Qsum (List.map
                                (contribution child period (trimmed (cellAt row idpIdx)) wk
                                   (toNumber (cellAt row (index wk))))
                                (bomEdges bomHeaders bomRows)))
                     weekCols))
          rows).
Proof.
  revert dm. induction rows as [|row rows IH]; intros dm; simpl.
  - ring.
  - rewrite IH. clear IH. unfold idpRowStep.
    destruct (String.eqb_spec (trimmed (cellAt row idpIdx)) "") as [-> | Hne].
    + rewrite (Qsum_map_ext _ (fun _ => 0)) with (l := weekCols), Qsum_map_zero; [ring|].
      intros wk _. apply contribution_blank_parent.
    + rewrite recordedDemand_weekCols.
      fold (lookupItems (buildBomLookup bomHeaders bomRows) (trimmed (cellAt row idpIdx))).
      rewrite lookupItems_build.
      rewrite (Qsum_map_ext _
        (fun wk =>
           Qsum (List.map
                   (contribution child period (trimmed (cellAt row idpIdx)) wk
                      (toNumber (cellAt row (index wk))))
                   (bomEdges bomHeaders bomRows)))) with (l := weekCols); [ring|].
      intros wk _. apply itemDemand_contribution.
Qed.

Lemma Qltb_scale k q q' : 0 < k -> q' == k * q -> Qltb 0 q' = Qltb 0 q.
Proof.
  intros Hk Hq. destruct (Qltb 0 q) eqn:E.
  - apply Qltb_true in E. apply Qltb_true. rewrite Hq.
    apply Qmult_lt_0_compat; assumption.
  - apply Qltb_false in E. apply Qltb_false. rewrite Hq.
    assert (Hle : k * q <= k * 0) by (apply Qmult_le_l; assumption).
    rewrite Qmult_0_r in Hle. exact Hle.
Qed.

Lemma contribution_scale k child period parent wk q q' e :
  0 < k -> q' == k * q ->
  contribution child period parent wk q' e == k * contribution child period parent wk q e.
Proof.
  intros Hk Hq. unfold contribution. rewrite (Qltb_scale k q q' Hk Hq).
  match goal with |- context [if ?b then _ else _] => destruct b end.
  - rewrite Hq. ring.
  - ring.
Qed.

Lemma Qsum_Forall2_scale {A} (k : Q) (f : A -> Q) l l' :
  Forall2 (fun a b => f b == k * f a) l l' ->
  Qsum (List.map f l') == k * Qsum (List.map f l).
Proof.
  induction 1 as [|a b l l' Hab _ IH]; simpl; [ring | rewrite Hab, IH; ring].
Qed.

Lemma recordedDemand_grossDemand idpHeaders idpRows bomHeaders bomRows selectedWeeks
    child period :
  recordedDemand
    (buildProductionDemandMap idpHeaders idpRows bomHeaders bomRows selectedWeeks)
    child period ==
  grossDemand idpHeaders idpRows bomHeaders bomRows selectedWeeks child period.
Proof.
  unfold buildProductionDemandMap, grossDemand.
  rewrite recordedDemand_rows. unfold recordedDemand at 1.
  rewrite lookup_empty. ring.
Qed.

(** Any plan whose selected quantities are [k] times those of another, row by
    row and with the same parents, has [k] times its demand. *)
Lemma grossDemand_scaledPlan k idpHeaders idpRows idpRows' bomHeaders bomRows selectedWeeks
    child period :
  0 < k ->
  scaledPlan k idpHeaders selectedWeeks idpRows idpRows' ->
  grossDemand idpHeaders idpRows' bomHeaders bomRows selectedWeeks child period ==
  k * grossDemand idpHeaders idpRows bomHeaders bomRows selectedWeeks child period.
Proof.
  intros Hk Hscaled. unfold grossDemand.
  apply (Qsum_Forall2_scale k
    (fun row =>
       Qsum (List.map
               (fun wk =>
                  Qsum (List.map
                          (contribution child period
                             (trimmed (cellAt row
                                (JS.findIndex (lowerIncludes "derived material") idpHeaders)))
                             wk (toNumber (cellAt row (index wk))))
                          (bomEdges bomHeaders bomRows)))
               (weekColsFrom selectedWeeks 0 idpHeaders)))).
  unfold scaledPlan in Hscaled.
  eapply Forall2_impl; [exact Hscaled|].
  intros row row' [Hparent Hqty]. simpl. rewrite Hparent.
  rewrite <- Qsum_map_scale. apply Qsum_map_ext. intros wk Hwk.
  rewrite <- Qsum_map_scale. apply Qsum_map_ext. intros e _.
  apply contribution_scale; [exact Hk | apply Hqty, Hwk].
Qed.

(** *** Scaling a plan leaves the parent column alone *)

Lemma lower_d_char c :
  JS.toLowerChar c = "d"%char ->
  JS.isWhiteSpace c = false /\ JS.isDigit c = false /\ Ascii.eqb c "." = false.
Proof.
  destruct c as [[] [] [] [] [] [] [] []]; vm_compute; intros Hd;
    try discriminate; repeat split.
Qed.

Lemma includes_head s a q :
  JS.includes s (String a q) = true -> In a (list_ascii_of_string s).
Proof.
  induction s as [|b s IH]; simpl.
  - discriminate.
  - destruct (ascii_dec a b) as [-> | Hne].
    + intros _. left. reflexivity.
    + intros Hin. right. exact (IH Hin).
Qed.

Lemma toLowerCase_chars s :
  list_ascii_of_string (JS.toLowerCase s) = List.map JS.toLowerChar (list_ascii_of_string s).
Proof.
  induction s as [|b s IH]; simpl; [reflexivity | rewrite IH; reflexivity].
Qed.

Lemma trimStart_chars s c :
  In c (list_ascii_of_string s) ->
  JS.isWhiteSpace c = true \/ In c (list_ascii_of_string (JS.trimStart s)).
Proof.
  induction s as [|b s IH]; simpl; [intros []|].
  destruct (JS.isWhiteSpace b) eqn:Eb.
  - intros [<- | Hin]; [left; exact Eb | exact (IH Hin)].
  - intros Hin. right. exact Hin.
Qed.

Lemma trimEnd_chars s c :
  In c (list_ascii_of_string s) ->
  JS.isWhiteSpace c = true \/ In c (list_ascii_of_string (JS.trimEnd s)).
Proof.
  induction s as [|b s IH]; simpl; [intros []|].
  intros [<- | Hin].
  - destruct (JS.trimEnd s); [|right; left; reflexivity].
    destruct (JS.isWhiteSpace b) eqn:Eb; [left; reflexivity | right; left; reflexivity].
  - destruct (IH Hin) as [Hw | Hc]; [left; exact Hw|].
    destruct (JS.trimEnd s); [destruct Hc | right; right; exact Hc].
Qed.

Lemma isPeriod_chars t c :
  JS.isPeriod t = true -> In c (list_ascii_of_string t) ->
  JS.isDigit c = true \/ Ascii.eqb c "." = true.
Proof.
  destruct t as [|w1 [|w2 [|d [|y1 [|y2 [|y3 [|y4 [|? ?]]]]]]]]; try discriminate.
  unfold JS.isPeriod.
  intros [[[[[[H1 H2]%andb_prop Hd]%andb_prop H3]%andb_prop H4]%andb_prop H5]%andb_prop
            H6]%andb_prop.
  simpl. intros [<- | [<- | [<- | [<- | [<- | [<- | [<- | []]]]]]]]; auto.
Qed.

(** A header that names the parent column is no period key. *)
Lemma parent_header_not_period h :
  lowerIncludes "derived material" h = true -> JS.isPeriod (trimmed h) = false.
Proof.
  intros Hinc. destruct (JS.isPeriod (trimmed h)) eqn:Ep; [exfalso | reflexivity].
  unfold lowerIncludes in Hinc. apply includes_head in Hinc.
  rewrite toLowerCase_chars in Hinc. apply in_map_iff in Hinc as (c & Hc & Hin).
  destruct (lower_d_char c Hc) as (Hw & Hd & Hdot).
  apply trimStart_chars in Hin as [Hin | Hin]; [congruence|].
  apply trimEnd_chars in Hin as [Hin | Hin]; [congruence|].
  destruct (isPeriod_chars _ c Ep Hin); congruence.
Qed.

Lemma cellAt_nth (row : list cell) (n : nat) :
  cellAt row (Z.of_nat n) = match nth_error row n with Some c => c | None => CNil end.
Proof.
  unfold cellAt, JS.at_. destruct (Z.ltb_spec (Z.of_nat n) 0) as [Hneg|_]; [lia|].
  rewrite Nat2Z.id. reflexivity.
Qed.

Lemma scaleRow_nth k idpHeaders row n :
  nth_error (scaleRow k idpHeaders row) n =
  match nth_error row n with
  | None => None
  | Some c =>
      match nth_error idpHeaders n with
      | Some h => if JS.isPeriod (trimmed h) then Some (CNum (k * toNumber c)) else Some c
      | None => Some c
      end
  end.
Proof.
  revert row n. induction idpHeaders as [|h hs IH]; intros row n.
  - replace (scaleRow k [] row) with row by (destruct row; reflexivity).
    destruct (nth_error row n); [destruct n; reflexivity | reflexivity].
  - destruct row as [|c cs]; [destruct n; reflexivity|].
    destruct n as [|n]; simpl.
    + destruct (JS.isPeriod (trimmed h)); reflexivity.
    + apply IH.
Qed.

Lemma weekColsFrom_index selectedWeeks idpHeaders i wk :
  In wk (weekColsFrom selectedWeeks i idpHeaders) ->
  exists (n : nat) (h : cell),
    index wk = (i + Z.of_nat n)%Z /\ nth_error idpHeaders n = Some h /\
    JS.isPeriod (trimmed h) = true.
Proof.
  revert i. induction idpHeaders as [|h hs IH]; intros i; simpl; [intros []|].
  destruct (negb (String.eqb (trimmed h) "") && JS.isPeriod (trimmed h) &&
            existsb (String.eqb (trimmed h)) selectedWeeks) eqn:E.
  - intros [<- | Hin].
    + exists O, h. simpl. apply andb_prop in E as [[_ Hp]%andb_prop _].
      repeat split; [lia | exact Hp].
    + destruct (IH _ Hin) as (n & h' & Hi & Hn & Hp).
      exists (S n), h'. repeat split; [lia | exact Hn | exact Hp].
  - intros Hin. destruct (IH _ Hin) as (n & h' & Hi & Hn & Hp).
    exists (S n), h'. repeat split; [lia | exact Hn | exact Hp].
Qed.

Lemma findIndexFrom_spec {A} (p : A -> bool) (i : Z) (xs : list A) :
  JS.findIndexFrom p i xs = (-1)%Z \/
  exists (n : nat) (x : A),
    JS.findIndexFrom p i xs = (i + Z.of_nat n)%Z /\ nth_error xs n = Some x /\ p x = true.
Proof.
  revert i. induction xs as [|x xs IH]; intros i; simpl; [left; reflexivity|].
  destruct (p x) eqn:E.
  - right. exists O, x. repeat split; [lia | exact E].
  - destruct (IH (i + 1)%Z) as [Hm | (n & y & Hi & Hn & Hp)]; [left; exact Hm|].
    right. exists (S n), y. repeat split; [lia | exact Hn | exact Hp].
Qed.

Lemma scaleQuantities_scaledPlan k idpHeaders selectedWeeks idpRows :
  scaledPlan k idpHeaders selectedWeeks idpRows (scaleQuantities k idpHeaders idpRows).
Proof.
  unfold scaledPlan, scaleQuantities.
  induction idpRows as [|row rows IH]; simpl; constructor; [|exact IH].
  split.
  - unfold JS.findIndex.
    destruct (findIndexFrom_spec (lowerIncludes "derived material") 0 idpHeaders)
      as [-> | (n & h & -> & Hn & Hp)]; [reflexivity|].
    rewrite Z.add_0_l, !cellAt_nth, scaleRow_nth, Hn.
    rewrite (parent_header_not_period h Hp).
    destruct (nth_error row n); reflexivity.
  - intros wk Hwk.
    destruct (weekColsFrom_index _ _ _ _ Hwk) as (n & h & -> & Hn & Hp).
    rewrite Z.add_0_l, !cellAt_nth, scaleRow_nth, Hn, Hp.
    destruct (nth_error row n); simpl; [reflexivity|].
    unfold toNumber, Number_. simpl. ring.
Qed.


End Explosion.

Section ExplosionExamples.

Local Open Scope Q_scope.

Example demand_example :
  recordedDemand
    (@buildProductionDemandMap plainHost planHeaderRow planRows bomHeaderRow bomDataRows
       ["05.2024"; "06.2024"]%string)
    "C1" "05.2024" = 32 /\
  @buildProductionDemandMap plainHost planHeaderRow planRows bomHeaderRow bomDataRows
    ["05.2024"; "06.2024"]%string !! "C3"%string = None.
Proof. vm_compute. split; reflexivity. Qed.

Example scaleQuantities_example :
  @scaleQuantities plainHost 3 planHeaderRow planRows =
  [ [CStr "P1"; CNum (3 * 10); CNum (3 * 0); CNum (3 * 7)];
    [CStr "P2"; CNum (3 * 4); CNum (3 * 5); CNum (3 * 7)] ].
Proof. reflexivity. Qed.


End ExplosionExamples.

(** ** The period window of the output *)

Section Window.

Context `{Host}.

Local Open Scope Q_scope.

Lemma weekColsFrom_In selectedWeeks idpHeaders i wk :
  In wk (weekColsFrom selectedWeeks i idpHeaders) -> In (week wk) selectedWeeks.
Proof.
  revert i. induction idpHeaders as [|h hs IH]; intros i; simpl; [intros []|].
  destruct (negb (String.eqb (trimmed h) "") && JS.isPeriod (trimmed h) &&
            existsb (String.eqb (trimmed h)) selectedWeeks) eqn:E.
  - intros [<- | Hin]; [|exact (IH _ Hin)]. simpl.
    apply andb_prop in E as [_ E]. apply existsb_exists in E as (x & Hx & Ex).
    apply String.eqb_eq in Ex. subst x. exact Hx.
  - apply IH.
Qed.

Lemma wellKeyed_addDemand allowed wk q dm item :
  In (week wk) allowed -> wellKeyed allowed dm -> wellKeyed allowed (addDemand wk q dm item).
Proof.
  intros Hw Hdm child m. unfold addDemand.
  destruct (String.eqb_spec (childPart item) child) as [<- | Hne].
  - rewrite lookup_insert_eq. intros [= <-].
    destruct (dm !! childPart item) as [m0|] eqn:E.
    + destruct (Hdm _ _ E) as [Hnd Hin]. split; [apply NoDup_keys_set, Hnd|].
      intros w [-> | Hk]%keys_set; [exact Hw | exact (Hin w Hk)].
    + split; [apply NoDup_keys_set, List.NoDup_nil|].
      intros w [-> | []]%keys_set. exact Hw.
  - rewrite lookup_insert_ne by exact Hne. apply Hdm.
Qed.

Lemma wellKeyed_weekCol allowed row items dm wk :
  In (week wk) allowed -> wellKeyed allowed dm ->
  wellKeyed allowed (weekColStep row items dm wk).
Proof.
  intros Hw Hdm. unfold weekColStep.
  destruct (Qle_bool (toNumber (cellAt row (index wk))) 0); [exact Hdm|].
  revert dm Hdm. induction items as [|item items IH]; intros dm Hdm; simpl; [exact Hdm|].
  apply IH, wellKeyed_addDemand; assumption.
Qed.

Lemma wellKeyed_row allowed idpIdx weekCols bomLookup dm row :
  (forall wk, In wk weekCols -> In (week wk) allowed) ->
  wellKeyed allowed dm ->
  wellKeyed allowed (idpRowStep idpIdx weekCols bomLookup dm row).
Proof.
  intros Hcols Hdm. unfold idpRowStep.
  destruct (String.eqb (trimmed (cellAt row idpIdx)) ""); [exact Hdm|].
  generalize (match bomLookup !! trimmed (cellAt row idpIdx) with
              | Some a => a | None => [] end) as items.
  intros items. revert dm Hdm.
  induction weekCols as [|wk weekCols IH]; intros dm Hdm; simpl; [exact Hdm|].
  apply IH.
  - intros wk' Hin. apply Hcols. right. exact Hin.
  - apply wellKeyed_weekCol; [apply Hcols; left; reflexivity | exact Hdm].
Qed.

(** Only selected periods enter the demand map, each once per child. *)
Lemma wellKeyed_build idpHeaders idpRows bomHeaders bomRows selectedWeeks :
  wellKeyed selectedWeeks
    (buildProductionDemandMap idpHeaders idpRows bomHeaders bomRows selectedWeeks).
Proof.
  unfold buildProductionDemandMap.
  assert (Hinit : wellKeyed selectedWeeks (∅ : gmap string (OMap.t Q))).
  { intros child m Hm. rewrite lookup_empty in Hm. discriminate. }
  revert Hinit. generalize (∅ : gmap string (OMap.t Q)) as dm.
  induction idpRows as [|row rows IH]; intros dm Hdm; simpl; [exact Hdm|].
  apply IH, wellKeyed_row; [|exact Hdm].
  intros wk Hin. exact (weekColsFrom_In _ _ _ _ Hin).
Qed.

Variable mmInfo : MaterialInfo.
Variable sdInfo : SupplierInfo.
Variable selectedWeeks : list string.
Variable weekPlan : option ParsedExcel.

Local Abbreviation step := (weekStep mmInfo sdInfo selectedWeeks weekPlan).

Lemma weeklyPoDate_step_keys st e w :
  In w (OMap.keys (weeklyPoDate (step st e))) <->
  w = fst e \/ In w (OMap.keys (weeklyPoDate st)).
Proof.
  unfold weekStep. destruct (netAndSize mmInfo (remainingExcess st) (snd e)).
  simpl. apply keys_set.
Qed.

Lemma weekLoop_keys l st w :
  (In w (OMap.keys (weeklyMrpQty (fold_left step l st))) ->
   In w (OMap.keys (weeklyMrpQty st)) \/ In w (OMap.keys l)) /\
  (In w (OMap.keys (weeklyPoDate (fold_left step l st))) ->
   In w (OMap.keys (weeklyPoDate st)) \/ In w (OMap.keys l)).
Proof.
  revert st. induction l as [|e l IH]; intros st; simpl; [tauto|].
  destruct (IH (step st e)) as [IH1 IH2]. split; intros Hin.
  - apply IH1 in Hin. rewrite weeklyMrpQty_step, keys_set in Hin. intuition.
  - apply IH2 in Hin. rewrite weeklyPoDate_step_keys in Hin. intuition.
Qed.

Lemma keys_app {V} (a b : OMap.t V) : OMap.keys (a ++ b) = OMap.keys a ++ OMap.keys b.
Proof. apply List.map_app. Qed.

(** With distinct keys the walk copies the demand of the material into
    [weeklyDemand], in order. *)
Lemma weeklyDemand_fold l st :
  List.NoDup (OMap.keys (weeklyDemand st) ++ OMap.keys l) ->
  weeklyDemand (fold_left step l st) = weeklyDemand st ++ l.
Proof.
  revert st. induction l as [|[w q] l IH]; intros st Hnd; simpl.
  - rewrite app_nil_r. reflexivity.
  - assert (Hfresh : ~ In w (OMap.keys (weeklyDemand st))).
    { simpl in Hnd. apply NoDup_remove_2 in Hnd. intros Hin. apply Hnd.
      apply in_or_app. left. exact Hin. }
    rewrite IH; rewrite weeklyDemand_step; simpl; rewrite (set_fresh _ _ _ Hfresh).
    + rewrite <- app_assoc. reflexivity.
    + rewrite keys_app, <- app_assoc. exact Hnd.
Qed.

Lemma totalDemand_fold l st :
  (forall w, In w (OMap.keys l) -> In w selectedWeeks) ->
  totalDemand (fold_left step l st) == totalDemand st + Qsum (OMap.values l).
Proof.
  revert st. induction l as [|[w q] l IH]; intros st Hsel; simpl.
  - ring.
  - rewrite IH by (intros w' Hin; apply Hsel; right; exact Hin).
    rewrite totalDemand_step. simpl.
    assert (Hw : existsb (String.eqb w) selectedWeeks = true).
    { apply existsb_exists. exists w. split; [apply Hsel; left; reflexivity|].
      apply String.eqb_refl. }
    rewrite Hw. ring.
Qed.

(** The three maps of a walk hold only selected periods, and the total is
    the sum of the demand map. *)
Lemma weekLoop_window (demandByWeek : OMap.t Q) :
  List.NoDup (OMap.keys demandByWeek) ->
  (forall w, In w (OMap.keys demandByWeek) -> In w selectedWeeks) ->
  let st := weekLoop mmInfo sdInfo selectedWeeks weekPlan demandByWeek in
  (forall w,
     In w (OMap.keys (weeklyDemand st)) \/ In w (OMap.keys (weeklyMrpQty st)) \/
     In w (OMap.keys (weeklyPoDate st)) -> In w selectedWeeks) /\
  totalDemand st == Qsum (OMap.values (weeklyDemand st)).
Proof.
  intros Hnd Hsel. unfold weekLoop. simpl.
  rewrite weeklyDemand_fold by exact Hnd. simpl. split.
  - intros w [Hin | [Hin | Hin]].
    + exact (Hsel w Hin).
    + apply weekLoop_keys in Hin as [[] | Hin]. exact (Hsel w Hin).
    + apply weekLoop_keys in Hin as [[] | Hin]. exact (Hsel w Hin).
  - rewrite totalDemand_fold by exact Hsel. simpl. ring.
Qed.

End Window.

Section WindowTheorem.

Context `{Host}.

Local Open Scope Q_scope.

Lemma isPeriod_parts s :
  JS.isPeriod s = true ->
  JS.split "." s = [substring 0 2 s; substring 3 4 s] /\
  JS.allDigits (substring 0 2 s) = true /\
  substring 0 2 s <> ""%string.
Proof.
  destruct s as [|w1 [|w2 [|d [|y1 [|y2 [|y3 [|y4 [|? ?]]]]]]]]; try discriminate.
  unfold JS.isPeriod.
  intros [[[[[[H1 H2]%andb_prop Hd]%andb_prop H3]%andb_prop H4]%andb_prop H5]%andb_prop
            H6]%andb_prop.
  apply Ascii.eqb_eq in Hd. subst d.
  pose proof (digit_facts _ H1) as (_ & E1 & _).
  pose proof (digit_facts _ H2) as (_ & E2 & _).
  pose proof (digit_facts _ H3) as (_ & E3 & _).
  pose proof (digit_facts _ H4) as (_ & E4 & _).
  pose proof (digit_facts _ H5) as (_ & E5 & _).
  pose proof (digit_facts _ H6) as (_ & E6 & _).
  simpl. rewrite E1, E2, E3, E4, E5, E6, H1, H2.
  split; [reflexivity|]. split; [reflexivity | discriminate].
Qed.

(** Membership in [selectedWeeks] spelled out: a period key of the selected
    year whose week number lies between the start and the end week. *)
Lemma selectedWeeks_In st idpHeaders w :
  In w (selectedWeeksOf st (allWeeksOf idpHeaders)) ->
  JS.isPeriod w = true /\ substring 3 4 w = selectedYear st /\
  (startWeek st <= periodWeek w <= endWeek st)%Z.
Proof.
  unfold selectedWeeksOf, allWeeksOf.
  intros [[[_ [_ Hp]%andb_prop]%filter_In Hy]%filter_In Hr]%filter_In.
  destruct (isPeriod_parts _ Hp) as (Hs & Hd & Hne).
  split; [exact Hp|]. split.
  - unfold inYear in Hy. rewrite Hs in Hy. simpl in Hy.
    apply String.eqb_eq in Hy. exact Hy.
  - unfold inWeekRange in Hr. rewrite Hs in Hr. simpl nth_error in Hr. cbv beta iota in Hr.
    rewrite (Number_digits _ Hd Hne) in Hr.
    apply andb_prop in Hr as [Hlo Hhi].
    apply Qle_bool_iff in Hlo, Hhi. rewrite <- Zle_Qle in Hlo, Hhi.
    unfold periodWeek. split; assumption.
Qed.

(** C10: after a successful computation, every period key of a row's
    [weeklyDemand], [weeklyMrpQty] or [weeklyPoDate] is one of the selected
    weeks: a period key of the selected year with a week number between the
    start week and the end week; and the row's [totalDemand] is the sum of
    the values of its [weeklyDemand]. *)
Theorem output_periods_in_window (inputs : Inputs.t) (st st' : PageState)
    (n1 n2 : nat) (w1 w2 : Z) (n3 : nat) :
  calculateMrpDataInternal inputs st = (st', CalculationComplete n1 n2 w1 w2 n3) ->
  exists rows,
    mrpCalculatedData st' = Some rows /\
    forall row, In row rows ->
      (forall w,
         In w (OMap.keys (MrpRow.weeklyDemand row)) \/
         In w (OMap.keys (MrpRow.weeklyMrpQty row)) \/
         In w (OMap.keys (MrpRow.weeklyPoDate row)) ->
         In w (weekColumns st') /\ JS.isPeriod w = true /\
         substring 3 4 w = selectedYear st /\
         (startWeek st <= periodWeek w <= endWeek st)%Z) /\
      MrpRow.totalDemand row == Qsum (OMap.values (MrpRow.weeklyDemand row)).
Proof.
  unfold calculateMrpDataInternal.
  destruct (isEmptyDoc (Inputs.bom inputs)); [discriminate|].
  destruct (isEmptyDoc (Inputs.idp inputs)); [discriminate|].
  destruct (isEmptyDoc (Inputs.materialMaster inputs) ||
            isEmptyDoc (Inputs.supplierDetails inputs)); [discriminate|].
  match goal with |- context [if ?b then _ else _] => destruct b end; [discriminate|].
  intros [= <- _ _ _ _ _]. eexists. split; [reflexivity|].
  intros row [material [<- _]]%in_map_iff.
  cbn [weekColumns].
  set (idpHeaders := hd [] (gridOf (Inputs.idp inputs))).
  set (selectedWeeks := selectedWeeksOf st (allWeeksOf idpHeaders)).
  unfold mrpRowOf. cbn [MrpRow.weeklyDemand MrpRow.weeklyMrpQty MrpRow.weeklyPoDate
                        MrpRow.totalDemand].
  match goal with
  | |- context [weekLoop ?mm ?sd selectedWeeks ?wp ?dbw] =>
      pose proof (weekLoop_window mm sd selectedWeeks wp dbw) as Hloop;
      assert (Hkeys : List.NoDup (OMap.keys dbw) /\
                      forall w, In w (OMap.keys dbw) -> In w selectedWeeks)
  end.
  { match goal with
    | |- context [match ?dm !! material with _ => _ end] =>
        destruct (dm !! material) as [m|] eqn:Em
    end.
    - exact (wellKeyed_build _ _ _ _ _ _ _ Em).
    - split; [apply List.NoDup_nil | intros w []].
  }
  destruct Hkeys as [Hnd Hsel]. destruct (Hloop Hnd Hsel) as [Hin Htotal].
  split; [|exact Htotal].
  intros w Hw. pose proof (Hin w Hw) as Hsw.
  split; [exact Hsw|]. exact (selectedWeeks_In _ _ _ Hsw).
Qed.

End WindowTheorem.

Section WindowExamples.

Example sample_run :
  match @calculateMrpDataInternal plainHost sampleInputs emptyState with
  | (st', CalculationComplete 3 2 1 20 2) =>
      match mrpCalculatedData st' with
      | Some [r1; r2; _] =>
          MrpRow.material r1 = "C1"%string /\
          MrpRow.weeklyMrpQty r1 = [("05.2024"%string, 30%Q); ("06.2024"%string, 20%Q)] /\
          MrpRow.weeklyPoDate r1 = [("05.2024", "24-Jan-24"); ("06.2024", "31-Jan-24")]%string /\
          MrpRow.material r2 = "C2"%string
      | _ => False
      end
  | _ => False
  end.
Proof. vm_compute. repeat split. Qed.

Lemma output_periods_in_window_witness :
  exists rows,
    mrpCalculatedData (fst (@calculateMrpDataInternal plainHost sampleInputs emptyState))
    = Some rows /\
    forall row, In row rows ->
      (forall w,
         In w (OMap.keys (MrpRow.weeklyDemand row)) \/
         In w (OMap.keys (MrpRow.weeklyMrpQty row)) \/
         In w (OMap.keys (MrpRow.weeklyPoDate row)) ->
         In w (weekColumns (fst (@calculateMrpDataInternal plainHost sampleInputs emptyState))) /\
         JS.isPeriod w = true /\
         substring 3 4 w = selectedYear emptyState /\
         (startWeek emptyState <= periodWeek w <= endWeek emptyState)%Z) /\
      (MrpRow.totalDemand row == Qsum (OMap.values (MrpRow.weeklyDemand row)))%Q.
Proof.
  apply (@output_periods_in_window plainHost sampleInputs emptyState
           (fst (@calculateMrpDataInternal plainHost sampleInputs emptyState))
           3%nat 2%nat 1%Z 20%Z 2%nat).
  vm_compute. reflexivity.
Defined.

End WindowExamples.

(** * Further properties of the page *)

(** ** The shape of a successful computation *)

Section SuccessShape.

Context `{Host}.

Lemma success_shape inputs st st' n1 n2 w1 w2 n3 :
  calculateMrpDataInternal inputs st = (st', CalculationComplete n1 n2 w1 w2 n3) ->
  mrpCalculatedData st' = Some (List.map (rowOf inputs st) (uniqueMaterialsOf inputs)) /\
  weekColumns st' = selectedWeeksFor inputs st /\
  allWeekColumns st' = allWeeksOf (idpHeadersOf inputs) /\
  selectedYear st' = selectedYear st /\ startWeek st' = startWeek st /\
  endWeek st' = endWeek st /\
  childPartIdxOf inputs <> (-1)%Z /\
  n1 = List.length (uniqueMaterialsOf inputs) /\
  n3 = List.length (selectedWeeksFor inputs st) /\
  w1 = startWeek st /\ w2 = endWeek st.
Proof.
  unfold calculateMrpDataInternal.
  destruct (isEmptyDoc (Inputs.bom inputs)); [discriminate|].
  destruct (isEmptyDoc (Inputs.idp inputs)); [discriminate|].
  destruct (isEmptyDoc (Inputs.materialMaster inputs) ||
            isEmptyDoc (Inputs.supplierDetails inputs)); [discriminate|].
  fold (bomHeaderRowIndexOf inputs). fold (bomHeadersOf inputs). fold (bomRowsOf inputs).
  fold (childPartIdxOf inputs).
  destruct (Z.eqb_spec (childPartIdxOf inputs) (-1)) as [|Hne]; [discriminate|].
  intros [= <- <- _ <- <- <-]. cbn.
  repeat split; try reflexivity; try exact Hne.
  rewrite length_map. reflexivity.
Qed.

Lemma row_of_success inputs st st' n1 n2 w1 w2 n3 rows row :
  calculateMrpDataInternal inputs st = (st', CalculationComplete n1 n2 w1 w2 n3) ->
  mrpCalculatedData st' = Some rows -> In row rows ->
  exists material, In material (uniqueMaterialsOf inputs) /\ row = rowOf inputs st material.
Proof.
  intros Hc Hrows Hin. destruct (success_shape _ _ _ _ _ _ _ _ Hc) as (Hd & _).
  rewrite Hd in Hrows. injection Hrows as <-.
  apply in_map_iff in Hin as (m & <- & Hm). exists m. split; [exact Hm | reflexivity].
Qed.

End SuccessShape.

(** ** More on the walk over the periods of a material *)

Section WalkFacts.

Context `{Host}.
Variable mmInfo : MaterialInfo.
Variable sdInfo : SupplierInfo.
Variable selectedWeeks : list string.
Variable weekPlan : option ParsedExcel.

Local Open Scope Q_scope.

Local Abbreviation step := (weekStep mmInfo sdInfo selectedWeeks weekPlan).

Lemma weeklyPoDate_step st e :
  weeklyPoDate (step st e) =
  OMap.set (weeklyPoDate st) (fst e)
    (snd (poDateFor sdInfo weekPlan
            (fst e, fst (netAndSize mmInfo (remainingExcess st) (snd e))))).
Proof.
  unfold weekStep. destruct (netAndSize mmInfo (remainingExcess st) (snd e)).
  reflexivity.
Qed.

Lemma set_map_values {A B} (f : string -> A -> B) (m : OMap.t A) k v :
  OMap.set (List.map (fun e => (fst e, f (fst e) (snd e))) m) k (f k v)
  = List.map (fun e => (fst e, f (fst e) (snd e))) (OMap.set m k v).
Proof.
  induction m as [|[k' v'] m IH]; simpl; [reflexivity|].
  destruct (String.eqb k' k) eqn:E; simpl.
  - apply String.eqb_eq in E. subst k'. reflexivity.
  - rewrite IH. reflexivity.
Qed.

Lemma set_poDateFor (m : OMap.t Q) k v :
  OMap.set (List.map (poDateFor sdInfo weekPlan) m) k (snd (poDateFor sdInfo weekPlan (k, v)))
  = List.map (poDateFor sdInfo weekPlan) (OMap.set m k v).
Proof.
  exact (set_map_values
           (fun w q => calculatePoDate w (Fin (orZero (totalLeadTime sdInfo))) (Fin q) weekPlan)
           m k v).
Qed.

(** The PO dates are computed entry by entry from the required quantities. *)
Lemma weeklyPoDate_fold l st :
  weeklyPoDate st = List.map (poDateFor sdInfo weekPlan) (weeklyMrpQty st) ->
  weeklyPoDate (fold_left step l st) =
  List.map (poDateFor sdInfo weekPlan) (weeklyMrpQty (fold_left step l st)).
Proof.
  revert st. induction l as [|e l IH]; intros st Hst; simpl; [exact Hst|].
  apply IH. rewrite weeklyPoDate_step, weeklyMrpQty_step, Hst. apply set_poDateFor.
Qed.

Lemma keys_set_congr {A B} (m : OMap.t A) (m' : OMap.t B) k v v' :
  OMap.keys m = OMap.keys m' ->
  OMap.keys (OMap.set m k v) = OMap.keys (OMap.set m' k v').
Proof.
  revert m'. induction m as [|[k1 v1] m IH]; intros [|[k2 v2] m']; simpl; try discriminate.
  - reflexivity.
  - intros [= <- Hk]. destruct (String.eqb k1 k); simpl; [rewrite Hk | rewrite (IH m' Hk)];
      reflexivity.
Qed.

Lemma weeklyDemand_keys_fold l st :
  OMap.keys (weeklyDemand st) = OMap.keys (weeklyMrpQty st) ->
  OMap.keys (weeklyDemand (fold_left step l st)) =
  OMap.keys (weeklyMrpQty (fold_left step l st)).
Proof.
  revert st. induction l as [|e l IH]; intros st Hst; simpl; [exact Hst|].
  apply IH. rewrite weeklyDemand_step, weeklyMrpQty_step. apply keys_set_congr, Hst.
Qed.

Lemma keys_poDateFor (m : OMap.t Q) :
  OMap.keys (List.map (poDateFor sdInfo weekPlan) m) = OMap.keys m.
Proof.
  unfold OMap.keys. rewrite List.map_map. reflexivity.
Qed.

Lemma get_poDateFor (m : OMap.t Q) w :
  OMap.get (List.map (poDateFor sdInfo weekPlan) m) w =
  match OMap.get m w with
  | Some q => Some (snd (poDateFor sdInfo weekPlan (w, q)))
  | None => None
  end.
Proof.
  induction m as [|[k v] m IH]; simpl; [reflexivity|].
  destruct (String.eqb k w) eqn:E; [|exact IH].
  apply String.eqb_eq in E. subst k. reflexivity.
Qed.

Lemma formatPoDate_not_dash d : formatPoDate d <> "-"%string.
Proof.
  destruct d as [x|]; [|discriminate]. unfold formatPoDate.
  destruct (JS.stringOfZ (JSDate.getDate x)) as [|a [|b s]]; simpl; discriminate.
Qed.

(** A date is shown exactly for the quantities that are positive. *)
Lemma calculatePoDate_dash w lead q :
  calculatePoDate w lead (Fin q) weekPlan = "-"%string <-> q <= 0.
Proof.
  unfold calculatePoDate. simpl leZero.
  destruct (Qle_bool q 0) eqn:E.
  - apply Qle_bool_iff in E. split; [intros _; exact E | reflexivity].
  - apply Qle_bool_false in E. split.
    + intros Hd. exfalso. exact (formatPoDate_not_dash _ Hd).
    + intros Hle. lra.
Qed.

(** *** What is ordered covers what is needed *)

Lemma ceiling_multiple_ge (x m : Q) : 0 < m -> x <= inject_Z (Qceiling (x / m)) * m.
Proof.
  intros Hm. pose proof (Qle_ceiling (x / m)) as Hc.
  apply (Qmult_le_compat_r _ _ m) in Hc; [|lra].
  assert (Hnz : ~ m == 0) by lra.
  rewrite Qmult_comm, Qmult_div_r in Hc by exact Hnz. exact Hc.
Qed.

Lemma lotSize_ge adjustedDemand :
  adjustedDemand <= lotSize mmInfo adjustedDemand /\
  (0 < lotSize mmInfo adjustedDemand <-> 0 < adjustedDemand).
Proof.
  unfold lotSize.
  destruct (Qltb 0 adjustedDemand) eqn:Ea.
  - apply Qltb_true in Ea.
    destruct (Qltb 0 (reorder mmInfo)) eqn:Er.
    { apply Qltb_true in Er. split; [lra | split; intros; lra]. }
    destruct (Qltb adjustedDemand (moq mmInfo)) eqn:Eo.
    { apply Qltb_true in Eo. split; [lra | split; intros; lra]. }
    destruct (Qltb 0 (mpq mmInfo)) eqn:Ep.
    { apply Qltb_true in Ep.
      pose proof (ceiling_multiple_ge adjustedDemand (mpq mmInfo) Ep).
      split; [assumption | split; intros; lra]. }
    split; [lra | split; intros; lra].
  - apply Qltb_false in Ea. split; [exact Ea | split; intros; lra].
Qed.


(** *** The excess that is left *)

Lemma Qsum_nonneg l : (forall q, In q l -> 0 <= q) -> 0 <= Qsum l.
Proof.
  induction l as [|x l IH]; intros Hl; simpl; [lra|].
  assert (0 <= x) by (apply Hl; left; reflexivity).
  assert (0 <= Qsum l) by (apply IH; intros q Hq; apply Hl; right; exact Hq).
  lra.
Qed.

Lemma remainingExcess_after l st :
  0 <= remainingExcess st ->
  (forall q, In q (OMap.values l) -> 0 <= q) ->
  (Qsum (OMap.values l) <= remainingExcess st ->
   remainingExcess (fold_left step l st) == remainingExcess st - Qsum (OMap.values l)) /\
  (remainingExcess st <= Qsum (OMap.values l) ->
   remainingExcess (fold_left step l st) == 0).
Proof.
  revert st. induction l as [|[w qty] l IH]; intros st Hr Hpos; simpl.
  - split; intros; lra.
  - assert (Hq : 0 <= qty) by (apply Hpos; left; reflexivity).
    assert (Hrest : forall q, In q (OMap.values l) -> 0 <= q)
      by (intros q Hin; apply Hpos; right; exact Hin).
    pose proof (Qsum_nonneg _ Hrest) as Hs.
    pose proof (remainingExcess_step_nonneg mmInfo sdInfo selectedWeeks weekPlan
                  st (w, qty) Hr) as Hr'.
    destruct (IH (step st (w, qty)) Hr' Hrest) as [IH1 IH2].
    assert (Hstep : (qty <= remainingExcess st ->
                     remainingExcess (step st (w, qty)) == remainingExcess st - qty) /\
                    (remainingExcess st <= qty ->
                     remainingExcess (step st (w, qty)) == 0)).
    { rewrite remainingExcess_step. simpl snd.
      destruct (Qlt_le_dec 0 qty) as [Hlt | Hle].
      - rewrite netAndSize_pos by exact Hlt. simpl. unfold netExcess.
        destruct (Qltb 0 (remainingExcess st)) eqn:E1.
        + destruct (Qle_bool qty (remainingExcess st)) eqn:E2; simpl.
          * apply Qle_bool_iff in E2. split; intros; lra.
          * apply Qle_bool_false in E2. split; intros; lra.
        + apply Qltb_false in E1. simpl. split; intros; lra.
      - rewrite netAndSize_nonpos by exact Hle. simpl. split; intros; lra. }
    destruct Hstep as [Hs1 Hs2].
    destruct (Qlt_le_dec (remainingExcess st) qty) as [Hlt | Hle].
    + (* this period exhausts the excess *)
      assert (E0 : remainingExcess (step st (w, qty)) == 0) by (apply Hs2; lra).
      split; intros Hc; [lra|].
      apply IH2. lra.
    + assert (E1 : remainingExcess (step st (w, qty)) == remainingExcess st - qty)
        by (apply Hs1; exact Hle).
      split; intros Hc.
      * rewrite IH1 by lra. lra.
      * apply IH2. lra.
Qed.


(** *** Stock that covers the whole demand *)

Lemma Forall_values_set {V} (P : V -> Prop) (m : OMap.t V) k v :
  Forall P (OMap.values m) -> P v -> Forall P (OMap.values (OMap.set m k v)).
Proof.
  intros Hm Hv. induction m as [|[k' v'] m IH]; simpl.
  - constructor; [exact Hv | constructor].
  - inversion Hm as [|? ? Hv' Hm']; subst.
    destruct (String.eqb k' k); simpl; constructor; auto.
Qed.

Lemma covered_fold l st :
  (forall q, In q (OMap.values l) -> 0 <= q) ->
  Qsum (OMap.values l) <= remainingExcess st ->
  Forall (fun q => q = 0) (OMap.values (weeklyMrpQty st)) ->
  Forall (fun q => q = 0) (OMap.values (weeklyMrpQty (fold_left step l st))).
Proof.
  revert st. induction l as [|[w qty] l IH]; intros st Hpos Hsum Hall; simpl; [exact Hall|].
  simpl in Hsum.
  assert (Hq : 0 <= qty) by (apply Hpos; left; reflexivity).
  assert (Hrest : forall q, In q (OMap.values l) -> 0 <= q)
    by (intros q Hin; apply Hpos; right; exact Hin).
  pose proof (Qsum_nonneg _ Hrest) as Hs.
  assert (Hstep : fst (netAndSize mmInfo (remainingExcess st) qty) = 0 /\
                  snd (netAndSize mmInfo (remainingExcess st) qty) ==
                  remainingExcess st - qty).
  { destruct (Qlt_le_dec 0 qty) as [Hlt | Hle].
    - rewrite netAndSize_pos by exact Hlt. simpl. unfold netExcess.
      assert (E1 : Qltb 0 (remainingExcess st) = true) by (apply Qltb_true; lra).
      assert (E2 : Qle_bool qty (remainingExcess st) = true) by (apply Qle_bool_iff; lra).
      rewrite E1, E2. simpl. split; reflexivity.
    - rewrite netAndSize_nonpos by exact Hle. simpl. split; [reflexivity | lra]. }
  destruct Hstep as [H0 Hrem].
  apply IH; [exact Hrest | |].
  - rewrite remainingExcess_step. simpl snd. rewrite Hrem. lra.
  - rewrite weeklyMrpQty_step. simpl. apply Forall_values_set; [exact Hall | exact H0].
Qed.


End WalkFacts.

(** ** The rows of a successful computation *)

Section Rows.

Context `{Host}.

Local Open Scope Q_scope.

Lemma rows_of_success inputs st st' n1 n2 w1 w2 n3 :
  calculateMrpDataInternal inputs st = (st', CalculationComplete n1 n2 w1 w2 n3) ->
  exists rows,
    mrpCalculatedData st' = Some rows /\
    List.map MrpRow.material rows = uniqueMaterialsOf inputs /\
    forall row, In row rows ->
      In (MrpRow.material row) (uniqueMaterialsOf inputs) /\
      row = rowOf inputs st (MrpRow.material row).
Proof.
  intros Hc. destruct (success_shape _ _ _ _ _ _ _ _ Hc) as (Hd & _).
  eexists. split; [exact Hd|]. split.
  - rewrite List.map_map. apply List.map_id.
  - intros row (m & <- & Hm)%in_map_iff. split; [exact Hm | reflexivity].
Qed.

(** A row is the result of the walk over the demand of its material. *)
Lemma rowOf_loop inputs st material :
  let loop :=
    weekLoop (mmInfoOf inputs material) (sdInfoOf inputs material)
      (selectedWeeksFor inputs st) (Inputs.weekPlan inputs)
      (demandByWeekOf inputs st material) in
  MrpRow.totalDemand (rowOf inputs st material) = totalDemand loop /\
  MrpRow.weeklyDemand (rowOf inputs st material) = weeklyDemand loop /\
  MrpRow.weeklyMrpQty (rowOf inputs st material) = weeklyMrpQty loop /\
  MrpRow.weeklyPoDate (rowOf inputs st material) = weeklyPoDate loop /\
  MrpRow.excessQty (rowOf inputs st material) = excessQtyOf (mmInfoOf inputs material).
Proof. repeat split. Qed.

Lemma demandByWeekOf_wellKeyed inputs st material :
  List.NoDup (OMap.keys (demandByWeekOf inputs st material)) /\
  forall w, In w (OMap.keys (demandByWeekOf inputs st material)) ->
    In w (selectedWeeksFor inputs st).
Proof.
  unfold demandByWeekOf.
  destruct (demandMapOf inputs st !! material) as [m|] eqn:Em.
  - exact (wellKeyed_build _ _ _ _ _ _ _ Em).
  - split; [apply List.NoDup_nil | intros w []].
Qed.

Lemma rowOf_weeklyDemand inputs st material :
  MrpRow.weeklyDemand (rowOf inputs st material) = demandByWeekOf inputs st material.
Proof.
  unfold rowOf, mrpRowOf. cbn [MrpRow.weeklyDemand].
  fold (demandMapOf inputs st). fold (demandByWeekOf inputs st material).
  unfold weekLoop. rewrite weeklyDemand_fold; [reflexivity|].
  apply (demandByWeekOf_wellKeyed inputs st material).
Qed.

Lemma rowOf_weeklyPoDate inputs st material :
  MrpRow.weeklyPoDate (rowOf inputs st material) =
  List.map (poDateFor (sdInfoOf inputs material) (Inputs.weekPlan inputs))
    (MrpRow.weeklyMrpQty (rowOf inputs st material)).
Proof.
  unfold rowOf, mrpRowOf. cbn [MrpRow.weeklyPoDate MrpRow.weeklyMrpQty].
  unfold weekLoop. apply weeklyPoDate_fold. reflexivity.
Qed.

Lemma rowOf_keys inputs st material :
  OMap.keys (MrpRow.weeklyDemand (rowOf inputs st material)) =
  OMap.keys (MrpRow.weeklyMrpQty (rowOf inputs st material)).
Proof.
  unfold rowOf, mrpRowOf. cbn [MrpRow.weeklyDemand MrpRow.weeklyMrpQty].
  unfold weekLoop. apply weeklyDemand_keys_fold. reflexivity.
Qed.

(** X4: in every row of a successful computation, each period with a
    required quantity has a PO date, and that date is the dash exactly when
    the required quantity is not positive. *)
Theorem po_date_shown_iff_order (inputs : Inputs.t) (st st' : PageState)
    (n1 n2 : nat) (w1 w2 : Z) (n3 : nat) :
  calculateMrpDataInternal inputs st = (st', CalculationComplete n1 n2 w1 w2 n3) ->
  exists rows,
    mrpCalculatedData st' = Some rows /\
    forall row w q, In row rows ->
      OMap.get (MrpRow.weeklyMrpQty row) w = Some q ->
      exists d, OMap.get (MrpRow.weeklyPoDate row) w = Some d /\
                (d = "-"%string <-> q <= 0).
Proof.
  intros Hc. destruct (rows_of_success _ _ _ _ _ _ _ _ Hc) as (rows & Hd & _ & Hrows).
  exists rows. split; [exact Hd|].
  intros row w q Hin Hq. destruct (Hrows row Hin) as [_ Hrow].
  rewrite Hrow in Hq |- *. rewrite rowOf_weeklyPoDate, get_poDateFor, Hq.
  eexists. split; [reflexivity|]. simpl. apply calculatePoDate_dash.
Qed.

(** X5: in every row of a successful computation [weeklyDemand] is the entry
    of the demand map for the row's material (empty when there is none),
    and [weeklyMrpQty] and [weeklyPoDate] list the same periods in the same
    order, each once. *)
Theorem weekly_maps_share_periods (inputs : Inputs.t) (st st' : PageState)
    (n1 n2 : nat) (w1 w2 : Z) (n3 : nat) :
  calculateMrpDataInternal inputs st = (st', CalculationComplete n1 n2 w1 w2 n3) ->
  exists rows,
    mrpCalculatedData st' = Some rows /\
    forall row, In row rows ->
      MrpRow.weeklyDemand row = demandByWeekOf inputs st (MrpRow.material row) /\
      OMap.keys (MrpRow.weeklyMrpQty row) = OMap.keys (MrpRow.weeklyDemand row) /\
      OMap.keys (MrpRow.weeklyPoDate row) = OMap.keys (MrpRow.weeklyDemand row) /\
      List.NoDup (OMap.keys (MrpRow.weeklyDemand row)).
Proof.
  intros Hc. destruct (rows_of_success _ _ _ _ _ _ _ _ Hc) as (rows & Hd & _ & Hrows).
  exists rows. split; [exact Hd|].
  intros row Hin. destruct (Hrows row Hin) as [_ Hrow].
  set (m := MrpRow.material row) in *. rewrite Hrow.
  split; [apply rowOf_weeklyDemand|]. split; [symmetry; apply rowOf_keys|]. split.
  - rewrite rowOf_weeklyPoDate, keys_poDateFor. symmetry. apply rowOf_keys.
  - rewrite rowOf_weeklyDemand. apply (demandByWeekOf_wellKeyed inputs st m).
Qed.


(** *** One row per child part *)

Lemma uniqueFrom_In seen xs x :
  In x (JS.uniqueFrom seen xs) <-> In x xs /\ ~ In x seen.
Proof.
  revert seen. induction xs as [|y xs IH]; intros seen; simpl; [tauto|].
  destruct (existsb (String.eqb y) seen) eqn:E.
  - apply existsb_exists in E as (z & Hz & Ez). apply String.eqb_eq in Ez. subst z.
    rewrite IH. split; [tauto|]. intros [[-> | Hin] Hn]; [contradiction | tauto].
  - assert (Hy : ~ In y seen).
    { intros Hin. apply not_true_iff_false in E. apply E.
      apply existsb_exists. exists y. split; [exact Hin | apply String.eqb_refl]. }
    simpl. rewrite IH. simpl. split.
    + intros [-> | [Hin Hn]]; [tauto|]. split; [tauto|]. intros Hs. apply Hn. right. exact Hs.
    + intros [[-> | Hin] Hn]; [left; reflexivity|].
      destruct (string_dec y x) as [-> | Hne]; [left; reflexivity|].
      right. split; [exact Hin|]. intros [Heq | Hs]; [exact (Hne Heq) | exact (Hn Hs)].
Qed.

Lemma uniqueFrom_NoDup seen xs : List.NoDup (JS.uniqueFrom seen xs).
Proof.
  revert seen. induction xs as [|y xs IH]; intros seen; simpl; [apply List.NoDup_nil|].
  destruct (existsb (String.eqb y) seen); [apply IH|].
  apply List.NoDup_cons; [|apply IH].
  rewrite uniqueFrom_In. intros [_ Hn]. apply Hn. left. reflexivity.
Qed.

(** X7: a successful computation gives one row per distinct non-blank child
    part of the BOM data rows, in the order of first appearance: no material
    has two rows, none is blank, and a material has a row exactly when some
    BOM data row carries it in the child-part column. *)
Theorem one_row_per_child_part (inputs : Inputs.t) (st st' : PageState)
    (n1 n2 : nat) (w1 w2 : Z) (n3 : nat) :
  calculateMrpDataInternal inputs st = (st', CalculationComplete n1 n2 w1 w2 n3) ->
  exists rows,
    mrpCalculatedData st' = Some rows /\
    List.map MrpRow.material rows = JS.unique (childPartsOf inputs) /\
    List.NoDup (List.map MrpRow.material rows) /\
    List.length rows = n1 /\
    forall material,
      In material (List.map MrpRow.material rows) <->
      material <> ""%string /\
      exists r, In r (bomRowsOf inputs) /\
                trimmed (cellAt r (childPartIdxOf inputs)) = material.
Proof.
  intros Hc. destruct (rows_of_success _ _ _ _ _ _ _ _ Hc) as (rows & Hd & Hm & _).
  destruct (success_shape _ _ _ _ _ _ _ _ Hc) as (_ & _ & _ & _ & _ & _ & _ & Hn1 & _).
  exists rows. split; [exact Hd|]. split; [exact Hm|].
  split; [rewrite Hm; apply uniqueFrom_NoDup|].
  split; [rewrite Hn1, <- Hm, length_map; reflexivity|].
  intros material. rewrite Hm. unfold uniqueMaterialsOf, JS.unique.
  rewrite uniqueFrom_In. unfold childPartsOf. rewrite filter_In, in_map_iff.
  split.
  - intros [[(r & Hr & Hin) Hne] _]. split.
    + intros ->. rewrite String.eqb_refl in Hne. discriminate.
    + exists r. split; [exact Hin | exact Hr].
  - intros [Hne (r & Hin & Hr)]. split; [|intros []]. split.
    + exists r. split; [exact Hr | exact Hin].
    + apply String.eqb_neq in Hne. rewrite Hne. reflexivity.
Qed.

(** *** The state after a success *)

Lemma allWeeksOf_periods idpHeaders w :
  In w (allWeeksOf idpHeaders) -> JS.isPeriod w = true.
Proof.
  unfold allWeeksOf. intros [_ [_ Hp]%andb_prop]%filter_In. exact Hp.
Qed.

(** X8: after a successful computation [allWeekColumns] holds only period
    keys, [weekColumns] is the selection of [allWeekColumns] by the year and
    the two weeks of the state (so selecting again with the same window, as
    [calculateMrp] does, changes nothing), the window itself is unchanged,
    and the dialog reports the number of rows and of selected weeks. *)
Theorem success_state_consistent (inputs : Inputs.t) (st st' : PageState)
    (n1 n2 : nat) (w1 w2 : Z) (n3 : nat) :
  calculateMrpDataInternal inputs st = (st', CalculationComplete n1 n2 w1 w2 n3) ->
  (forall w, In w (allWeekColumns st') -> JS.isPeriod w = true) /\
  weekColumns st' = selectedWeeksOf st' (allWeekColumns st') /\
  (forall w, In w (weekColumns st') -> In w (allWeekColumns st')) /\
  selectedYear st' = selectedYear st /\ startWeek st' = startWeek st /\
  endWeek st' = endWeek st /\
  n3 = List.length (weekColumns st') /\ w1 = startWeek st /\ w2 = endWeek st /\
  exists rows, mrpCalculatedData st' = Some rows /\ n1 = List.length rows.
Proof.
  intros Hc.
  destruct (success_shape _ _ _ _ _ _ _ _ Hc)
    as (Hd & Hw & Ha & Hy & Hs & He & _ & Hn1 & Hn3 & Hw1 & Hw2).
  split; [rewrite Ha; apply allWeeksOf_periods|].
  assert (Hsel : weekColumns st' = selectedWeeksOf st' (allWeekColumns st')).
  { rewrite Hw, Ha. unfold selectedWeeksFor, selectedWeeksOf. rewrite Hy, Hs, He.
    reflexivity. }
  split; [exact Hsel|]. split.
  { intros w Hin. rewrite Hsel in Hin. unfold selectedWeeksOf in Hin.
    apply filter_In in Hin as [Hin _]. apply filter_In in Hin as [Hin _]. exact Hin. }
  repeat (split; [assumption|]).
  split; [rewrite Hw; exact Hn3|]. split; [exact Hw1|]. split; [exact Hw2|].
  eexists. split; [exact Hd|]. rewrite length_map. exact Hn1.
Qed.

(** X9: when a successful computation selects no week (no period column of
    the plan lies in the window), every row has a total demand of 0 and no
    entry in any of its three weekly maps. *)
Theorem no_selected_week_no_demand (inputs : Inputs.t) (st st' : PageState)
    (n1 n2 : nat) (w1 w2 : Z) (n3 : nat) :
  calculateMrpDataInternal inputs st = (st', CalculationComplete n1 n2 w1 w2 n3) ->
  weekColumns st' = [] ->
  exists rows,
    mrpCalculatedData st' = Some rows /\
    forall row, In row rows ->
      MrpRow.totalDemand row = 0 /\ MrpRow.weeklyDemand row = [] /\
      MrpRow.weeklyMrpQty row = [] /\ MrpRow.weeklyPoDate row = [].
Proof.
  intros Hc Hnone. destruct (rows_of_success _ _ _ _ _ _ _ _ Hc) as (rows & Hd & _ & Hrows).
  destruct (success_shape _ _ _ _ _ _ _ _ Hc) as (_ & Hw & _).
  exists rows. split; [exact Hd|].
  intros row Hin. destruct (Hrows row Hin) as [_ Hrow].
  set (m := MrpRow.material row) in *.
  assert (Hempty : demandByWeekOf inputs st m = []).
  { destruct (demandByWeekOf_wellKeyed inputs st m) as [_ Hsel].
    rewrite <- Hw, Hnone in Hsel.
    destruct (demandByWeekOf inputs st m) as [|[w q] l]; [reflexivity|].
    destruct (Hsel w); left; reflexivity. }
  rewrite Hrow. destruct (rowOf_loop inputs st m) as (-> & -> & -> & -> & _).
  rewrite Hempty. repeat split.
Qed.

End Rows.

(** ** The child-part column *)

Section ColumnError.

Context `{Host}.

Lemma findColumnIndex_none headers predicates :
  findColumnIndex headers predicates = (-1)%Z <->
  forall c, In c headers -> columnMatches predicates c = false.
Proof.
  unfold findColumnIndex.
  destruct (findColumnFrom_spec predicates headers 0) as [[Hm Hall] | (n & c & Hi & Hn & Hc & _)].
  - split; [intros _; exact Hall | intros _; exact Hm].
  - split.
    + intros Hneg. rewrite Hi in Hneg. lia.
    + intros Hall. apply nth_error_In in Hn. rewrite (Hall c Hn) in Hc. discriminate.
Qed.

(** X10: when the four documents are there, the computation ends in the
    Column Error dialog exactly when no cell of the detected BOM header row
    is a candidate for the child-part role; the dialog carries the name of the
    chosen sheet and the preview of the headers, and the state of the page is
    left as it was. *)
Theorem column_error_iff_no_child_part (inputs : Inputs.t) (st : PageState) (b : ParsedExcel) :
  Inputs.bom inputs = Some b ->
  isEmptyDoc (Inputs.bom inputs) = false ->
  isEmptyDoc (Inputs.idp inputs) = false ->
  isEmptyDoc (Inputs.materialMaster inputs) = false ->
  isEmptyDoc (Inputs.supplierDetails inputs) = false ->
  ((forall c, In c (bomHeadersOf inputs) -> columnMatches childPartPredicates c = false) ->
   calculateMrpDataInternal inputs st =
   (st, ColumnError (sheetName b) (headerPreviewOf (bomHeadersOf inputs)))) /\
  (forall st' sheet preview,
     calculateMrpDataInternal inputs st = (st', ColumnError sheet preview) ->
     forall c, In c (bomHeadersOf inputs) -> columnMatches childPartPredicates c = false).
Proof.
  intros Hb H1 H2 H3 H4. unfold calculateMrpDataInternal.
  rewrite H1, H2, H3, H4. simpl orb. cbv iota.
  fold (bomHeaderRowIndexOf inputs). fold (bomHeadersOf inputs). fold (bomRowsOf inputs).
  fold (childPartIdxOf inputs). rewrite Hb.
  destruct (Z.eqb_spec (childPartIdxOf inputs) (-1)) as [Heq | Hne].
  - split; [reflexivity|]. intros st' sheet preview _.
    apply findColumnIndex_none. exact Heq.
  - split.
    + intros Hall. exfalso. apply Hne. apply findColumnIndex_none. exact Hall.
    + intros st' sheet preview Hc. discriminate.
Qed.

End ColumnError.

(** ** The header row *)

Section HeaderRow.

Context `{Host}.

Lemma findHeaderRowFrom_spec matchers scan i :
  (findHeaderRowFrom matchers i scan = 0%Z /\
   forall row, In row scan -> forallb (fun m => m row) matchers = false) \/
  (exists (n : nat) (row : list cell),
     findHeaderRowFrom matchers i scan = (i + Z.of_nat n)%Z /\
     nth_error scan n = Some row /\
     forallb (fun m => m row) matchers = true /\
     forall (j : nat) (row' : list cell),
       (j < n)%nat -> nth_error scan j = Some row' ->
       forallb (fun m => m row') matchers = false).
Proof.
  revert i. induction scan as [|row rest IH]; intros i; simpl.
  - left. split; [reflexivity | intros row []].
  - destruct (forallb (fun m => m row) matchers) eqn:E.
    + right. exists O, row. repeat split; [lia | exact E | intros j row' Hj; lia].
    + destruct (IH (i + 1)%Z) as [[Hz Hall] | (n & r & Hi & Hn & Hm & Hbefore)].
      * left. split; [exact Hz|]. intros r [<- | Hin]; [exact E | exact (Hall r Hin)].
      * right. exists (S n), r. repeat split; [rewrite Hi; lia | exact Hn | exact Hm |].
        intros [|j] row' Hj Hnth; simpl in Hnth.
        -- injection Hnth as <-. exact E.
        -- apply (Hbefore j row'); [lia | exact Hnth].
Qed.

(** X11: the header row index is that of the first row, among the first
    [maxScan] rows, on which every matcher holds, and 0 when there is none
    (also for an empty grid); it is never negative and never reaches past the
    rows scanned. *)
Theorem findHeaderRowIndex_first_match (rows : Grid) (matchers : list (list cell -> bool))
    (maxScan : nat) :
  ((findHeaderRowIndex rows matchers maxScan = 0%Z /\
    forall (j : nat) (row : list cell),
      (j < maxScan)%nat -> nth_error rows j = Some row ->
      forallb (fun m => m row) matchers = false) \/
   (exists (n : nat) (row : list cell),
      findHeaderRowIndex rows matchers maxScan = Z.of_nat n /\
      (n < maxScan)%nat /\
      nth_error rows n = Some row /\
      forallb (fun m => m row) matchers = true /\
      forall (j : nat) (row' : list cell),
        (j < n)%nat -> nth_error rows j = Some row' ->
        forallb (fun m => m row') matchers = false)) /\
  (0 <= findHeaderRowIndex rows matchers maxScan
   <= Z.max 0 (Z.of_nat (Nat.min maxScan (List.length rows)) - 1))%Z.
Proof.
  unfold findHeaderRowIndex.
  set (k := Nat.min maxScan (List.length rows)).
  assert (Hfirst : forall j, nth_error (firstn k rows) j =
                             if (j <? k)%nat then nth_error rows j else None)
    by (intros j; apply nth_error_firstn).
  assert (Hlen : List.length (firstn k rows) = k).
  { rewrite length_firstn. unfold k. lia. }
  destruct (findHeaderRowFrom_spec matchers (firstn k rows) 0)
    as [[Hz Hall] | (n & row & Hi & Hn & Hm & Hbefore)].
  - split; [|rewrite Hz; lia]. left. split; [exact Hz|].
    intros j row Hj Hnth. apply Hall.
    apply (nth_error_In _ j). rewrite Hfirst.
    assert (Hjl : (j < List.length rows)%nat) by (apply nth_error_Some; congruence).
    destruct (Nat.ltb_spec j k) as [_ | Hge]; [exact Hnth | unfold k in Hge; lia].
  - assert (Hnk : (n < k)%nat).
    { rewrite <- Hlen. apply nth_error_Some. congruence. }
    rewrite Hfirst in Hn. destruct (Nat.ltb_spec n k) as [_ | Hge]; [|lia].
    split; [|rewrite Hi; lia]. right. exists n, row.
    split; [rewrite Hi; lia|]. split; [unfold k in Hnk; lia|].
    split; [exact Hn|]. split; [exact Hm|].
    intros j row' Hj Hnth. apply (Hbefore j row' Hj).
    rewrite Hfirst. destruct (Nat.ltb_spec j k) as [_ | Hge]; [exact Hnth | lia].
Qed.

End HeaderRow.

(** ** The material master *)

Section MaterialMaster.

Context `{Host}.

Lemma last_cons_default {A} (a d : A) (l : list A) : List.last (a :: l) d = List.last l a.
Proof.
  revert a d. induction l as [|b l IH]; intros a d; [reflexivity|].
  change (List.last (a :: b :: l) d) with (List.last (b :: l) d).
  rewrite (IH b d). symmetry. apply (IH b a).
Qed.

Lemma materialEntries_cons headers row rows material :
  materialEntries headers (row :: rows) material =
  if String.eqb (fst (materialRow headers row)) material
  then snd (materialRow headers row) :: materialEntries headers rows material
  else materialEntries headers rows material.
Proof.
  unfold materialEntries. cbn [List.map List.filter].
  destruct (String.eqb (fst (materialRow headers row)) material); reflexivity.
Qed.

Lemma materialStep_fold headers rows (acc : gmap string MaterialInfo) material :
  material <> ""%string ->
  fold_left (materialStep headers) rows acc !! material =
  List.last (List.map Some (materialEntries headers rows material)) (acc !! material).
Proof.
  intros Hne. revert acc. induction rows as [|row rows IH]; intros acc; [reflexivity|].
  simpl fold_left. rewrite IH, materialEntries_cons. unfold materialStep.
  destruct (String.eqb_spec (fst (materialRow headers row)) material) as [Heq | Hdiff].
  - rewrite Heq. apply String.eqb_neq in Hne. rewrite Hne.
    rewrite lookup_insert_eq. cbn [List.map]. rewrite last_cons_default. reflexivity.
  - destruct (String.eqb (fst (materialRow headers row)) ""); [reflexivity|].
    rewrite lookup_insert_ne by exact Hdiff. reflexivity.
Qed.

Lemma buildMaterialMasterMap_fold headers rows :
  buildMaterialMasterMap headers rows = fold_left (materialStep headers) rows ∅.
Proof. reflexivity. Qed.

Lemma materialMaster_lookup headers rows material :
  material <> ""%string ->
  buildMaterialMasterMap headers rows !! material =
  List.last (List.map Some (materialEntries headers rows material)) None.
Proof.
  intros Hne. rewrite buildMaterialMasterMap_fold, materialStep_fold by exact Hne.
  rewrite lookup_empty. reflexivity.
Qed.

Lemma materialMaster_blank headers rows :
  buildMaterialMasterMap headers rows !! ""%string = None.
Proof.
  rewrite buildMaterialMasterMap_fold.
  assert (Hnone : forall rs (acc : gmap string MaterialInfo),
            acc !! ""%string = None ->
            fold_left (materialStep headers) rs acc !! ""%string = None).
  { induction rs as [|r rs IH]; intros acc Hacc; [exact Hacc|].
    simpl. apply IH. unfold materialStep.
    destruct (String.eqb_spec (fst (materialRow headers r)) "") as [_ | Hd]; [exact Hacc|].
    rewrite lookup_insert_ne by exact Hd. exact Hacc. }
  apply Hnone, lookup_empty.
Qed.

(** X12: the material master keeps, for a material code, the entry of the
    last data row that carries the code (trimmed) in its first cell; a code
    that no row carries has no entry, and the blank code never has one.  (The supplier map keeps the shortest
    lead time instead.) *)
Theorem material_master_last_row_wins (headers : list cell) (rows : Grid) (material : string) :
  (material <> ""%string ->
   buildMaterialMasterMap headers rows !! material =
   List.last (List.map Some (materialEntries headers rows material)) None) /\
  buildMaterialMasterMap headers rows !! ""%string = None.
Proof.
  split; [apply materialMaster_lookup | apply materialMaster_blank].
Qed.

Lemma toNumber_undefined : toNumber CNil = 0%Q.
Proof. reflexivity. Qed.

Lemma cellAt_minus_one row : cellAt row (-1) = CNil.
Proof. reflexivity. Qed.

Lemma materialEntries_In headers rows material e :
  In e (materialEntries headers rows material) ->
  exists row, In row rows /\ e = snd (materialRow headers row).
Proof.
  unfold materialEntries. intros ([k e'] & <- & Hin)%in_map_iff.
  apply filter_In in Hin as [Hin _]. apply in_map_iff in Hin as (row & Hrow & Hin).
  exists row. split; [exact Hin|]. rewrite Hrow. reflexivity.
Qed.

Lemma last_Some_default {A} (l : list A) (d : option A) (x : A) :
  List.last (List.map Some l) d = Some x -> In x l \/ d = Some x.
Proof.
  revert d. induction l as [|a l IH]; intros d; [intros Hd; right; exact Hd|].
  cbn [List.map]. rewrite last_cons_default. intros Hl.
  destruct (IH _ Hl) as [Hin | [= ->]]; left; [right; exact Hin | left; reflexivity].
Qed.

Lemma last_Some_In {A} (l : list A) (x : A) :
  List.last (List.map Some l) None = Some x -> In x l.
Proof.
  intros Hl. destruct (last_Some_default l None x Hl) as [Hin | Hd];
    [exact Hin | discriminate].
Qed.

(** X13: a policy column that the header of the material master does not
    name is read as 0 for every material: without a header containing mpq
    every MPQ is 0, and likewise for moq, reorder, instock / in stock and
    pending po / pending_po. *)
Theorem missing_policy_column_reads_zero (headers : list cell) (rows : Grid)
    (material : string) (info : MaterialInfo) :
  buildMaterialMasterMap headers rows !! material = Some info ->
  (JS.findIndex (lowerIncludes "mpq") headers = (-1)%Z -> mpq info = 0%Q) /\
  (JS.findIndex (lowerIncludes "moq") headers = (-1)%Z -> moq info = 0%Q) /\
  (JS.findIndex (lowerIncludes "reorder") headers = (-1)%Z -> reorder info = 0%Q) /\
  (JS.findIndex (fun h => lowerIncludes "instock" h || lowerIncludes "in stock" h) headers
   = (-1)%Z -> instock info = 0%Q) /\
  (JS.findIndex (fun h => lowerIncludes "pending po" h || lowerIncludes "pending_po" h) headers
   = (-1)%Z -> pendingPo info = 0%Q).
Proof.
  intros Hget.
  assert (Hrow : exists row, info = snd (materialRow headers row)).
  { destruct (string_dec material "") as [-> | Hne].
    - rewrite materialMaster_blank in Hget. discriminate.
    - rewrite materialMaster_lookup in Hget by exact Hne.
      apply last_Some_In, materialEntries_In in Hget as (row & _ & Hrow).
      exists row. exact Hrow. }
  destruct Hrow as (row & ->). unfold materialRow. simpl.
  repeat split; intros ->; reflexivity.
Qed.

End MaterialMaster.

(** ** The demand map *)

Section DemandFacts.

Context `{Host}.

Local Open Scope Q_scope.

Lemma In_set {V} (m : OMap.t V) k v w q :
  In (w, q) (OMap.set m k v) -> (w = k /\ q = v) \/ In (w, q) m.
Proof.
  induction m as [|[k0 v0] m IH]; simpl.
  - intros [[= <- <-] | []]. left. split; reflexivity.
  - destruct (String.eqb_spec k0 k) as [-> | Hne]; simpl.
    + intros [[= <- <-] | Hin]; [left; split; reflexivity | right; right; exact Hin].
    + intros [Heq | Hin]; [right; left; exact Heq|].
      destruct (IH Hin) as [Hl | Hr]; [left; exact Hl | right; right; exact Hr].
Qed.

Lemma get_In {V} (m : OMap.t V) k v : OMap.get m k = Some v -> In (k, v) m.
Proof.
  induction m as [|[k0 v0] m IH]; simpl; [discriminate|].
  destruct (String.eqb_spec k0 k) as [-> | Hne].
  - intros [= ->]. left. reflexivity.
  - intros Hg. right. exact (IH Hg).
Qed.

Lemma bomEdges_quantity_pos bomHeaders bomRows e :
  In e (bomEdges bomHeaders bomRows) -> 0 < quantityPerParentUnit e.
Proof.
  unfold bomEdges. rewrite in_flat_map. intros (row & _ & Hin).
  match type of Hin with
  | In _ (if _ || _ || Qle_bool ?q 0 then _ else _) => destruct (Qle_bool q 0) eqn:E
  end.
  - rewrite !orb_true_r in Hin. contradiction.
  - rewrite orb_false_r in Hin.
    match type of Hin with
    | In _ (if ?b then _ else _) => destruct b; simpl in Hin; [contradiction|]
    end.
    destruct Hin as [<- | []]. simpl. apply Qle_bool_false. exact E.
Qed.

Lemma lookupItems_quantity_pos bomHeaders bomRows parent item :
  In item (lookupItems (buildBomLookup bomHeaders bomRows) parent) -> 0 < quantity item.
Proof.
  rewrite lookupItems_build. unfold itemsOf.
  intros (e & <- & He)%in_map_iff. apply filter_In in He as [He _]. simpl.
  exact (bomEdges_quantity_pos _ _ _ He).
Qed.

Lemma positiveDemand_addDemand wk q dm item :
  0 < q -> 0 < quantity item -> positiveDemand dm -> positiveDemand (addDemand wk q dm item).
Proof.
  intros Hq Hitem Hdm child m w x. unfold addDemand.
  assert (Hprod : 0 < q * quantity item) by (apply Qmult_lt_0_compat; assumption).
  destruct (String.eqb_spec (childPart item) child) as [<- | Hne].
  - rewrite lookup_insert_eq. intros [= <-] Hin.
    destruct (dm !! childPart item) as [m0|] eqn:E.
    + apply In_set in Hin as [[_ ->] | Hin]; [|exact (Hdm _ _ _ _ E Hin)].
      destruct (OMap.get m0 (week wk)) as [old|] eqn:G.
      * pose proof (Hdm _ _ _ _ E (get_In _ _ _ G)) as Hold.
        apply Qlt_le_trans with (y := 0 + q * quantity item); [rewrite Qplus_0_l; exact Hprod|].
        apply Qplus_le_l. apply Qlt_le_weak. exact Hold.
      * rewrite Qplus_0_l. exact Hprod.
    + apply In_set in Hin as [[_ ->] | []]. simpl. rewrite Qplus_0_l. exact Hprod.
  - rewrite lookup_insert_ne by exact Hne. apply Hdm.
Qed.

Lemma positiveDemand_weekCol row items dm wk :
  (forall item, In item items -> 0 < quantity item) ->
  positiveDemand dm -> positiveDemand (weekColStep row items dm wk).
Proof.
  intros Hitems Hdm. unfold weekColStep.
  destruct (Qle_bool (toNumber (cellAt row (index wk))) 0) eqn:E; [exact Hdm|].
  apply Qle_bool_false in E.
  revert dm Hdm. induction items as [|item items IH]; intros dm Hdm; simpl; [exact Hdm|].
  apply IH.
  - intros it Hin. apply Hitems. right. exact Hin.
  - apply positiveDemand_addDemand; [exact E | apply Hitems; left; reflexivity | exact Hdm].
Qed.

Lemma positiveDemand_row idpIdx weekCols bomHeaders bomRows dm row :
  positiveDemand dm ->
  positiveDemand (idpRowStep idpIdx weekCols (buildBomLookup bomHeaders bomRows) dm row).
Proof.
  intros Hdm. unfold idpRowStep.
  destruct (String.eqb (trimmed (cellAt row idpIdx)) ""); [exact Hdm|].
  fold (lookupItems (buildBomLookup bomHeaders bomRows) (trimmed (cellAt row idpIdx))).
  pose proof (lookupItems_quantity_pos bomHeaders bomRows (trimmed (cellAt row idpIdx)))
    as Hitems.
  revert Hitems.
  generalize (lookupItems (buildBomLookup bomHeaders bomRows) (trimmed (cellAt row idpIdx)))
    as items.
  intros items Hitems. revert dm Hdm.
  induction weekCols as [|wk weekCols IH]; intros dm Hdm; simpl; [exact Hdm|].
  apply IH, positiveDemand_weekCol; assumption.
Qed.

Lemma positiveDemand_build idpHeaders idpRows bomHeaders bomRows selectedWeeks :
  positiveDemand
    (buildProductionDemandMap idpHeaders idpRows bomHeaders bomRows selectedWeeks).
Proof.
  unfold buildProductionDemandMap.
  assert (Hinit : positiveDemand (∅ : gmap string (OMap.t Q))).
  { intros child m w q Hm. rewrite lookup_empty in Hm. discriminate. }
  revert Hinit. generalize (∅ : gmap string (OMap.t Q)) as dm.
  induction idpRows as [|row rows IH]; intros dm Hdm; simpl; [exact Hdm|].
  apply IH, positiveDemand_row, Hdm.
Qed.

(** X14: every quantity that the demand map holds is positive: a child has
    an entry for a period only where a positive production quantity met a
    BOM row with a positive quantity per unit.  Zero and negative plan cells
    and BOM quantities leave no trace. *)
Theorem demand_map_positive (idpHeaders : list cell) (idpRows : Grid)
    (bomHeaders : list cell) (bomRows : Grid) (selectedWeeks : list string) :
  positiveDemand
    (buildProductionDemandMap idpHeaders idpRows bomHeaders bomRows selectedWeeks).
Proof. apply positiveDemand_build. Qed.

Lemma Qsum_Permutation l l' : Permutation l l' -> Qsum l == Qsum l'.
Proof.
  induction 1 as [| x l l' _ IH | x y l | l l' l'' _ IH1 _ IH2]; simpl.
  - reflexivity.
  - rewrite IH. reflexivity.
  - ring.
  - rewrite IH1. exact IH2.
Qed.

Lemma bomEdges_Permutation bomHeaders bomRows bomRows' :
  Permutation bomRows bomRows' ->
  Permutation (bomEdges bomHeaders bomRows) (bomEdges bomHeaders bomRows').
Proof.
  intros Hp. unfold bomEdges. apply Permutation_flat_map. exact Hp.
Qed.


End DemandFacts.

(** ** Loading the documents *)

Section Loading.

Context `{Host}.
Context `{ObjectHost}.

Lemma calculateMrpDataInternal_state inputs st st' a :
  calculateMrpDataInternal inputs st = (st', a) ->
  selectedYear st' = selectedYear st /\ startWeek st' = startWeek st /\
  endWeek st' = endWeek st /\
  match a with
  | CalculationComplete _ _ _ _ _ => exists rows, mrpCalculatedData st' = Some rows
  | DataError _ | ColumnError _ _ => st' = st
  end.
Proof.
  unfold calculateMrpDataInternal.
  destruct (isEmptyDoc (Inputs.bom inputs)).
  { intros [= <- <-]. repeat split. }
  destruct (isEmptyDoc (Inputs.idp inputs)).
  { intros [= <- <-]. repeat split. }
  destruct (isEmptyDoc (Inputs.materialMaster inputs) ||
            isEmptyDoc (Inputs.supplierDetails inputs)).
  { intros [= <- <-]. repeat split. }
  match goal with |- context [if ?b then _ else _] => destruct b end.
  { intros [= <- <-]. repeat split. }
  intros [= <- <-]. repeat split. eexists. reflexivity.
Qed.

Lemma fetchDataSource_Some src p :
  fetchDataSource src = Some p ->
  isEmptyDoc (Some p) = false /\
  (remote src = Some p \/ (remote src = None /\ cached src = Some p)).
Proof.
  unfold fetchDataSource, isEmptyDoc.
  destruct (remote src) as [r|] eqn:Er.
  - destruct (jsonData r) eqn:Ej; [discriminate|]. intros [= <-].
    rewrite Ej. split; [reflexivity | left; reflexivity].
  - destruct (cached src) as [c|] eqn:Ec; [|discriminate].
    destruct (jsonData c) eqn:Ej; [discriminate|]. intros [= <-].
    rewrite Ej. split; [reflexivity | right; split; reflexivity].
Qed.

(** X17: the computation is started only when each of the five documents,
    the week plan included, was loaded and is not empty; it then runs on the
    state with the rows cleared.  So the Data Error dialog of the computation
    never shows on this path, and a week plan is always there. *)
Theorem computation_needs_five_documents (srcs : Sources.t) (st st' : PageState) (a : Alert) :
  fetchAllData srcs st = (st', Calculated a) ->
  exists b mm i sd wp,
    fetchDataSource (Sources.bom srcs) = Some b /\
    fetchDataSource (Sources.materialMaster srcs) = Some mm /\
    fetchDataSource (Sources.idp srcs) = Some i /\
    fetchDataSource (Sources.supplierDetails srcs) = Some sd /\
    fetchDataSource (Sources.weekPlan srcs) = Some wp /\
    calculateMrpDataInternal
      {| Inputs.bom := Some b; Inputs.materialMaster := Some mm; Inputs.idp := Some i;
         Inputs.supplierDetails := Some sd; Inputs.weekPlan := Some wp |} (clearRows st)
    = (st', a) /\
    jsonData wp <> [] /\
    forall text, a <> DataError text.
Proof.
  unfold fetchAllData.
  destruct (fetchDataSource (Sources.bom srcs)) as [b|] eqn:Eb; [|discriminate].
  destruct (fetchDataSource (Sources.materialMaster srcs)) as [mm|] eqn:Em; [|discriminate].
  destruct (fetchDataSource (Sources.idp srcs)) as [i|] eqn:Ei; [|discriminate].
  destruct (fetchDataSource (Sources.supplierDetails srcs)) as [sd|] eqn:Es; [|discriminate].
  destruct (fetchDataSource (Sources.weekPlan srcs)) as [wp|] eqn:Ew; [|discriminate].
  destruct (calculateMrpDataInternal _ (clearRows st)) as [st1 a1] eqn:Ec.
  intros [= <- <-]. exists b, mm, i, sd, wp. repeat split; try reflexivity.
  - exact Ec.
  - apply fetchDataSource_Some in Ew as [Hw _]. unfold isEmptyDoc in Hw.
    destruct (jsonData wp); [discriminate | discriminate].
  - intros text ->. revert Ec. unfold calculateMrpDataInternal. cbn [Inputs.bom Inputs.idp
      Inputs.materialMaster Inputs.supplierDetails].
    apply fetchDataSource_Some in Eb as [-> _]. apply fetchDataSource_Some in Ei as [-> _].
    apply fetchDataSource_Some in Em as [-> _]. apply fetchDataSource_Some in Es as [-> _].
    cbn [orb]. cbv iota.
    match goal with |- context [if ?c then _ else _] => destruct c end; discriminate.
Qed.

Lemma failed_load_state (srcs : Sources.t) (st st' : PageState) (a : FetchAlert) :
  fetchAllData srcs st = (st', a) ->
  selectedYear st' = selectedYear st /\ startWeek st' = startWeek st /\
  endWeek st' = endWeek st /\
  match a with
  | Calculated (CalculationComplete _ _ _ _ _) =>
      exists rows, mrpCalculatedData st' = Some rows
  | _ => st' = clearRows st
  end.
Proof.
  unfold fetchAllData.
  destruct (fetchDataSource (Sources.bom srcs)) as [b|];
    [|intros [= <- <-]; repeat split].
  destruct (fetchDataSource (Sources.materialMaster srcs)) as [mm|];
    [|intros [= <- <-]; repeat split].
  destruct (fetchDataSource (Sources.idp srcs)) as [i|];
    [|intros [= <- <-]; repeat split].
  destruct (fetchDataSource (Sources.supplierDetails srcs)) as [sd|];
    [|intros [= <- <-]; repeat split].
  destruct (fetchDataSource (Sources.weekPlan srcs)) as [wp|];
    [|intros [= <- <-]; repeat split].
  destruct (calculateMrpDataInternal _ (clearRows st)) as [st1 a1] eqn:Ec.
  intros [= <- <-].
  destruct (calculateMrpDataInternal_state _ _ _ _ Ec) as (Hy & Hs & He & Ha).
  repeat split; assumption.
Qed.

(** X18: a run that does not end in the success dialog leaves the page
    without rows: the rows of an earlier run are cleared before the documents
    are loaded and come back only with Calculation Complete.  The selected
    year and the week range are never changed by loading. *)
Theorem failed_run_clears_rows (srcs : Sources.t) (st st' : PageState) (a : FetchAlert) :
  fetchAllData srcs st = (st', a) ->
  selectedYear st' = selectedYear st /\ startWeek st' = startWeek st /\
  endWeek st' = endWeek st /\
  match a with
  | Calculated (CalculationComplete _ _ _ _ _) =>
      exists rows, mrpCalculatedData st' = Some rows
  | _ => mrpCalculatedData st' = None /\ weekColumns st' = weekColumns st /\
         allWeekColumns st' = allWeekColumns st
  end.
Proof.
  intros Hf. destruct (failed_load_state _ _ _ _ Hf) as (Hy & Hs & He & Ha).
  repeat split; try assumption.
  destruct a as [|[text|sheet preview|n1 n2 w1 w2 n3]]; try exact Ha;
    subst st'; repeat split.
Qed.

End Loading.

(** ** The week inputs *)

Section WeekTexts.

Context `{Host}.
Context `{ObjectHost}.

Lemma clampWeek_range v : (1 <= clampWeek v <= 53)%Z.
Proof. unfold clampWeek. lia. Qed.

Lemma parseWeekText_range raw v : parseWeekText raw = Some v -> (1 <= v <= 53)%Z.
Proof.
  unfold parseWeekText. destruct (String.eqb (JS.trim raw) ""); [discriminate|].
  destruct (Number_ (JS.trim raw)); [|discriminate].
  intros [= <-]. apply clampWeek_range.
Qed.


(** X20: pressing Calculate with week texts that are not accepted changes
    nothing: the rows of an earlier run stay on the page.  With accepted
    texts the rows are there afterwards only together with the success
    dialog.  The year and the committed week range are never changed. *)
Theorem calculateMrp_outcomes (startWeekText endWeekText : string) (srcs : Sources.t)
    (st st' : PageState) (a : CalculateAlert) :
  calculateMrp startWeekText endWeekText srcs st = (st', a) ->
  selectedYear st' = selectedYear st /\ startWeek st' = startWeek st /\
  endWeek st' = endWeek st /\
  match a with
  | InvalidWeekRange message =>
      st' = st /\ weekValidation startWeekText endWeekText = (false, message)
  | Fetched (Calculated (CalculationComplete _ _ _ _ _)) =>
      fst (weekValidation startWeekText endWeekText) = true /\
      exists rows, mrpCalculatedData st' = Some rows
  | Fetched _ =>
      fst (weekValidation startWeekText endWeekText) = true /\
      mrpCalculatedData st' = None
  end.
Proof.
  unfold calculateMrp.
  destruct (weekValidation startWeekText endWeekText) as [[|] message] eqn:Ev; simpl negb;
    cbv iota.
  - set (st1 := match allWeekColumns st with
                | [] => st
                | _ => setWeekColumns (selectedWeeksOf st (allWeekColumns st)) st
                end).
    assert (Hst1 : selectedYear st1 = selectedYear st /\ startWeek st1 = startWeek st /\
                   endWeek st1 = endWeek st).
    { unfold st1. destruct (allWeekColumns st); repeat split. }
    destruct Hst1 as (Hy1 & Hs1 & He1).
    destruct (fetchAllData srcs st1) as [st2 fa] eqn:Ef. intros [= <- <-].
    destruct (failed_load_state _ _ _ _ Ef) as (Hy & Hs & He & Ha).
    repeat split; try congruence.
    destruct fa as [|[text|sheet preview|n1 n2 w1 w2 n3]]; simpl; split; try reflexivity;
      try exact Ha; subst st2; reflexivity.
  - intros [= <- <-]. repeat split.
Qed.

End WeekTexts.

(** ** Filters and export *)

Section FiltersAndExport.

Context `{Host}.
Context `{ObjectHost}.

Lemma List_filter_sublist {A} (p : A -> bool) (l : list A) : sublist (List.filter p l) l.
Proof.
  induction l as [|a l IH]; simpl; [constructor|].
  destruct (p a); [apply sublist_skip | apply sublist_cons]; exact IH.
Qed.

Lemma List_filter_sublist_impl {A} (p q : A -> bool) (l : list A) :
  (forall x, In x l -> p x = true -> q x = true) ->
  sublist (List.filter p l) (List.filter q l).
Proof.
  induction l as [|a l IH]; intros Hpq; simpl; [constructor|].
  assert (IH' : sublist (List.filter p l) (List.filter q l)).
  { apply IH. intros x Hx. apply Hpq. right. exact Hx. }
  destruct (p a) eqn:Ep.
  - rewrite (Hpq a (or_introl eq_refl) Ep). apply sublist_skip. exact IH'.
  - destruct (q a); [apply sublist_cons|]; exact IH'.
Qed.

(** The rows left by the search box. *)
Local Abbreviation searched f data :=
  (if String.eqb (searchMaterial f) "" then data%list
   else List.filter (matchesSearch (searchMaterial f)) data%list).

Lemma searched_In f (data : list MrpRow.t) r : In r (searched f data) -> In r data.
Proof.
  destruct (String.eqb (searchMaterial f) ""); [intros Hin; exact Hin|].
  intros [Hin _]%filter_In. exact Hin.
Qed.

Lemma applyFilters_sublist f ws data : sublist (applyFilters f ws data) data.
Proof.
  unfold applyFilters.
  assert (Hs : sublist (searched f data) data).
  { destruct (String.eqb (searchMaterial f) ""); [reflexivity | apply List_filter_sublist]. }
  destruct (dateFilterOn f); [|exact Hs].
  transitivity (searched f data); [apply List_filter_sublist | exact Hs].
Qed.

Lemma dateFilterOn_true f :
  dateFilterOn f = true <-> poDateFrom f <> ""%string /\ poDateTo f <> ""%string.
Proof.
  unfold dateFilterOn. rewrite andb_true_iff, !negb_true_iff, <- !String.eqb_neq.
  reflexivity.
Qed.

(** X21: the rows on display are rows of the computation, in their order;
    without a search text and with one of the two dates left empty they are
    all of them (one date alone filters nothing).  With both dates given,
    every row on display has a PO date, in one of the week columns on
    display, that lies in the range. *)
Theorem filtered_rows_are_computed_rows (f : Filters) (st : PageState)
    (rows : list MrpRow.t) :
  filteredMrpData f st = Some rows ->
  exists data,
    mrpCalculatedData st = Some data /\
    sublist rows data /\
    (searchMaterial f = ""%string ->
     poDateFrom f = ""%string \/ poDateTo f = ""%string -> rows = data) /\
    (poDateFrom f <> ""%string -> poDateTo f <> ""%string ->
     forall r, In r rows ->
       exists w, In w (displayWeekColumns f st) /\ poInRange f r w = true).
Proof.
  unfold filteredMrpData, displayWeekColumns.
  destruct (mrpCalculatedData st) as [data|]; [|discriminate].
  intros [= <-]. exists data. split; [reflexivity|].
  split; [apply applyFilters_sublist|]. split.
  - intros Hs Hd. unfold applyFilters. rewrite Hs. simpl.
    destruct (dateFilterOn f) eqn:E; [|reflexivity].
    apply dateFilterOn_true in E as [Hf Ht]. destruct Hd; contradiction.
  - intros Hf Ht r Hr.
    assert (E : dateFilterOn f = true) by (apply dateFilterOn_true; split; assumption).
    unfold applyFilters in Hr. rewrite E in *.
    apply filter_In in Hr as [Hr Hex]. apply existsb_exists in Hex as (w & Hw & Hin).
    exists w. split; [|exact Hin].
    apply filter_In. split; [exact Hw|].
    apply existsb_exists. exists r. split; [exact (searched_In _ _ _ Hr) | exact Hin].
Qed.

Lemma length_exportHeaders displayWeeks :
  List.length (exportHeaders displayWeeks) = (11 + 2 * List.length displayWeeks)%nat.
Proof.
  unfold exportHeaders. rewrite length_map, length_app. simpl List.length at 1.
  f_equal. induction displayWeeks as [|w ws IH]; simpl; [reflexivity | rewrite IH; lia].
Qed.

Lemma length_exportRow displayWeeks idx item :
  List.length (exportRow displayWeeks idx item) = (11 + 2 * List.length displayWeeks)%nat.
Proof.
  unfold exportRow. rewrite length_app. simpl List.length at 1.
  f_equal. induction displayWeeks as [|w ws IH]; simpl; [reflexivity | rewrite IH; lia].
Qed.

Lemma exportRowsFrom_spec displayWeeks items idx :
  List.length (exportRowsFrom displayWeeks idx items) = List.length items /\
  forall i r, nth_error (exportRowsFrom displayWeeks idx items) i = Some r ->
    exists item, nth_error items i = Some item /\ r = exportRow displayWeeks (idx + i) item.
Proof.
  revert idx. induction items as [|item items IH]; intros idx; simpl.
  - split; [reflexivity|]. intros [|i] r; discriminate.
  - destruct (IH (S idx)) as [Hl Hn]. split; [rewrite Hl; reflexivity|].
    intros [|i] r; simpl.
    + intros [= <-]. exists item. rewrite Nat.add_0_r. split; reflexivity.
    + intros Hr. destruct (Hn i r Hr) as (it & Hit & ->). exists it.
      split; [exact Hit|]. f_equal. lia.
Qed.

(** X22: the exported sheet is a rectangle: a header row and one row per
    row on display, each of 11 cells plus two per exported week; the first
    cell of a data row is its serial number, counted from 1 over the rows on
    display, and the second its material.  Nothing is exported when no row is
    left. *)
Theorem export_sheet_shape (f : Filters) (st : PageState) (aoa : Grid) :
  exportToExcel f st = Exported aoa ->
  exists data rows,
    mrpCalculatedData st = Some data /\
    aoa = exportHeaders (exportWeeks f st data) :: rows /\
    rows <> [] /\
    List.length rows = List.length (applyFilters f (weekColumns st) data) /\
    Forall (fun r => List.length r = (11 + 2 * List.length (exportWeeks f st data))%nat) aoa /\
    forall i r, nth_error rows i = Some r ->
      exists item,
        nth_error (applyFilters f (weekColumns st) data) i = Some item /\
        nth_error r 0 = Some (CNum (inject_Z (Z.of_nat i + 1))) /\
        nth_error r 1 = Some (CStr (MrpRow.material item)).
Proof.
  unfold exportToExcel.
  destruct (mrpCalculatedData st) as [data|]; [|discriminate].
  destruct data as [|d0 data]; [discriminate|].
  set (all := d0 :: data).
  destruct (applyFilters f (weekColumns st) all) as [|r0 rs] eqn:Ef; [discriminate|].
  intros [= <-].
  destruct (exportRowsFrom_spec (exportWeeks f st all) (r0 :: rs) 0) as [Hl Hn].
  exists all, (exportRowsFrom (exportWeeks f st all) 0 (r0 :: rs)).
  rewrite Ef.
  split; [reflexivity|]. split; [reflexivity|]. split; [discriminate|].
  split; [exact Hl|]. split.
  - constructor; [apply length_exportHeaders|].
    apply List.Forall_forall. intros r Hr.
    apply In_nth_error in Hr as (i & Hi). destruct (Hn i r Hi) as (item & _ & ->).
    apply length_exportRow.
  - intros i r Hi. destruct (Hn i r Hi) as (item & Hitem & ->).
    exists item. split; [exact Hitem|]. split; reflexivity.
Qed.

Lemma matchingWeeks_In f ws items w :
  In w (matchingWeeks f ws items) ->
  exists item, In item items /\ In w ws /\ poInRange f item w = true.
Proof.
  unfold matchingWeeks, firstWeekInRange. rewrite in_flat_map.
  intros (item & Hitem & Hw). exists item. split; [exact Hitem|].
  destruct (List.find (poInRange f item) ws) as [w'|] eqn:E; [|contradiction].
  destruct Hw as [<- | []]. exact (find_some _ _ E).
Qed.

Lemma matchingWeeks_nil f ws items :
  matchingWeeks f ws items = [] ->
  List.filter (fun item => existsb (poInRange f item) ws) items = [].
Proof.
  unfold matchingWeeks, firstWeekInRange.
  induction items as [|item items IH]; simpl; [reflexivity|].
  destruct (List.find (poInRange f item) ws) as [w|] eqn:E; [discriminate|].
  simpl. intros Hm.
  assert (Hex : existsb (poInRange f item) ws = false).
  { destruct (existsb (poInRange f item) ws) eqn:Ex; [|reflexivity].
    apply existsb_exists in Ex as (w & Hw & Hp).
    rewrite (find_none _ _ E w Hw) in Hp. discriminate. }
  rewrite Hex. exact (IH Hm).
Qed.

(** X23: every week column of the exported sheet is a week column on
    display, in the same order.  (The export keeps, for each row, only the
    first week whose PO date is in range, so it can show fewer week columns
    than the page.) *)
Theorem exported_weeks_are_displayed (f : Filters) (st : PageState) (aoa : Grid)
    (data : list MrpRow.t) :
  exportToExcel f st = Exported aoa ->
  mrpCalculatedData st = Some data ->
  sublist (exportWeeks f st data) (displayWeekColumns f st) /\
  sublist (displayWeekColumns f st) (weekColumns st).
Proof.
  intros Hexp Hdata. unfold displayWeekColumns, exportWeeks. rewrite Hdata.
  destruct (dateFilterOn f) eqn:E; [|split; reflexivity].
  split; [|apply List_filter_sublist].
  destruct (matchingWeeks f (weekColumns st) (searched f data)) as [|m ms] eqn:Em.
  - exfalso. revert Hexp. unfold exportToExcel. rewrite Hdata.
    destruct data as [|d0 data]; [discriminate|].
    unfold applyFilters. rewrite E. rewrite (matchingWeeks_nil _ _ _ Em). discriminate.
  - rewrite <- Em. apply List_filter_sublist_impl. intros w Hw Hin.
    apply existsb_exists in Hin as (w' & Hw' & Heq). apply String.eqb_eq in Heq. subst w'.
    apply matchingWeeks_In in Hw' as (item & Hitem & _ & Hp).
    apply existsb_exists. exists item. split; [exact (searched_In _ _ _ Hitem) | exact Hp].
Qed.

End FiltersAndExport.

(** ** Texts *)

Section Texts.

Context `{Host}.
Context `{ObjectHost}.

Local Abbreviation chars := list_ascii_of_string.

Lemma chars_app (a b : string) : chars (a ++ b)%string = chars a ++ chars b.
Proof. induction a as [|c a IH]; simpl; [reflexivity | rewrite IH; reflexivity]. Qed.

(** *** Header normalisation *)

Lemma toLowerChar_idem c : JS.toLowerChar (JS.toLowerChar c) = JS.toLowerChar c.
Proof. destruct c as [[] [] [] [] [] [] [] []]; vm_compute; reflexivity. Qed.

Lemma space_facts :
  JS.isWhiteSpace " " = true /\ JS.toLowerChar " " = " "%char /\
  JS.isWhiteSpace "_" = false.
Proof. repeat split. Qed.

Lemma replaceSpaceRuns_chars inRun s :
  Forall (fun c => c = " "%char \/ (JS.isWhiteSpace c = false /\ JS.toLowerChar c = c))
    (chars (JS.replaceSpaceRuns inRun (JS.toLowerCase s))).
Proof.
  revert inRun. induction s as [|c s IH]; intros inRun; simpl; [constructor|].
  destruct (JS.isWhiteSpace (JS.toLowerChar c)) eqn:E.
  - destruct inRun; [apply IH|]. simpl. constructor; [left; reflexivity | apply IH].
  - simpl. constructor; [|apply IH]. right. split; [exact E | apply toLowerChar_idem].
Qed.

(** X24: a normalised header holds no underscore and no capital letter, and
    its only white space is the plain space: tabs, line breaks and no-break
    spaces have become spaces. *)
Theorem normalizeHeaderValue_alphabet (v : cell) :
  Forall
    (fun c => c <> "_"%char /\ (JS.isWhiteSpace c = false \/ c = " "%char) /\
              JS.toLowerChar c = c)
    (chars (normalizeHeaderValue v)).
Proof.
  unfold normalizeHeaderValue.
  pose proof (replaceSpaceRuns_chars false (JS.trim (String_ v))) as Hs.
  induction (JS.replaceSpaceRuns false (JS.toLowerCase (JS.trim (String_ v))))
    as [|c s IH]; simpl; [constructor|].
  inversion Hs as [|? ? Hc Hs']; subst. constructor; [|exact (IH Hs')].
  destruct (Ascii.eqb_spec c "_") as [-> | Hne].
  - repeat split; [discriminate | right; reflexivity].
  - destruct Hc as [-> | [Hw Hl]].
    + repeat split; [discriminate | right; reflexivity].
    + repeat split; [exact Hne | left; exact Hw | exact Hl].
Qed.

(** *** Reading numbers *)


(** *** Escaping *)

Lemma replaceAllWith_chars from to s c :
  In c (chars (JSStr.replaceAllWith from to s)) ->
  In c (chars to) \/ (c <> from /\ In c (chars s)).
Proof.
  induction s as [|b s IH]; simpl; [intros []|].
  destruct (Ascii.eqb_spec b from) as [-> | Hne].
  - rewrite chars_app, in_app_iff. intros [Hto | Hin]; [left; exact Hto|].
    destruct (IH Hin) as [Hto | [Hc Hs]]; [left; exact Hto | right].
    split; [exact Hc | right; exact Hs].
  - simpl. intros [<- | Hin]; [right; split; [exact Hne | left; reflexivity]|].
    destruct (IH Hin) as [Hto | [Hc Hs]]; [left; exact Hto | right].
    split; [exact Hc | right; exact Hs].
Qed.

Lemma replaceAllWith_absent from to s :
  ~ In from (chars s) -> JSStr.replaceAllWith from to s = s.
Proof.
  induction s as [|b s IH]; simpl; [reflexivity|]. intros Hn.
  destruct (Ascii.eqb_spec b from) as [-> | Hne]; [exfalso; apply Hn; left; reflexivity|].
  rewrite IH; [reflexivity|]. intros Hin. apply Hn. right. exact Hin.
Qed.

Lemma isHtmlSpecial_false c :
  isHtmlSpecial c = false ->
  c <> "&"%char /\ c <> "<"%char /\ c <> ">"%char /\ c <> JSStr.doubleQuote /\ c <> "'"%char.
Proof.
  unfold isHtmlSpecial. rewrite !orb_false_iff.
  intros ((((H1 & H2) & H3) & H4) & H5).
  repeat split; intros ->; rewrite Ascii.eqb_refl in *; discriminate.
Qed.

(** X26: an escaped text holds none of the characters [<], [>], double
    quote and apostrophe, and a text without the five special characters is
    left as it is. *)
Theorem escapeHtml_no_markup (v : cell) :
  Forall
    (fun c => c <> "<"%char /\ c <> ">"%char /\ c <> JSStr.doubleQuote /\ c <> "'"%char)
    (chars (escapeHtml v)) /\
  (forallb (fun c => negb (isHtmlSpecial c)) (chars (String_ v)) = true ->
   escapeHtml v = String_ v).
Proof.
  split.
  - apply List.Forall_forall. intros c Hc. unfold escapeHtml in Hc.
    apply replaceAllWith_chars in Hc as [Hc | [N1 Hc]].
    { simpl in Hc. repeat (destruct Hc as [<- | Hc]; [repeat split; discriminate|]).
      contradiction. }
    apply replaceAllWith_chars in Hc as [Hc | [N2 Hc]].
    { simpl in Hc. repeat (destruct Hc as [<- | Hc]; [repeat split; discriminate|]).
      contradiction. }
    apply replaceAllWith_chars in Hc as [Hc | [N3 Hc]].
    { simpl in Hc. repeat (destruct Hc as [<- | Hc]; [repeat split; discriminate|]).
      contradiction. }
    apply replaceAllWith_chars in Hc as [Hc | [N4 Hc]].
    { simpl in Hc. repeat (destruct Hc as [<- | Hc]; [repeat split; discriminate|]).
      contradiction. }
    repeat split; assumption.
  - intros Hplain. rewrite forallb_forall in Hplain.
    assert (Hno : forall c, isHtmlSpecial c = true -> ~ In c (chars (String_ v))).
    { intros c Hs Hin. apply Hplain in Hin. rewrite Hs in Hin. discriminate. }
    unfold escapeHtml.
    rewrite (replaceAllWith_absent "&") by (apply Hno; reflexivity).
    rewrite (replaceAllWith_absent "<") by (apply Hno; reflexivity).
    rewrite (replaceAllWith_absent ">") by (apply Hno; reflexivity).
    rewrite (replaceAllWith_absent JSStr.doubleQuote) by (apply Hno; reflexivity).
    rewrite (replaceAllWith_absent "'") by (apply Hno; reflexivity).
    reflexivity.
Qed.

End Texts.

(** ** PO date texts *)

Section PoDateTexts.

Context `{Host}.
Context `{ObjectHost}.

Local Open Scope Z_scope.

Lemma range_forallb (p : Z -> bool) (lo n : Z) :
  forallb (fun k => p (lo + Z.of_nat k)) (List.seq 0 (Z.to_nat n)) = true ->
  forall z, lo <= z < lo + n -> p z = true.
Proof.
  intros Hall z Hz. rewrite forallb_forall in Hall.
  specialize (Hall (Z.to_nat (z - lo))).
  replace (lo + Z.of_nat (Z.to_nat (z - lo))) with z in Hall by lia.
  apply Hall. apply List.in_seq. lia.
Qed.

Lemma split_nonempty sep s : JS.split sep s <> [].
Proof.
  destruct s as [|c s]; simpl; [discriminate|].
  destruct (Ascii.eqb c sep); [discriminate|].
  destruct (JS.split sep s); discriminate.
Qed.

Lemma split_app sep (a b : string) :
  JS.split sep (a ++ String sep b)%string = (JS.split sep a ++ JS.split sep b)%list.
Proof.
  induction a as [|c a IH]; simpl; [rewrite Ascii.eqb_refl; reflexivity|].
  destruct (Ascii.eqb c sep); [rewrite IH; reflexivity|].
  rewrite IH. pose proof (split_nonempty sep a) as Hne.
  destruct (JS.split sep a) as [|h t]; [contradiction | reflexivity].
Qed.

Lemma split_absent sep s : JSStr.indexOf sep s = None -> JS.split sep s = [s].
Proof.
  induction s as [|c s IH]; simpl; [reflexivity|].
  destruct (Ascii.eqb c sep); [discriminate|].
  destruct (JSStr.indexOf sep s); [discriminate|]. intros _.
  rewrite IH by reflexivity. reflexivity.
Qed.

(** The parts of a PO date text. *)
Lemma split_po_text (day month year : string) :
  JSStr.indexOf "-" day = None -> JSStr.indexOf "-" month = None ->
  JSStr.indexOf "-" year = None ->
  JS.split "-" (day ++ "-" ++ month ++ "-" ++ year)%string = [day; month; year].
Proof.
  intros Hd Hm Hy.
  change (day ++ "-" ++ month ++ "-" ++ year)%string
    with (day ++ String "-" (month ++ String "-" year))%string.
  rewrite !split_app, !split_absent by assumption. reflexivity.
Qed.

Lemma year_length y :
  JSDate.DayFromYear (y + 1) = JSDate.DayFromYear y + 365 + JSDate.InLeapYear y.
Proof.
  unfold JSDate.DayFromYear, JSDate.InLeapYear.
  destruct (Z.eqb_spec (y mod 4) 0) as [H4 | H4];
    destruct (Z.eqb_spec (y mod 100) 0) as [H100 | H100];
    destruct (Z.eqb_spec (y mod 400) 0) as [H400 | H400]; simpl;
    Z.div_mod_to_equations; lia.
Qed.

Lemma InLeapYear_range y : 0 <= JSDate.InLeapYear y <= 1.
Proof. unfold JSDate.InLeapYear. destruct (_ && _); lia. Qed.

Lemma DateFromDay_range d : 1 <= JSDate.DateFromDay d <= 31.
Proof.
  pose proof (YearFromDay_spec d) as Hy. rewrite year_length in Hy.
  pose proof (InLeapYear_range (JSDate.YearFromDay d)) as Hl.
  unfold JSDate.DateFromDay, JSDate.MonthFromDay.
  set (y := JSDate.YearFromDay d) in *. set (leap := JSDate.InLeapYear y) in *.
  repeat match goal with
         | |- context [if ?b <? ?c then _ else _] => destruct (Z.ltb_spec b c)
         end; simpl JSDate.monthStart; lia.
Qed.

Lemma dayTextOk_all d : 1 <= d <= 31 -> dayTextOk d = true.
Proof.
  intros Hd. apply (range_forallb dayTextOk 1 31); [vm_compute; reflexivity | lia].
Qed.

Lemma monthTextOk_all m : 0 <= m <= 11 -> monthTextOk m = true.
Proof.
  intros Hm. apply (range_forallb monthTextOk 0 12); [vm_compute; reflexivity | lia].
Qed.

Lemma yearTextOk_all y : 1000 <= y <= 9999 -> yearTextOk y = true.
Proof.
  intros Hy. apply (range_forallb yearTextOk 1000 9000); [vm_compute; reflexivity | lia].
Qed.

(** X27: the PO date text of a valid date in a four-digit year reads back
    as the ISO text of the same day and month in the years 2000 to 2099: the
    text keeps the last two digits of the year and reading puts 20 before
    them.  So a date of 2000 to 2099 reads back as itself, and 1999 as
    2099. *)
Theorem po_date_text_reads_back (x : Q) :
  1000 <= JSDate.getFullYear x <= 9999 ->
  parsePoDateToIso (formatPoDate (Some x)) =
  Some (isoDate (2000 + JSDate.getFullYear x mod 100) (JSDate.getMonth x + 1)
          (JSDate.getDate x)).
Proof.
  intros Hy. unfold formatPoDate.
  pose proof (dayTextOk_all _ (DateFromDay_range (Qfloor x))) as Hday.
  pose proof (monthTextOk_all _ (MonthFromDay_range (Qfloor x))) as Hmonth.
  pose proof (yearTextOk_all _ Hy) as Hyear.
  unfold JSDate.getDate, JSDate.getMonth, JSDate.getFullYear in *.
  unfold dayTextOk in Hday. unfold monthTextOk in Hmonth. unfold yearTextOk in Hyear.
  set (day := JS.padStart2 (JS.stringOfZ (JSDate.DateFromDay (Qfloor x)))) in *.
  set (month := nth (Z.to_nat (JSDate.MonthFromDay (Qfloor x))) months "undefined"%string)
    in *.
  set (year := JS.sliceLast2 (JS.stringOfZ (JSDate.YearFromDay (Qfloor x)))) in *.
  apply andb_prop in Hday as [Hd1 Hd2].
  apply andb_prop in Hmonth as [Hm1 Hm2].
  apply andb_prop in Hyear as [Hyear Hy4]. apply andb_prop in Hyear as [Hyear Hy3].
  apply andb_prop in Hyear as [Hy1 Hy2].
  destruct (JSStr.indexOf "-" day) eqn:Ed; [discriminate|].
  destruct (JSStr.indexOf "-" month) eqn:Em; [discriminate|].
  destruct (JSStr.indexOf "-" year) eqn:Ey; [discriminate|].
  destruct (monthMap month) as [mm|] eqn:Emm; [|discriminate].
  apply String.eqb_eq in Hd2, Hm2, Hy3. apply Nat.eqb_eq in Hy2, Hy4.
  unfold parsePoDateToIso.
  assert (Hne : (day ++ "-" ++ month ++ "-" ++ year)%string <> ""%string).
  { intros E. apply (f_equal (JS.split "-")) in E.
    rewrite split_po_text in E by assumption. discriminate. }
  assert (Hnd : (day ++ "-" ++ month ++ "-" ++ year)%string <> "-"%string).
  { intros E. apply (f_equal (JS.split "-")) in E.
    rewrite split_po_text in E by assumption. discriminate. }
  apply String.eqb_neq in Hne, Hnd. rewrite Hne, Hnd. simpl orb. cbv iota.
  rewrite split_po_text by assumption. rewrite Emm, Hy2, Nat.eqb_refl, Hy4, Nat.eqb_refl.
  unfold isoDate. rewrite Hd2, Hm2, Hy3. reflexivity.
Qed.

Local Open Scope Q_scope.


End PoDateTexts.

(** ** File records *)

Section FileRecords.

Lemma substring_all (s : string) : substring 0 (String.length s) s = s.
Proof. induction s as [|c s IH]; simpl; [reflexivity | f_equal; exact IH]. Qed.

Lemma sliceFrom_0 (s : string) : JSStr.sliceFrom 0 s = s.
Proof. unfold JSStr.sliceFrom. rewrite Nat.sub_0_r. apply substring_all. Qed.

Lemma prefix_split (p s : string) :
  String.prefix p s = true ->
  s = (p ++ JSStr.sliceFrom (String.length p) s)%string.
Proof.
  revert s. induction p as [|c p IH]; intros s; simpl.
  - intros _. unfold JSStr.sliceFrom. rewrite Nat.sub_0_r, substring_all. reflexivity.
  - destruct s as [|b s]; [discriminate|].
    change (JSStr.sliceFrom (S (String.length p)) (String b s))
      with (JSStr.sliceFrom (String.length p) s).
    cbn [String.prefix].
    destruct (ascii_dec c b) as [-> | Hne]; [|discriminate].
    intros Hp.
    change (String b s = String b (p ++ JSStr.sliceFrom (String.length p) s)%string).
    f_equal. exact (IH s Hp).
Qed.

Lemma prefix_app_true (p r : string) : String.prefix p (p ++ r)%string = true.
Proof.
  induction p as [|c p IH]; simpl; [destruct r; reflexivity|].
  destruct (ascii_dec c c) as [_ | Hne]; [exact IH | contradiction].
Qed.

Lemma sliceFrom_app (p r : string) : JSStr.sliceFrom (String.length p) (p ++ r)%string = r.
Proof.
  induction p as [|c p IH]; simpl.
  - unfold JSStr.sliceFrom. rewrite Nat.sub_0_r. apply substring_all.
  - exact IH.
Qed.

Lemma sliceTo_app (p r : string) : JSStr.sliceTo (String.length p) (p ++ r)%string = p.
Proof.
  unfold JSStr.sliceTo. induction p as [|c p IH]; simpl.
  - destruct r; reflexivity.
  - f_equal. exact IH.
Qed.

Lemma indexOf_Some c s n :
  JSStr.indexOf c s = Some n ->
  s = (JSStr.sliceTo n s ++ String c (JSStr.sliceFrom (S n) s))%string /\
  JSStr.indexOf c (JSStr.sliceTo n s) = None.
Proof.
  revert n. induction s as [|b s IH]; intros n; simpl; [discriminate|].
  destruct (Ascii.eqb_spec b c) as [-> | Hne].
  - intros [= <-]. split; [|reflexivity].
    change (JSStr.sliceFrom 1 (String c s)) with (JSStr.sliceFrom 0 s).
    rewrite sliceFrom_0. reflexivity.
  - destruct (JSStr.indexOf c s) as [k|]; [|discriminate]. intros [= <-].
    destruct (IH k eq_refl) as [Hs Hn]. split.
    + change (JSStr.sliceTo (S k) (String b s)) with (String b (JSStr.sliceTo k s)).
      change (JSStr.sliceFrom (S (S k)) (String b s)) with (JSStr.sliceFrom (S k) s).
      change (String b s =
              String b (JSStr.sliceTo k s ++ String c (JSStr.sliceFrom (S k) s))%string).
      f_equal. exact Hs.
    + change (JSStr.sliceTo (S k) (String b s)) with (String b (JSStr.sliceTo k s)).
      simpl. rewrite (proj2 (Ascii.eqb_neq _ _) Hne), Hn. reflexivity.
Qed.

Lemma indexOf_app c (a b : string) :
  JSStr.indexOf c a = None ->
  JSStr.indexOf c (a ++ String c b)%string = Some (String.length a).
Proof.
  induction a as [|x a IH]; simpl; [rewrite Ascii.eqb_refl; reflexivity|].
  destruct (Ascii.eqb x c); [discriminate|].
  destruct (JSStr.indexOf c a); [discriminate|]. intros _.
  rewrite IH by reflexivity. reflexivity.
Qed.

Lemma sliceFrom_S_app c (a b : string) :
  JSStr.sliceFrom (S (String.length a)) (a ++ String c b)%string = b.
Proof.
  induction a as [|x a IH].
  - change (JSStr.sliceFrom 0 b = b). apply sliceFrom_0.
  - change (JSStr.sliceFrom (S (String.length a)) (a ++ String c b)%string = b). exact IH.
Qed.

(** X29: a path is split into bucket and key exactly when, white space at
    its ends apart, it reads [s3://], the bucket, a slash and the key, the
    bucket holding no slash: the first slash after the scheme ends the
    bucket, and bucket or key may be empty. *)
Theorem parseS3Path_parts (s3Path bucket key : string) :
  parseS3Path s3Path = Some (bucket, key) <->
  JS.trim s3Path = ("s3://" ++ bucket ++ "/" ++ key)%string /\
  JSStr.indexOf "/" bucket = None.
Proof.
  unfold parseS3Path, JSStr.startsWith. split.
  - destruct (String.prefix "s3://" (JS.trim s3Path)) eqn:Ep; [|discriminate].
    simpl negb. cbv iota. apply prefix_split in Ep.
    change (String.length "s3://") with 5%nat in Ep.
    destruct (JSStr.indexOf "/" (JSStr.sliceFrom 5 (JS.trim s3Path))) as [n|] eqn:Ei;
      [|discriminate].
    intros [= <- <-]. destruct (indexOf_Some _ _ _ Ei) as [Hs Hn].
    split; [|exact Hn]. rewrite Ep at 1. f_equal. exact Hs.
  - intros [Ht Hb]. rewrite Ht.
    rewrite prefix_app_true. simpl negb. cbv iota.
    change 5%nat with (String.length "s3://").
    rewrite sliceFrom_app.
    change (bucket ++ "/" ++ key)%string with (bucket ++ String "/" key)%string.
    rewrite indexOf_app by exact Hb.
    rewrite sliceTo_app, sliceFrom_S_app. reflexivity.
Qed.

Lemma split_parts_no_sep sep s :
  Forall (fun part => JSStr.indexOf sep part = None) (JS.split sep s).
Proof.
  induction s as [|c s IH]; simpl; [repeat constructor|].
  destruct (Ascii.eqb_spec c sep) as [-> | Hne]; [constructor; [reflexivity | exact IH]|].
  destruct (JS.split sep s) as [|h t]; [repeat constructor; simpl|].
  - rewrite (proj2 (Ascii.eqb_neq _ _) Hne). reflexivity.
  - inversion IH as [|? ? Hh Ht]; subst. constructor; [|exact Ht].
    simpl. rewrite (proj2 (Ascii.eqb_neq _ _) Hne), Hh. reflexivity.
Qed.

Lemma last_Forall {A} (P : A -> Prop) (l : list A) (d : A) :
  Forall P l -> P d -> P (List.last l d).
Proof.
  intros Hl Hd. induction Hl as [|a l Ha Hl IH]; [exact Hd|].
  rewrite last_cons_default. clear IH Hd. revert a Ha.
  induction Hl as [|b l Hb Hl IH]; intros a Ha; [exact Ha|].
  rewrite last_cons_default. exact (IH b Hb).
Qed.

(** X30: the file name of a key is its last segment that is not empty: it
    never holds a slash, a slash at the end of the key is ignored, and after
    any folder path a name without slash is returned as it is. *)
Theorem fileNameFromKey_last_segment (key name : string) :
  JSStr.indexOf "/" (fileNameFromKey key) = None /\
  fileNameFromKey (key ++ "/")%string = fileNameFromKey key /\
  (JSStr.indexOf "/" name = None -> name <> ""%string ->
   fileNameFromKey (key ++ "/" ++ name)%string = name /\ fileNameFromKey name = name).
Proof.
  unfold fileNameFromKey. split; [|split].
  - apply last_Forall; [|reflexivity].
    apply List.Forall_forall. intros part [Hin _]%filter_In.
    exact (proj1 (List.Forall_forall _ _) (split_parts_no_sep "/" key) part Hin).
  - change (key ++ "/")%string with (key ++ String "/" "")%string.
    rewrite split_app, List.filter_app. simpl. rewrite app_nil_r. reflexivity.
  - intros Hn Hne. apply String.eqb_neq in Hne.
    change (key ++ "/" ++ name)%string with (key ++ String "/" name)%string.
    rewrite split_app, List.filter_app, (split_absent "/" name) by exact Hn.
    simpl. rewrite Hne. simpl. split; [apply last_last | reflexivity].
Qed.

End FileRecords.

(** ** Materials without master data *)

Section NoMasterData.

Context `{Host}.

Local Open Scope Q_scope.

Lemma lot_for_lot_step sdInfo selectedWeeks weekPlan st e :
  0 < snd e -> remainingExcess st = 0 -> weeklyMrpQty st = weeklyDemand st ->
  remainingExcess (weekStep noMaterialInfo sdInfo selectedWeeks weekPlan st e) = 0 /\
  weeklyMrpQty (weekStep noMaterialInfo sdInfo selectedWeeks weekPlan st e) =
  weeklyDemand (weekStep noMaterialInfo sdInfo selectedWeeks weekPlan st e).
Proof.
  intros Hq Hrem Heq. unfold weekStep, netAndSize, netExcess, lotSize. rewrite Hrem.
  pose proof (proj2 (Qltb_true _ _) Hq) as Hpos. rewrite Hpos.
  change (Qltb 0 0) with false. cbv iota.
  change (reorder noMaterialInfo) with 0. change (moq noMaterialInfo) with 0.
  change (mpq noMaterialInfo) with 0. rewrite Hpos.
  change (Qltb 0 0) with false. cbv iota.
  assert (Hneg : Qltb (snd e) 0 = false) by (apply Qltb_false, Qlt_le_weak, Hq).
  rewrite Hneg. simpl. rewrite Heq. split; reflexivity.
Qed.

Lemma lot_for_lot_fold sdInfo selectedWeeks weekPlan l st :
  Forall (fun e : string * Q => 0 < snd e) l ->
  remainingExcess st = 0 -> weeklyMrpQty st = weeklyDemand st ->
  weeklyMrpQty (fold_left (weekStep noMaterialInfo sdInfo selectedWeeks weekPlan) l st) =
  weeklyDemand (fold_left (weekStep noMaterialInfo sdInfo selectedWeeks weekPlan) l st).
Proof.
  intros Hl. revert st. induction Hl as [|e l He Hl IH]; intros st Hrem Heq; [exact Heq|].
  simpl. destruct (lot_for_lot_step sdInfo selectedWeeks weekPlan st e He Hrem Heq)
    as [Hrem' Heq'].
  apply IH; assumption.
Qed.

(** X16: a child part that the material master does not list is planned
    lot for lot: its policy and its stock read 0, and the quantity to order
    in each period is the demand of the period. *)
Theorem material_without_master_lot_for_lot (inputs : Inputs.t) (st : PageState)
    (material : string) :
  materialMasterMapOf inputs !! material = None ->
  MrpRow.weeklyMrpQty (rowOf inputs st material) =
  MrpRow.weeklyDemand (rowOf inputs st material) /\
  MrpRow.mpq (rowOf inputs st material) = 0 /\
  MrpRow.moq (rowOf inputs st material) = 0 /\
  MrpRow.reorder (rowOf inputs st material) = 0 /\
  MrpRow.instock (rowOf inputs st material) = 0 /\
  MrpRow.pendingPo (rowOf inputs st material) = 0 /\
  MrpRow.excessQty (rowOf inputs st material) = 0.
Proof.
  intros Hnone.
  assert (Hinfo : mmInfoOf inputs material = noMaterialInfo).
  { unfold mmInfoOf. rewrite Hnone. reflexivity. }
  split.
  - destruct (rowOf_loop inputs st material) as (_ & -> & -> & _).
    rewrite Hinfo. unfold weekLoop. apply lot_for_lot_fold; [|reflexivity|reflexivity].
    apply List.Forall_forall. intros [w q] Hin. simpl.
    unfold demandByWeekOf in Hin.
    destruct (demandMapOf inputs st !! material) as [m|] eqn:Em; [|contradiction].
    exact (positiveDemand_build _ _ _ _ _ _ _ _ _ Em Hin).
  - unfold rowOf, mrpRowOf. rewrite Hnone. repeat split.
Qed.

End NoMasterData.

(** ** Instances on the sample documents *)

Section FurtherExamples.

Local Open Scope Q_scope.




Lemma po_date_shown_iff_order_witness :
  exists rows,
    mrpCalculatedData sampleState = Some rows /\
    forall row w q, In row rows ->
      OMap.get (MrpRow.weeklyMrpQty row) w = Some q ->
      exists d, OMap.get (MrpRow.weeklyPoDate row) w = Some d /\
                (d = "-"%string <-> q <= 0).
Proof.
  apply (@po_date_shown_iff_order plainHost sampleInputs emptyState sampleState
           3%nat 2%nat 1%Z 20%Z 2%nat).
  vm_compute. reflexivity.
Defined.

Lemma weekly_maps_share_periods_witness :
  exists rows,
    mrpCalculatedData sampleState = Some rows /\
    forall row, In row rows ->
      MrpRow.weeklyDemand row =
      @demandByWeekOf plainHost sampleInputs emptyState (MrpRow.material row) /\
      OMap.keys (MrpRow.weeklyMrpQty row) = OMap.keys (MrpRow.weeklyDemand row) /\
      OMap.keys (MrpRow.weeklyPoDate row) = OMap.keys (MrpRow.weeklyDemand row) /\
      List.NoDup (OMap.keys (MrpRow.weeklyDemand row)).
Proof.
  apply (@weekly_maps_share_periods plainHost sampleInputs emptyState sampleState
           3%nat 2%nat 1%Z 20%Z 2%nat).
  vm_compute. reflexivity.
Defined.


Lemma one_row_per_child_part_witness :
  exists rows,
    mrpCalculatedData sampleState = Some rows /\
    List.map MrpRow.material rows = JS.unique (@childPartsOf plainHost sampleInputs) /\
    List.NoDup (List.map MrpRow.material rows) /\
    List.length rows = 3%nat /\
    forall material,
      In material (List.map MrpRow.material rows) <->
      material <> ""%string /\
      exists r, In r (@bomRowsOf plainHost sampleInputs) /\
                @trimmed plainHost (cellAt r (@childPartIdxOf plainHost sampleInputs))
                = material.
Proof.
  apply (@one_row_per_child_part plainHost sampleInputs emptyState sampleState
           3%nat 2%nat 1%Z 20%Z 2%nat).
  vm_compute. reflexivity.
Defined.

Lemma success_state_consistent_witness :
  (forall w, In w (allWeekColumns sampleState) -> JS.isPeriod w = true) /\
  weekColumns sampleState = @selectedWeeksOf plainHost sampleState (allWeekColumns sampleState) /\
  (forall w, In w (weekColumns sampleState) -> In w (allWeekColumns sampleState)) /\
  selectedYear sampleState = selectedYear emptyState /\
  startWeek sampleState = startWeek emptyState /\
  endWeek sampleState = endWeek emptyState /\
  2%nat = List.length (weekColumns sampleState) /\ 1%Z = startWeek emptyState /\
  20%Z = endWeek emptyState /\
  exists rows, mrpCalculatedData sampleState = Some rows /\ 3%nat = List.length rows.
Proof.
  apply (@success_state_consistent plainHost sampleInputs emptyState sampleState
           3%nat 2%nat 1%Z 20%Z 2%nat).
  vm_compute. reflexivity.
Defined.

Lemma no_selected_week_no_demand_witness :
  exists rows,
    mrpCalculatedData (fst (@calculateMrpDataInternal plainHost sampleInputs otherYearState))
    = Some rows /\
    forall row, In row rows ->
      MrpRow.totalDemand row = 0 /\ MrpRow.weeklyDemand row = [] /\
      MrpRow.weeklyMrpQty row = [] /\ MrpRow.weeklyPoDate row = [].
Proof.
  apply (@no_selected_week_no_demand plainHost sampleInputs otherYearState
           (fst (@calculateMrpDataInternal plainHost sampleInputs otherYearState))
           3%nat 0%nat 1%Z 20%Z 0%nat).
  - vm_compute. reflexivity.
  - vm_compute. reflexivity.
Defined.

Lemma column_error_iff_no_child_part_witness :
  ((forall c, In c (@bomHeadersOf plainHost noChildPart) ->
      @columnMatches plainHost childPartPredicates c = false) ->
   @calculateMrpDataInternal plainHost noChildPart emptyState =
   (emptyState,
    ColumnError (sheetName noChildPartBom)
      (@headerPreviewOf plainHost (@bomHeadersOf plainHost noChildPart)))) /\
  (forall st' sheet preview,
     @calculateMrpDataInternal plainHost noChildPart emptyState
     = (st', ColumnError sheet preview) ->
     forall c, In c (@bomHeadersOf plainHost noChildPart) ->
       @columnMatches plainHost childPartPredicates c = false).
Proof.
  apply (@column_error_iff_no_child_part plainHost noChildPart emptyState noChildPartBom);
    reflexivity.
Defined.

Lemma missing_policy_column_reads_zero_witness :
  (JS.findIndex (@lowerIncludes plainHost "mpq") [CStr "Material"; CStr "MPQ"] = (-1)%Z ->
   mpq (policy 10 0 0 0 0) = 0) /\
  (JS.findIndex (@lowerIncludes plainHost "moq") [CStr "Material"; CStr "MPQ"] = (-1)%Z ->
   moq (policy 10 0 0 0 0) = 0) /\
  (JS.findIndex (@lowerIncludes plainHost "reorder") [CStr "Material"; CStr "MPQ"] = (-1)%Z ->
   reorder (policy 10 0 0 0 0) = 0) /\
  (JS.findIndex
     (fun h => @lowerIncludes plainHost "instock" h || @lowerIncludes plainHost "in stock" h)
     [CStr "Material"; CStr "MPQ"] = (-1)%Z -> instock (policy 10 0 0 0 0) = 0) /\
  (JS.findIndex
     (fun h => @lowerIncludes plainHost "pending po" h
               || @lowerIncludes plainHost "pending_po" h)
     [CStr "Material"; CStr "MPQ"] = (-1)%Z -> pendingPo (policy 10 0 0 0 0) = 0).
Proof.
  apply (@missing_policy_column_reads_zero plainHost [CStr "Material"; CStr "MPQ"]
           [[CStr "C1"; CNum 10]] "C1"%string (policy 10 0 0 0 0)).
  vm_compute. reflexivity.
Defined.


Lemma material_without_master_lot_for_lot_witness :
  MrpRow.weeklyMrpQty (@rowOf plainHost sampleInputs emptyState "C2") =
  MrpRow.weeklyDemand (@rowOf plainHost sampleInputs emptyState "C2") /\
  MrpRow.mpq (@rowOf plainHost sampleInputs emptyState "C2") = 0 /\
  MrpRow.moq (@rowOf plainHost sampleInputs emptyState "C2") = 0 /\
  MrpRow.reorder (@rowOf plainHost sampleInputs emptyState "C2") = 0 /\
  MrpRow.instock (@rowOf plainHost sampleInputs emptyState "C2") = 0 /\
  MrpRow.pendingPo (@rowOf plainHost sampleInputs emptyState "C2") = 0 /\
  MrpRow.excessQty (@rowOf plainHost sampleInputs emptyState "C2") = 0.
Proof.
  apply (@material_without_master_lot_for_lot plainHost sampleInputs emptyState "C2").
  vm_compute. reflexivity.
Defined.

Lemma computation_needs_five_documents_witness :
  exists b mm i sd wp,
    fetchDataSource (Sources.bom sampleSources) = Some b /\
    fetchDataSource (Sources.materialMaster sampleSources) = Some mm /\
    fetchDataSource (Sources.idp sampleSources) = Some i /\
    fetchDataSource (Sources.supplierDetails sampleSources) = Some sd /\
    fetchDataSource (Sources.weekPlan sampleSources) = Some wp /\
    @calculateMrpDataInternal plainHost
      {| Inputs.bom := Some b; Inputs.materialMaster := Some mm; Inputs.idp := Some i;
         Inputs.supplierDetails := Some sd; Inputs.weekPlan := Some wp |}
      (clearRows emptyState)
    = (fst (@fetchAllData plainHost sampleSources emptyState),
       CalculationComplete 3 2 1 20 2) /\
    jsonData wp <> [] /\
    forall text, CalculationComplete 3 2 1 20 2 <> DataError text.
Proof.
  apply (@computation_needs_five_documents plainHost sampleSources emptyState
           (fst (@fetchAllData plainHost sampleSources emptyState))
           (CalculationComplete 3 2 1 20 2)).
  vm_compute. reflexivity.
Defined.

Lemma failed_run_clears_rows_witness :
  selectedYear (clearRows sampleState) = selectedYear sampleState /\
  startWeek (clearRows sampleState) = startWeek sampleState /\
  endWeek (clearRows sampleState) = endWeek sampleState /\
  mrpCalculatedData (clearRows sampleState) = None /\
  weekColumns (clearRows sampleState) = weekColumns sampleState /\
  allWeekColumns (clearRows sampleState) = allWeekColumns sampleState.
Proof.
  apply (@failed_run_clears_rows plainHost noWeekPlan sampleState (clearRows sampleState)
           DataLoadFailed).
  vm_compute. reflexivity.
Defined.

Lemma calculateMrp_outcomes_witness :
  selectedYear sampleState = selectedYear sampleState /\
  startWeek sampleState = startWeek sampleState /\
  endWeek sampleState = endWeek sampleState /\
  sampleState = sampleState /\
  @weekValidation plainHost "x" "5" = (false, EnterValidWeeks).
Proof.
  apply (@calculateMrp_outcomes plainHost "x"%string "5"%string sampleSources sampleState
           sampleState (InvalidWeekRange EnterValidWeeks)).
  vm_compute. reflexivity.
Defined.

Lemma filtered_rows_are_computed_rows_witness :
  exists data,
    mrpCalculatedData sampleState = Some data /\
    sublist (List.filter (fun r => String.eqb (MrpRow.material r) "C1") data) data /\
    (searchMaterial januaryFilter = ""%string ->
     poDateFrom januaryFilter = ""%string \/ poDateTo januaryFilter = ""%string ->
     List.filter (fun r => String.eqb (MrpRow.material r) "C1") data = data) /\
    (poDateFrom januaryFilter <> ""%string -> poDateTo januaryFilter <> ""%string ->
     forall r, In r (List.filter (fun r => String.eqb (MrpRow.material r) "C1") data) ->
       exists w, In w (@displayWeekColumns plainObjectHost januaryFilter sampleState) /\
                 @poInRange plainObjectHost januaryFilter r w = true).
Proof.
  destruct (@filtered_rows_are_computed_rows plainObjectHost januaryFilter sampleState
              (List.filter (fun r => String.eqb (MrpRow.material r) "C1")
                 (match mrpCalculatedData sampleState with Some d => d | None => [] end)))
    as (data & Hd & Hrest).
  - vm_compute. reflexivity.
  - exists data. split; [exact Hd|].
    assert (Heq : match mrpCalculatedData sampleState with Some d => d | None => [] end = data)
      by (rewrite Hd; reflexivity).
    rewrite Heq in Hrest. exact Hrest.
Defined.

Lemma export_sheet_shape_witness :
  exists data rows,
    mrpCalculatedData sampleState = Some data /\
    match @exportToExcel plainObjectHost januaryFilter sampleState with
    | Exported aoa => aoa
    | _ => []
    end = exportHeaders (@exportWeeks plainObjectHost januaryFilter sampleState data) :: rows /\
    rows <> [] /\
    List.length rows =
    List.length (@applyFilters plainObjectHost januaryFilter (weekColumns sampleState) data) /\
    Forall
      (fun r =>
         List.length r =
         (11 + 2 * List.length (@exportWeeks plainObjectHost januaryFilter sampleState data))%nat)
      match @exportToExcel plainObjectHost januaryFilter sampleState with
      | Exported aoa => aoa
      | _ => []
      end /\
    forall i r, nth_error rows i = Some r ->
      exists item,
        nth_error (@applyFilters plainObjectHost januaryFilter (weekColumns sampleState) data) i
        = Some item /\
        nth_error r 0 = Some (CNum (inject_Z (Z.of_nat i + 1))) /\
        nth_error r 1 = Some (CStr (MrpRow.material item)).
Proof.
  apply (@export_sheet_shape plainObjectHost januaryFilter sampleState).
  vm_compute. reflexivity.
Defined.

Lemma exported_weeks_are_displayed_witness :
  sublist
    (@exportWeeks plainObjectHost januaryFilter sampleState
       (match mrpCalculatedData sampleState with Some d => d | None => [] end))
    (@displayWeekColumns plainObjectHost januaryFilter sampleState) /\
  sublist (@displayWeekColumns plainObjectHost januaryFilter sampleState)
    (weekColumns sampleState).
Proof.
  apply (@exported_weeks_are_displayed plainObjectHost januaryFilter sampleState
           match @exportToExcel plainObjectHost januaryFilter sampleState with
           | Exported aoa => aoa
           | _ => []
           end).
  - vm_compute. reflexivity.
  - vm_compute. reflexivity.
Defined.

Lemma po_date_text_reads_back_witness :
  @parsePoDateToIso plainObjectHost (formatPoDate (Some 19758)) =
  Some (isoDate (2000 + JSDate.getFullYear 19758 mod 100) (JSDate.getMonth 19758 + 1)
          (JSDate.getDate 19758)).
Proof.
  apply (@po_date_text_reads_back plainObjectHost 19758).
  split; apply Z.leb_le; vm_compute; reflexivity.
Defined.


End FurtherExamples.
